(** * The "graph" sheet web app (Google Apps Script), embedded in Rocq

    The script under verification is [src/script.js]: the request handlers
    [doGet] and [doPost], the helpers [createJsonResponse],
    [createErrorResponse] and [formatDate], the aggregation functions
    [getDataByFilter] and [getStatistics], and the bootstrap [setupSheet].

    The embedding is shallow.  JavaScript values are an inductive type, numbers
    are the binary64 floats of the kernel, strings are byte strings (UTF-8),
    the spreadsheet is explicit state, and an exception is a value of a
    result type.  Definitions keep the names of the script. *)

From Stdlib Require Import ZArith String Ascii List Floats Lia.
From Stdlib Require Import DecimalString DecimalPos DecimalNat DecimalFacts.
From stdpp Require Import gmap strings list.

Local Open Scope Z_scope.
Set Warnings "-register-all".

(** ** Strings *)

Module Str.

Definition repeat (c : ascii) (n : nat) : string :=
  Nat.iter n (String c) EmptyString.

(** [s.padStart(targetLength, c)] for a one-character pad string. *)
Definition padStart (targetLength : nat) (c : ascii) (s : string) : string :=
  repeat c (targetLength - String.length s) +:+ s.

(** [String(n)] for a non-negative integer: row counts and array indices
    are integers below 2^53, whose string is the decimal numeral. *)
Definition of_nat (n : nat) : string :=
  NilZero.string_of_uint (Nat.to_uint n).

(** [s.split(c)[0]]: the part of [s] before the first [c]. *)
Fixpoint before (c : ascii) (s : string) : string :=
  match s with
  | EmptyString => EmptyString
  | String a r => if Ascii.eqb a c then EmptyString else String a (before c r)
  end.

Fixpoint join (sep : string) (l : list string) : string :=
  match l with
  | [] => EmptyString
  | [s] => s
  | s :: r => s +:+ sep +:+ join sep r
  end.

Definition code (c : ascii) : Z := Z.of_N (N_of_ascii c).

Definition is_empty (s : string) : bool :=
  match s with EmptyString => true | _ => false end.

End Str.

(** ** Exceptions

    A computation that may throw returns a [result].  A thrown value is an
    Error object, of which the script reads the [message] only. *)

Inductive exn : Type := Error (name message : string).

Definition message (e : exn) : string := let '(Error _ m) := e in m.

Inductive result (A : Type) : Type :=
| Ok (a : A)
| Throw (e : exn).
Arguments Ok {A} a.
Arguments Throw {A} e.

(** ** JavaScript values

    What a cell of the sheet, a field of a request body or a field of a
    criteria object can hold.  A Date object is represented by its time value
    (milliseconds since the epoch), [None] being the NaN of an invalid date.
    An object literal or a parsed JSON object is the list of its own
    properties. *)

Inductive value : Type :=
| VUndefined
| VNull
| VBool (b : bool)
| VNum (f : float)
| VStr (s : string)
| VDate (t : option Z)
| VArr (l : list value)
| VObj (fields : list (string * value)).

Module JS.

(** ToBoolean. *)
Definition truthy (v : value) : bool :=
  match v with
  | VUndefined | VNull => false
  | VBool b => b
  | VNum f => negb (PrimFloat.is_nan f || PrimFloat.eqb f 0)
  | VStr s => negb (Str.is_empty s)
  | VDate _ | VArr _ | VObj _ => true
  end.

(** [a || b]. *)
Definition or (a b : value) : value := if truthy a then a else b.

(** [!a]. *)
Definition not (a : value) : bool := negb (truthy a).

(** [a === b].  Objects are equal when they are the same object; the script
    compares a cell read from the sheet with a field of the caller's
    criteria, which are never the same object. *)
Definition strict_eq (a b : value) : bool :=
  match a, b with
  | VUndefined, VUndefined => true
  | VNull, VNull => true
  | VBool x, VBool y => Bool.eqb x y
  | VNum x, VNum y => PrimFloat.eqb x y
  | VStr x, VStr y => String.eqb x y
  | _, _ => false
  end.

(** [a[i]] on an array: [undefined] out of range. *)
Definition index (a : list value) (i : nat) : value :=
  nth i a VUndefined.

Fixpoint lookup_field (k : string) (fields : list (string * value)) : option value :=
  match fields with
  | [] => None
  | (k', v) :: r => if String.eqb k k' then Some v else lookup_field k r
  end.

(** [o.k] for one of the property names the script reads ([projectName],
    [projectType], [region], [price]): none of them is a property of the
    built-in prototypes, so only an object has it, and only as an own
    property.  Reading a property of [null] or [undefined] throws. *)
Definition prop (o : value) (k : string) : result value :=
  match o with
  | VUndefined => Throw (Error "TypeError" ("Cannot read properties of undefined (reading '" +:+ k +:+ "')"))
  | VNull => Throw (Error "TypeError" ("Cannot read properties of null (reading '" +:+ k +:+ "')"))
  | VObj fields => Ok (default VUndefined (lookup_field k fields))
  | _ => Ok VUndefined
  end.

End JS.

(** ** The engine

    Built-in functions whose result the language leaves to the implementation
    or that stand for a large algorithm; the script is verified for every
    engine.  [NumberToString] is Number::toString in radix 10, [DateToString]
    is Date.prototype.toString (it names the time zone of the script),
    [DateParse] is Date.parse with [None] for NaN (formats other than the ISO
    one are implementation-defined), [JSON_parse] is JSON.parse, which throws
    a SyntaxError on a text that is not JSON, and [JSON_stringify] is
    JSON.stringify on a value without cycles, and [FunctionToString] is
    Function.prototype.toString on the built-in function of a name (its
    text is implementation-defined).  What the language asks of
    [NumberToString] is the class [Lawful] below. *)

Class Engine : Type := {
  NumberToString : float -> string;
  DateToString : option Z -> string;
  DateParse : string -> option Z;
  JSON_parse : string -> result value;
  JSON_stringify : value -> string;
  FunctionToString : string -> string
}.

(** ** Numbers *)

Module Num.

(** The binary64 value nearest to an integer (ties to even). *)
Definition of_Z (z : Z) : float :=
  SF2Prim (binary_normalize prec emax z 0 false).

Definition of_nat (n : nat) : float := of_Z (Z.of_nat n).

(** The binary64 value nearest to [m * 10^e] for [0 <= m], with the sign
    [neg]: an exact integer is rounded once, a quotient by a power of ten
    is rounded once by the division on unbounded mantissas. *)
Definition of_decimal (neg : bool) (m e : Z) : float :=
  match m with
  | Zpos p =>
      SF2Prim
        match e with
        | Zneg k =>
            SFdiv prec emax (S754_finite neg p 0) (S754_finite false (Pos.pow 10 k) 0)
        | _ => binary_normalize prec emax (if neg then - (m * 10 ^ e) else m * 10 ^ e) 0 false
        end
  | _ => if neg then neg_zero else zero
  end.

Definition digit (c : ascii) : option Z :=
  let n := Str.code c in
  if (48 <=? n) && (n <=? 57) then Some (n - 48) else None.

(** The longest prefix of decimal digits, and the rest. *)
Fixpoint span_digits (s : string) : list Z * string :=
  match s with
  | EmptyString => ([], s)
  | String c r =>
      match digit c with
      | Some d => let '(ds, rest) := span_digits r in (d :: ds, rest)
      | None => ([], s)
      end
  end.

Definition digits_value (ds : list Z) : Z :=
  fold_left (fun acc d => 10 * acc + d) ds 0.

(** StrWhiteSpaceChar, in UTF-8: TAB, LF, VT, FF, CR, SP, U+00A0, U+1680,
    U+2000..U+200A, U+2028, U+2029, U+202F, U+205F, U+3000 and U+FEFF. *)
Fixpoint trim_start (s : string) : string :=
  match s with
  | String c r =>
      let n := Str.code c in
      if (9 <=? n) && (n <=? 13) || (n =? 32) then trim_start r
      else
        match r with
        | String c1 r1 =>
            let n1 := Str.code c1 in
            if (n =? 194) && (n1 =? 160) then trim_start r1
            else
              match r1 with
              | String c2 r2 =>
                  let n2 := Str.code c2 in
                  if (n =? 225) && (n1 =? 154) && (n2 =? 128)
                     || (n =? 226) && (n1 =? 128)
                        && ((128 <=? n2) && (n2 <=? 138) || (n2 =? 168) || (n2 =? 169) || (n2 =? 175))
                     || (n =? 226) && (n1 =? 129) && (n2 =? 159)
                     || (n =? 227) && (n1 =? 128) && (n2 =? 128)
                     || (n =? 239) && (n1 =? 187) && (n2 =? 191)
                  then trim_start r2
                  else s
              | EmptyString => s
              end
        | EmptyString => s
        end
  | EmptyString => s
  end.

(** ExponentPart, when the text goes on with one: [e] or [E], an optional
    sign, and at least one digit.  Otherwise the literal ends before it. *)
Definition exponent (s : string) : Z :=
  match s with
  | String c r =>
      if (Str.code c =? 101) || (Str.code c =? 69) then
        let '(neg, r') :=
          match r with
          | String "+" r' => (false, r')
          | String "-" r' => (true, r')
          | _ => (false, r)
          end in
        match span_digits r' with
        | ([], _) => 0
        | (ds, _) => if neg then - digits_value ds else digits_value ds
        end
      else 0
  | EmptyString => 0
  end.

Inductive numeral : Type :=
| Infinity
| Decimal (m e : Z).

(** The longest prefix that is a StrUnsignedDecimalLiteral:
    [Infinity], [digits . digits? exponent?], [. digits exponent?] or
    [digits exponent?]. *)
Definition unsigned_literal (s : string) : option numeral :=
  if String.prefix "Infinity" s then Some Infinity
  else
    let '(int, r) := span_digits s in
    match r with
    | String "." r1 =>
        let '(frac, r2) := span_digits r1 in
        match int, frac with
        | [], [] => None
        | _, [] => Some (Decimal (digits_value int) (exponent r2))
        | _, _ =>
            Some (Decimal (digits_value (int ++ frac))
                          (exponent r2 - Z.of_nat (length frac)))
        end
    | _ =>
        match int with
        | [] => None
        | _ => Some (Decimal (digits_value int) (exponent r))
        end
    end.

(** The longest prefix of the trimmed text that is a StrDecimalLiteral:
    its sign and its unsigned part. *)
Definition literal (s : string) : option (bool * numeral) :=
  let t := trim_start s in
  let '(neg, u) :=
    match t with
    | String "+" u => (false, u)
    | String "-" u => (true, u)
    | _ => (false, t)
    end in
  match unsigned_literal u with
  | Some n => Some (neg, n)
  | None => None
  end.

(** [parseFloat(s)] on a string: NaN when no prefix is a literal. *)
Definition parseFloat_string (s : string) : float :=
  match literal s with
  | None => nan
  | Some (neg, Infinity) => if neg then neg_infinity else infinity
  | Some (neg, Decimal m e) => of_decimal neg m e
  end.

(** A number is finite when it is neither NaN nor an infinity. *)
Definition is_finite (f : float) : bool :=
  negb (PrimFloat.is_nan f || PrimFloat.is_infinity f).

(** The number that the text of [f] denotes: [f] itself, but for [-0],
    whose text is that of [+0]. *)
Definition read_back (f : float) : float :=
  if PrimFloat.eqb f 0 then zero else f.

End Num.

(** ** Conversions that depend on the engine *)

Section Conversions.
Context `{Engine}.

(** ToString.  An array joins its elements with commas, [null] and
    [undefined] elements being empty. *)
Fixpoint ToString (v : value) : string :=
  match v with
  | VUndefined => "undefined"
  | VNull => "null"
  | VBool b => if b then "true" else "false"
  | VNum f => NumberToString f
  | VStr s => s
  | VDate t => DateToString t
  | VArr l =>
      Str.join ","
        (map (fun x => match x with
                       | VUndefined | VNull => EmptyString
                       | _ => ToString x
                       end) l)
  | VObj _ => "[object Object]"
  end.

(** [parseFloat(v)]: the parse of [ToString(v)]. *)
Definition parseFloat (v : value) : float :=
  Num.parseFloat_string (ToString v).

End Conversions.

(** An engine follows the language when the text of a number denotes that
    number (ECMA-262, Number::toString: the digits are chosen so that they
    denote [x]; NaN is written [NaN], which has no numeric prefix, and both
    zeros are written [0]). *)
Class Lawful `{Engine} : Prop := {
  NumberToString_reads_back :
    forall f, Num.parseFloat_string (NumberToString f) = Num.read_back f
}.

(** ** Dates *)

Module Date.

(** TimeClip: a time value is at most 8.64e15 ms away from the epoch. *)
Definition TimeClip (t : Z) : option Z :=
  if Z.abs t <=? 8640000000000000 then Some t else None.

(** The time value of a number: truncated towards zero, then clipped. *)
Definition of_number (f : float) : option Z :=
  match Prim2SF f with
  | S754_zero _ => Some 0
  | S754_finite s m e =>
      let a := match e with
               | Zneg k => Z.pos m / 2 ^ Z.pos k
               | _ => Z.pos m * 2 ^ e
               end in
      TimeClip (if s then - a else a)
  | S754_infinity _ | S754_nan => None
  end.

(** Year, month and day of a day number (days since 1970-01-01) in the
    proleptic Gregorian calendar. *)
Definition civil (days : Z) : Z * Z * Z :=
  let z := days + 719468 in
  let era := z / 146097 in
  let doe := z - era * 146097 in
  let yoe := (doe - doe / 1460 + doe / 36524 - doe / 146096) / 365 in
  let doy := doe - (365 * yoe + yoe / 4 - yoe / 100) in
  let mp := (5 * doy + 2) / 153 in
  let d := doy - (153 * mp + 2) / 5 + 1 in
  let m := if mp <? 10 then mp + 3 else mp - 9 in
  (yoe + era * 400 + (if m <=? 2 then 1 else 0), m, d).

(** The calendar as the language defines it, from the day number of a time
    value: DayFromYear is the day number of the first day of a year,
    DaysInYear its number of days; YearFromTime is the year [y] with
    [DayFromYear y <= day < DayFromYear (y + 1)], and MonthFromTime and
    DateFromTime are read from the day within the year in a table of the
    first days of the months, [month_start] (months from 1 to 12 here, the
    entry after December being the number of days of the year). *)
Definition DayFromYear (y : Z) : Z :=
  365 * (y - 1970) + (y - 1969) / 4 - (y - 1901) / 100 + (y - 1601) / 400.

Definition DaysInYear (y : Z) : Z :=
  if negb (y mod 4 =? 0) then 365
  else if negb (y mod 100 =? 0) then 366
  else if negb (y mod 400 =? 0) then 365
  else 366.

Definition InLeapYear (y : Z) : Z := DaysInYear y - 365.

Definition month_start (y m : Z) : Z :=
  let leap := InLeapYear y in
  match m with
  | 1 => 0
  | 2 => 31
  | 3 => 59 + leap
  | 4 => 90 + leap
  | 5 => 120 + leap
  | 6 => 151 + leap
  | 7 => 181 + leap
  | 8 => 212 + leap
  | 9 => 243 + leap
  | 10 => 273 + leap
  | 11 => 304 + leap
  | 12 => 334 + leap
  | _ => 365 + leap
  end.

Definition pad (width : nat) (n : Z) : string :=
  Str.padStart width "0" (Str.of_nat (Z.to_nat n)).

(** The year of the ISO format: four digits from 0 to 9999, otherwise a
    sign and six digits. *)
Definition iso_year (y : Z) : string :=
  if (0 <=? y) && (y <=? 9999) then pad 4 y
  else (if y <? 0 then "-" else "+") +:+ pad 6 (Z.abs y).

(** The text of [toISOString] for a valid time value:
    [YYYY-MM-DDTHH:mm:ss.sssZ]. *)
Definition iso (t : Z) : string :=
  let '(y, m, d) := civil (t / 86400000) in
  let ms := t mod 86400000 in
  iso_year y +:+ "-" +:+ pad 2 m +:+ "-" +:+ pad 2 d +:+ "T"
    +:+ pad 2 (ms / 3600000) +:+ ":" +:+ pad 2 (ms / 60000 mod 60) +:+ ":"
    +:+ pad 2 (ms / 1000 mod 60) +:+ "." +:+ pad 3 (ms mod 1000) +:+ "Z".

(** [date.toISOString()]: a RangeError on an invalid date. *)
Definition toISOString (date : option Z) : result string :=
  match date with
  | Some t => Ok (iso t)
  | None => Throw (Error "RangeError" "Invalid time value")
  end.

(** [a < b] and [a > b] on Date objects compare the time values as
    numbers; a comparison with NaN is false. *)
Definition lt (a b : option Z) : bool :=
  match a, b with
  | Some x, Some y => x <? y
  | _, _ => false
  end.

Definition gt (a b : option Z) : bool := lt b a.

Section Construct.
Context `{Engine}.

(** [new Date(v)]: the time value of the new object.  A Date object is
    copied, a string is parsed, an object is converted to a string and
    parsed, any other value is converted to a number. *)
Definition construct (v : value) : option Z :=
  match v with
  | VDate t => t
  | VStr s => t ← DateParse s; TimeClip t
  | VArr _ | VObj _ => t ← DateParse (ToString v); TimeClip t
  | VNum f => of_number f
  | VBool b => Some (if b then 1 else 0)
  | VNull => Some 0
  | VUndefined => None
  end.

End Construct.

End Date.

(** ** The spreadsheet host

    A sheet is represented by the rows of its data range, from row 1 to the
    last row with content; a row is the list of its cells.  The spreadsheet
    maps the names of its sheets to them.  The script reads the columns 0 to
    6 of a row; a cell that a row does not have reads as [undefined] (the
    host pads the rows of a range with empty strings: both are falsy). *)

Abbreviation row := (list value).
Abbreviation sheet := (list (list value)).

(** The calls of the script into the spreadsheet service; any of them can
    throw.  The two calls that a run makes twice, [getRange] and
    [setValues], come with the range that they are about (its first row and
    column, its numbers of rows and columns), so that each call of a run
    throws or returns on its own. *)
Inductive call : Type :=
| GetActiveSpreadsheet
| GetSheetByName
| InsertSheet
| GetDataRange
| GetValues
| GetLastRow
| AppendRow
| GetRange (row column numRows numColumns : nat)
| SetValues (row column numRows numColumns : nat).

(** The world of one execution: the sheets of the active spreadsheet, the
    clock ([new Date()], a time value), and the calls that throw in this
    execution, with the error they throw. *)
Record world : Type := {
  sheets : gmap string sheet;
  now : Z;
  fault : call -> option exn
}.

Definition with_sheets (w : world) (s : gmap string sheet) : world :=
  {| sheets := s; now := now w; fault := fault w |}.

(** A host on which no call throws. *)
Definition quiet (w : world) : Prop := forall c, fault w c = None.

(** Computations of the script: they read and write the world and may
    throw. *)
Definition M (A : Type) : Type := world -> result A * world.

Definition ret {A : Type} (a : A) : M A := fun w => (Ok a, w).

Definition bind {A B : Type} (c : M A) (f : A -> M B) : M B := fun w =>
  match c w with
  | (Ok a, w') => f a w'
  | (Throw e, w') => (Throw e, w')
  end.

Notation "'let*' x ':=' c 'in' k" := (bind c (fun x => k))
  (at level 10, x name, c at level 100, k at level 200).
Notation "c '>>' k" := (bind c (fun _ => k))
  (at level 100, k at level 200, right associativity).

Definition throw {A : Type} (e : exn) : M A := fun w => (Throw e, w).

Definition lift {A : Type} (r : result A) : M A := fun w => (r, w).

(** [try { body } catch (error) { handler }]. *)
Definition try_catch {A : Type} (body : M A) (handler : exn -> M A) : M A :=
  fun w =>
    match body w with
    | (Ok a, w') => (Ok a, w')
    | (Throw e, w') => handler e w'
    end.

(** [a || b] on conditions, [b] being evaluated only when [a] is false. *)
Definition orM (a b : M bool) : M bool :=
  let* x := a in if x then ret true else b.

Module Host.

Inductive spreadsheet : Type := ActiveSpreadsheet.

(** A sheet object: a reference to the sheet of that name. *)
Inductive handle : Type := Sheet (name : string).

Record range : Type := {
  range_sheet : handle;
  range_row : nat;
  range_column : nat;
  range_numRows : nat;
  range_numColumns : nat
}.

Definition called (c : call) : M unit := fun w =>
  match fault w c with
  | Some e => (Throw e, w)
  | None => (Ok tt, w)
  end.

Definition clock : M Z := fun w => (Ok (now w), w).

Definition read (h : handle) : M sheet := fun w =>
  let '(Sheet name) := h in
  match sheets w !! name with
  | Some s => (Ok s, w)
  | None => (Throw (Error "Exception" "The sheet no longer exists"), w)
  end.

Definition write (h : handle) (s : sheet) : M unit := fun w =>
  let '(Sheet name) := h in
  (Ok tt, with_sheets w (<[name := s]> (sheets w))).

(** [SpreadsheetApp.getActiveSpreadsheet()]. *)
Definition getActiveSpreadsheet : M spreadsheet :=
  called GetActiveSpreadsheet >> ret ActiveSpreadsheet.

(** [spreadsheet.getSheetByName(name)]: [null] when there is none. *)
Definition getSheetByName (_ : spreadsheet) (name : string) : M (option handle) :=
  called GetSheetByName >>
  fun w =>
    match sheets w !! name with
    | Some _ => (Ok (Some (Sheet name)), w)
    | None => (Ok None, w)
    end.

(** [spreadsheet.insertSheet(name)]: a new, empty sheet. *)
Definition insertSheet (_ : spreadsheet) (name : string) : M handle :=
  called InsertSheet >>
  fun w =>
    match sheets w !! name with
    | Some _ => (Throw (Error "Exception" "A sheet with that name already exists"), w)
    | None => (Ok (Sheet name), with_sheets w (<[name := []]> (sheets w)))
    end.

(** [sheet.getDataRange().getValues()]: the rows of the data range; on a
    sheet without content the range is the cell A1, which is empty. *)
Definition getValues (h : handle) : M (list row) :=
  called GetDataRange >>
  called GetValues >>
  let* s := read h in
  ret (match s with [] => [[VStr ""]] | _ => s end).

(** [sheet.getLastRow()]: the position of the last row with content. *)
Definition getLastRow (h : handle) : M nat :=
  called GetLastRow >>
  let* s := read h in
  ret (length s).

(** [sheet.appendRow(rowData)]: a new row after the last one, its cells
    stored as they are given. *)
Definition appendRow (h : handle) (rowData : row) : M unit :=
  called AppendRow >>
  let* s := read h in
  write h (s ++ [rowData]).

(** [sheet.getRange(row, column, numRows, numColumns)], 1-based. *)
Definition getRange (h : handle) (r c numRows numColumns : nat) : M range :=
  called (GetRange r c numRows numColumns) >>
  ret {| range_sheet := h; range_row := r; range_column := c;
          range_numRows := numRows; range_numColumns := numColumns |}.

(** The cells [cells] written into a row from the 0-based column [c];
    cells before [c] that the row does not have are blank. *)
Definition write_cells (c : nat) (cells : row) (old : row) : row :=
  take c (old ++ replicate (c - length old) (VStr ""))
    ++ cells ++ drop (c + length cells) old.

(** The row at the 0-based position [r] replaced; rows before [r] that the
    sheet does not have are blank. *)
Definition set_row (r : nat) (x : row) (s : sheet) : sheet :=
  if (r <? length s)%nat then <[r := x]> s
  else s ++ replicate (r - length s) [] ++ [x].

Fixpoint write_rows (r c : nat) (values : list row) (s : sheet) : sheet :=
  match values with
  | [] => s
  | v :: vs => write_rows (S r) c vs (set_row r (write_cells c v (nth r s [])) s)
  end.

(** [range.setValues(values)]: the dimensions of [values] must be those
    of the range. *)
Definition setValues (rg : range) (values : list row) : M unit :=
  called (SetValues (range_row rg) (range_column rg)
                    (range_numRows rg) (range_numColumns rg)) >>
  if (length values =? range_numRows rg)%nat
     && forallb (fun v => (length v =? range_numColumns rg)%nat) values
  then
    let* s := read (range_sheet rg) in
    write (range_sheet rg)
          (write_rows (range_row rg - 1) (range_column rg - 1) values s)
  else throw (Error "Exception" "The data does not match the dimensions of the range").

End Host.

(** ** The script *)

(** [ContentService.createTextOutput(text)] and [setMimeType]: the text of a
    response and its content type. *)
Inductive MimeType : Type := TEXT | JSON.

Record TextOutput : Type := {
  getContent : string;
  getMimeType : MimeType
}.

Definition createTextOutput (text : string) : TextOutput :=
  {| getContent := text; getMimeType := TEXT |}.

Definition setMimeType (out : TextOutput) (m : MimeType) : TextOutput :=
  {| getContent := getContent out; getMimeType := m |}.

(** The event of a POST request: [e.postData.contents] is the body. *)
Record PostData : Type := { contents : string }.
Record Event : Type := { postData : option PostData }.

(** What a counter holds under a name: a count, or the text that [+ 1]
    makes of a value that is not a number. *)
Inductive tally : Type :=
| Count (n : nat)
| Text (s : string).

(** The properties that an object literal inherits from [Object.prototype]:
    the built-in methods, each a function with a name, and the accessor
    [__proto__], whose getter returns the prototype and whose setter
    ignores a value that is neither an object nor [null]. *)
Inductive inherited_property : Type :=
| Method (name : string)
| Accessor.

Definition Object_prototype (k : string) : option inherited_property :=
  if decide (k = "constructor") then Some (Method "Object")
  else if decide (k = "__proto__") then Some Accessor
  else if decide (k ∈ ["hasOwnProperty"; "isPrototypeOf"; "propertyIsEnumerable";
                       "toLocaleString"; "toString"; "valueOf"; "__defineGetter__";
                       "__defineSetter__"; "__lookupGetter__"; "__lookupSetter__"])
       then Some (Method k)
  else None.

(** What [counts[k]] reads in a counter, an object literal that holds the
    own properties [counts]: the own property, or else the inherited one,
    or else [undefined]. *)
Inductive reading : Type :=
| Own (t : tally)
| Inherited (p : inherited_property)
| Nothing.

Definition lookup_counter (counts : gmap string tally) (k : string) : reading :=
  match counts !! k with
  | Some t => Own t
  | None =>
      match Object_prototype k with
      | Some p => Inherited p
      | None => Nothing
      end
  end.

(** [counts[k] = t]: an own property is written, a new one is created,
    except under the name of the inherited accessor, whose setter is called
    instead and ignores [t], a number or a text. *)
Definition assign_counter (counts : gmap string tally) (k : string) (t : tally) :
  gmap string tally :=
  match lookup_counter counts k with
  | Inherited Accessor => counts
  | _ => <[k := t]> counts
  end.

(** The object returned by [getStatistics]; the two counters are object
    literals used as maps from a name to its count. *)
Record Statistics : Type := {
  totalOrders : nat;
  totalRevenue : float;
  avgPrice : float;
  projectTypeCounts : gmap string tally;
  regionCounts : gmap string tally
}.

(** The double quote, for the messages that contain one. *)
Definition dq : string := String (ascii_of_nat 34) EmptyString.

Section Script.
Context `{Engine}.

(** [n || d] on numbers. *)
Definition number_or (n d : float) : float :=
  if JS.truthy (VNum n) then n else d.

Definition createJsonResponse (data : value) : TextOutput :=
  setMimeType (createTextOutput (JSON_stringify data)) JSON.

Definition createErrorResponse (msg : string) : TextOutput :=
  setMimeType (createTextOutput (JSON_stringify (VObj [("error", VStr msg)]))) JSON.

Definition formatDate (dateValue : value) : value :=
  if JS.not dateValue then VNull
  else
    match
      (let date := Date.construct dateValue in
       match Date.toISOString date with
       | Ok s => Ok (VStr (Str.before "T" s))
       | Throw e => Throw e
       end)
    with
    | Ok v => v
    | Throw error => VNull
    end.

(** [new Date().toISOString().split('T')[0]] when the clock reads [t]. *)
Definition today (t : Z) : string := Str.before "T" (Date.iso t).

(** The function that [doGet] maps over the data rows; [index] is the
    0-based position of the row among them and [clock] the time of the
    call. *)
Definition rowToRecord (clock : Z) (row : row) (index : nat) : value :=
  VObj [
    ("orderId", JS.or (JS.index row 0)
                  (VStr ("ORD-" +:+ Str.padStart 3 "0" (Str.of_nat (index + 1)))));
    ("projectId", JS.or (JS.index row 1)
                  (VStr ("PRJ-" +:+ Str.padStart 3 "0" (Str.of_nat (index + 1)))));
    ("projectName", JS.or (JS.index row 2) (VStr "Unnamed Project"));
    ("projectType", JS.or (JS.index row 3) (VStr "Other"));
    ("region", JS.or (JS.index row 4) (VStr "Unknown"));
    ("price", VNum (number_or (parseFloat (JS.index row 5)) 0));
    ("date", JS.or (formatDate (JS.index row 6)) (VStr (today clock)))
  ].

Definition doGet : M TextOutput :=
  try_catch
    (let* spreadsheet := Host.getActiveSpreadsheet in
     let* sheet := Host.getSheetByName spreadsheet "graph" in
     match sheet with
     | None =>
         ret (createErrorResponse
                ("Sheet " +:+ dq +:+ "graph" +:+ dq +:+ " not found. Please create a sheet named "
                 +:+ dq +:+ "graph" +:+ dq +:+ " with the required columns."))
     | Some sheet =>
         let* data := Host.getValues sheet in
         if (length data <=? 1)%nat then ret (createJsonResponse (VArr []))
         else
           let headers := nth 0 data [] in
           let rows := drop 1 data in
           let* clock := Host.clock in
           let jsonData := imap (fun index row => rowToRecord clock row index) rows in
           ret (createJsonResponse (VArr jsonData))
     end)
    (fun error =>
       ret (createErrorResponse ("Failed to fetch data: " +:+ message error))).

(** [!data.k]. *)
Definition missing (data : value) (k : string) : M bool :=
  let* v := lift (JS.prop data k) in ret (JS.not v).

Definition doPost (e : Event) : M TextOutput :=
  try_catch
    (let* text :=
       match postData e with
       | Some p => ret (contents p)
       | None =>
           throw (Error "TypeError" "Cannot read properties of undefined (reading 'contents')")
       end in
     let* data := lift (JSON_parse text) in
     let* invalid :=
       orM (missing data "projectName")
           (orM (missing data "projectType")
                (orM (missing data "region") (missing data "price"))) in
     if invalid then ret (createErrorResponse "Missing required fields")
     else
       let* spreadsheet := Host.getActiveSpreadsheet in
       let* sheet := Host.getSheetByName spreadsheet "graph" in
       match sheet with
       | None =>
           ret (createErrorResponse
                  ("Sheet " +:+ dq +:+ "graph" +:+ dq +:+ " not found. Please create a sheet named "
                   +:+ dq +:+ "graph" +:+ dq +:+ " first."))
       | Some sheet =>
           let* lastRow := Host.getLastRow sheet in
           let orderId := "ORD-" +:+ Str.padStart 3 "0" (Str.of_nat lastRow) in
           let projectId := "PRJ-" +:+ Str.padStart 3 "0" (Str.of_nat lastRow) in
           let* projectName := lift (JS.prop data "projectName") in
           let* projectType := lift (JS.prop data "projectType") in
           let* region := lift (JS.prop data "region") in
           let* price := lift (JS.prop data "price") in
           let* clock := Host.clock in
           let rowData :=
             [VStr orderId; VStr projectId; projectName; projectType; region; price;
              VStr (today clock)] in
           Host.appendRow sheet rowData >>
           ret (createJsonResponse
                  (VObj [("success", VBool true);
                         ("message", VStr "Data added successfully");
                         ("orderId", VStr orderId);
                         ("projectId", VStr projectId)]))
       end)
    (fun error =>
       ret (createErrorResponse ("Failed to add data: " +:+ message error))).

(** [rows.filter(keep)] for a test that may throw. *)
Fixpoint filterM {A : Type} (keep : A -> M bool) (l : list A) : M (list A) :=
  match l with
  | [] => ret []
  | x :: r =>
      let* k := keep x in
      let* r' := filterM keep r in
      ret (if k then x :: r' else r')
  end.

(** [criteria.k && row[i] !== criteria.k]. *)
Definition differs (criteria : value) (k : string) (row : row) (i : nat) : M bool :=
  let* c := lift (JS.prop criteria k) in
  if JS.truthy c then
    let* c' := lift (JS.prop criteria k) in
    ret (negb (JS.strict_eq (JS.index row i) c'))
  else ret false.

(** [criteria.startDate && criteria.endDate]. *)
Definition has_range (criteria : value) : M bool :=
  let* s := lift (JS.prop criteria "startDate") in
  if JS.truthy s then
    let* e := lift (JS.prop criteria "endDate") in ret (JS.truthy e)
  else ret false.

(** The function that [getDataByFilter] filters the data rows with. *)
Definition keepRow (criteria : value) (row : row) : M bool :=
  let* byType := differs criteria "projectType" row 3 in
  if byType then ret false
  else
    let* byRegion := differs criteria "region" row 4 in
    if byRegion then ret false
    else
      let* byDate := has_range criteria in
      if byDate then
        let rowDate := Date.construct (JS.index row 6) in
        let* s := lift (JS.prop criteria "startDate") in
        let startDate := Date.construct s in
        let* e := lift (JS.prop criteria "endDate") in
        let endDate := Date.construct e in
        if Date.lt rowDate startDate || Date.gt rowDate endDate then ret false
        else ret true
      else ret true.

Definition getDataByFilter (criteria : value) : M (list row) :=
  let* spreadsheet := Host.getActiveSpreadsheet in
  let* sheet := Host.getSheetByName spreadsheet "graph" in
  match sheet with
  | None => ret []
  | Some sheet =>
      let* data := Host.getValues sheet in
      let headers := nth 0 data [] in
      let rows := drop 1 data in
      filterM (keepRow criteria) rows
  end.

(** [(v || 0) + 1] for what a counter reads: a count that is not 0 is
    added to, a text that is not empty is appended to, and so are the text
    of a function and the text of the prototype object; anything else is
    falsy and gives 1. *)
Definition plus_one (v : reading) : tally :=
  match v with
  | Own (Count n) => Count (n + 1)
  | Own (Text s) => if Str.is_empty s then Count 1 else Text (s +:+ "1")
  | Inherited (Method name) => Text (FunctionToString name +:+ "1")
  | Inherited Accessor => Text "[object Object]1"
  | Nothing => Count 1
  end.

(** [counts[key] = (counts[key] || 0) + 1]; the property name of [key] is
    its string. *)
Definition increment (counts : gmap string tally) (key : value) : gmap string tally :=
  let k := ToString key in
  assign_counter counts k (plus_one (lookup_counter counts k)).

Definition getStatistics : M Statistics :=
  let* spreadsheet := Host.getActiveSpreadsheet in
  let* sheet := Host.getSheetByName spreadsheet "graph" in
  match sheet with
  | None =>
      ret {| totalOrders := 0; totalRevenue := 0; avgPrice := 0;
             projectTypeCounts := ∅; regionCounts := ∅ |}
  | Some sheet =>
      let* data := Host.getValues sheet in
      let rows := drop 1 data in
      let totalOrders := length rows in
      let totalRevenue :=
        foldl (fun sum row => (sum + number_or (parseFloat (JS.index row 5)) 0)%float)
              0%float rows in
      let avgPrice :=
        if (0 <? totalOrders)%nat then (totalRevenue / Num.of_nat totalOrders)%float
        else 0%float in
      let projectTypeCounts :=
        foldl (fun counts row => increment counts (JS.or (JS.index row 3) (VStr "Other")))
              ∅ rows in
      let regionCounts :=
        foldl (fun counts row => increment counts (JS.or (JS.index row 4) (VStr "Unknown")))
              ∅ rows in
      ret {| totalOrders := totalOrders; totalRevenue := totalRevenue;
             avgPrice := avgPrice; projectTypeCounts := projectTypeCounts;
             regionCounts := regionCounts |}
  end.

Definition doOptions : M TextOutput := ret (createTextOutput "").

Definition testScript : M bool :=
  try_catch (let* result := doGet in ret true) (fun error => ret false).

Definition headers : row :=
  [VStr "Order ID"; VStr "Project ID"; VStr "Project Name"; VStr "Project Type";
   VStr "Region"; VStr "Price"; VStr "Date"].

Definition sampleData : list row :=
  [ [VStr "ORD-001"; VStr "PRJ-001"; VStr "E-commerce Website"; VStr "Development";
     VStr "North America"; VNum 15000; VStr "2024-01-15"];
    [VStr "ORD-002"; VStr "PRJ-002"; VStr "Brand Identity Design"; VStr "Design";
     VStr "Europe"; VNum 8000; VStr "2024-01-20"];
    [VStr "ORD-003"; VStr "PRJ-003"; VStr "Digital Marketing Campaign"; VStr "Marketing";
     VStr "Asia Pacific"; VNum 12000; VStr "2024-01-25"];
    [VStr "ORD-004"; VStr "PRJ-004"; VStr "Mobile App Development"; VStr "Development";
     VStr "North America"; VNum 25000; VStr "2024-02-01"];
    [VStr "ORD-005"; VStr "PRJ-005"; VStr "UI/UX Redesign"; VStr "Design";
     VStr "Europe"; VNum 9500; VStr "2024-02-05"] ].

Definition setupSheet : M unit :=
  let* spreadsheet := Host.getActiveSpreadsheet in
  let* found := Host.getSheetByName spreadsheet "graph" in
  let* sheet :=
    match found with
    | Some sheet => ret sheet
    | None => Host.insertSheet spreadsheet "graph"
    end in
  let* lastRow := Host.getLastRow sheet in
  if (lastRow =? 0)%nat then
    let* top := Host.getRange sheet 1 1 1 (length headers) in
    Host.setValues top [headers] >>
    let* below :=
      Host.getRange sheet 2 1 (length sampleData) (length (nth 0 sampleData [])) in
    Host.setValues below sampleData
  else ret tt.

End Script.

(** ** A reference engine

    One engine, to run the script on concrete requests: numbers are written
    with the fewest digits that read back, dates are parsed in the ISO format
    and shown in UTC, and JSON texts are read and written by the functions
    below. *)

Module Reference.

(** *** Number::toString *)

Definition digits_of (n : Z) : string :=
  NilZero.string_of_uint (N.to_uint (Z.to_N n)).

(** The digits of a numeral, first digit first. *)
Fixpoint uint_digits (d : Decimal.uint) : list Z :=
  match d with
  | Decimal.Nil => []
  | Decimal.D0 d => 0 :: uint_digits d
  | Decimal.D1 d => 1 :: uint_digits d
  | Decimal.D2 d => 2 :: uint_digits d
  | Decimal.D3 d => 3 :: uint_digits d
  | Decimal.D4 d => 4 :: uint_digits d
  | Decimal.D5 d => 5 :: uint_digits d
  | Decimal.D6 d => 6 :: uint_digits d
  | Decimal.D7 d => 7 :: uint_digits d
  | Decimal.D8 d => 8 :: uint_digits d
  | Decimal.D9 d => 9 :: uint_digits d
  end.

(** The least [n] with [num / den < 10^n], for [0 < num] and [0 < den]. *)
Fixpoint magnitude_up (fuel : nat) (num den n : Z) : Z :=
  match fuel with
  | O => n
  | S fuel => if num <? den then n else magnitude_up fuel num (10 * den) (n + 1)
  end.

Fixpoint magnitude_down (fuel : nat) (num den n : Z) : Z :=
  match fuel with
  | O => n
  | S fuel => if den <=? 10 * num then n else magnitude_down fuel (10 * num) den (n - 1)
  end.

Definition magnitude (num den : Z) : Z :=
  if den <=? num then magnitude_up 400 num den 0 else magnitude_down 400 num den 0.

(** [num / den] in units of [10^p], rounded down. *)
Definition scaled (num den p : Z) : Z :=
  match p with
  | Zneg k => num * 10 ^ Z.pos k / den
  | _ => num / (den * 10 ^ p)
  end.

(** The distance from [num / den] to [s * 10^p], times [den] and a power
    of ten that depends on [p] only. *)
Definition distance (num den s p : Z) : Z :=
  match p with
  | Zneg k => Z.abs (num * 10 ^ Z.pos k - s * den)
  | _ => Z.abs (num - s * den * 10 ^ p)
  end.

(** The decimals [s * 10^(n - k)] with [k] digits that read back as [f],
    nearest first. *)
Definition candidates (f : float) (num den n0 k : Z) : list (Z * Z) :=
  let lo := scaled num den (n0 - k) in
  let hi := if lo + 1 <? 10 ^ k then (n0, lo + 1) else (n0 + 1, 10 ^ (k - 1)) in
  let reads '(n, s) := PrimFloat.Leibniz.eqb (Num.of_decimal false s (n - k)) f in
  let dist '(n, s) := distance num den s (n - k) * (if n =? n0 then 1 else 10) in
  let near :=
    if dist (n0, lo) <? dist hi then [(n0, lo); hi]
    else if dist hi <? dist (n0, lo) then [hi; (n0, lo)]
    else if Z.even lo then [(n0, lo); hi] else [hi; (n0, lo)] in
  List.filter reads near.

Fixpoint shortest (fuel : nat) (f : float) (num den n0 k : Z) : Z * Z * Z :=
  match fuel with
  | O => (n0, k, scaled num den (n0 - k))
  | S fuel =>
      match candidates f num den n0 k with
      | (n, s) :: _ => (n, k, s)
      | [] => shortest fuel f num den n0 (k + 1)
      end
  end.

Definition zeros (n : Z) : string := Str.repeat "0" (Z.to_nat n).

Definition write_decimal (n k s : Z) : string :=
  let ds := digits_of s in
  if (k <=? n) && (n <=? 21) then ds +:+ zeros (n - k)
  else if (0 <? n) && (n <=? 21) then
    String.substring 0 (Z.to_nat n) ds +:+ "."
      +:+ String.substring (Z.to_nat n) (Z.to_nat (k - n)) ds
  else if (-6 <? n) && (n <=? 0) then "0." +:+ zeros (- n) +:+ ds
  else
    let e := (if 0 <=? n - 1 then "+" else "-") +:+ digits_of (Z.abs (n - 1)) in
    if k =? 1 then ds +:+ "e" +:+ e
    else String.substring 0 1 ds +:+ "."
           +:+ String.substring 1 (Z.to_nat (k - 1)) ds +:+ "e" +:+ e.

(** The text with the fewest digits that the search finds. *)
Definition shortest_text (f : float) : string :=
  match Prim2SF f with
  | S754_nan => "NaN"
  | S754_zero _ => "0"
  | S754_infinity s => if s then "-Infinity" else "Infinity"
  | S754_finite s m e =>
      let '(num, den) :=
        match e with
        | Zneg k => (Z.pos m, 2 ^ Z.pos k)
        | _ => (Z.pos m * 2 ^ e, 1)
        end in
      let '(n, k, d) := shortest 17 (abs f) num den (magnitude num den) 1 in
      (if s then "-" else "") +:+ write_decimal n k d
  end.

(** The text of the exact value: [m * 2^e] is an integer for [0 <= e], and
    [m * 5^k] times [10^-k] for [e = - k]. *)
Definition exact_text (f : float) : string :=
  match Prim2SF f with
  | S754_nan => "NaN"
  | S754_zero _ => "0"
  | S754_infinity s => if s then "-Infinity" else "Infinity"
  | S754_finite s m e =>
      (if s then "-" else "") +:+
      match e with
      | Zneg k => digits_of (Z.pos (m * 5 ^ k)) +:+ "e-" +:+ digits_of (Z.pos k)
      | _ => digits_of (Z.pos m * 2 ^ e)
      end
  end.

(** The shortest text when it reads back, which is what the language asks
    of the digits; the exact one otherwise. *)
Definition NumberToString (f : float) : string :=
  let text := shortest_text f in
  if PrimFloat.Leibniz.eqb (Num.parseFloat_string text) (Num.read_back f) then text
  else exact_text f.

(** *** Dates: the ISO format, read and shown in UTC *)

(** Exactly [n] decimal digits. *)
Fixpoint number (n : nat) (acc : Z) (s : string) : option (Z * string) :=
  match n with
  | O => Some (acc, s)
  | S n =>
      match s with
      | String c r =>
          match Num.digit c with
          | Some d => number n (10 * acc + d) r
          | None => None
          end
      | EmptyString => None
      end
  end.

Definition leap (y : Z) : bool :=
  (y mod 4 =? 0) && (negb (y mod 100 =? 0) || (y mod 400 =? 0)).

Definition days_in_month (y m : Z) : Z :=
  if m =? 2 then (if leap y then 29 else 28)
  else if (m =? 4) || (m =? 6) || (m =? 9) || (m =? 11) then 30 else 31.

(** The day number of a date of the proleptic Gregorian calendar. *)
Definition days_from_civil (y m d : Z) : Z :=
  let y' := if m <=? 2 then y - 1 else y in
  let era := y' / 400 in
  let yoe := y' - era * 400 in
  let doy := (153 * (if 2 <? m then m - 3 else m + 9) + 2) / 5 + d - 1 in
  era * 146097 + (yoe * 365 + yoe / 4 - yoe / 100 + doy) - 719468.

Definition parse_year (s : string) : option (Z * string) :=
  match s with
  | String "+" r => number 6 0 r
  | String "-" r =>
      match number 6 0 r with
      | Some (0, _) => None
      | Some (y, r') => Some (- y, r')
      | None => None
      end
  | _ => number 4 0 s
  end.

(** [-MM] and [-DD], each optional; 1 when absent. *)
Definition parse_part (s : string) : option (Z * string) :=
  match s with
  | String "-" r => number 2 0 r
  | _ => Some (1, s)
  end.

(** [Z] or [+HH:mm] or [-HH:mm], in milliseconds; the end of the text
    otherwise (local time, which is UTC here). *)
Definition parse_offset (s : string) : option Z :=
  match s with
  | EmptyString => Some 0
  | String "Z" EmptyString => Some 0
  | String c r =>
      if (Str.code c =? 43) || (Str.code c =? 45) then
        match number 2 0 r with
        | Some (h, String ":" r1) =>
            match number 2 0 r1 with
            | Some (m, EmptyString) =>
                if (h <=? 23) && (m <=? 59) then
                  Some ((if Str.code c =? 45 then -1 else 1) * (h * 60 + m) * 60000)
                else None
            | _ => None
            end
        | _ => None
        end
      else None
  end.

(** [THH:mm], [THH:mm:ss] or [THH:mm:ss.sss] and an offset: the time of
    day in milliseconds, less the offset. *)
Definition parse_time (s : string) : option Z :=
  match number 2 0 s with
  | Some (h, String ":" r) =>
      match number 2 0 r with
      | Some (mi, r1) =>
          let '(sec, ms, r3) :=
            match r1 with
            | String ":" r2 =>
                match number 2 0 r2 with
                | Some (sec, String "." r3) =>
                    match number 3 0 r3 with
                    | Some (ms, r4) => (sec, ms, r4)
                    | None => (60, 0, r3)
                    end
                | Some (sec, r3) => (sec, 0, r3)
                | None => (60, 0, r2)
                end
            | _ => (0, 0, r1)
            end in
          if (h <=? 23) && (mi <=? 59) && (sec <=? 59)
             || (h =? 24) && (mi =? 0) && (sec =? 0) && (ms =? 0)
          then
            off ← parse_offset r3;
            Some (((h * 60 + mi) * 60 + sec) * 1000 + ms - off)
          else None
      | None => None
      end
  | _ => None
  end.

Definition DateParse (s : string) : option Z :=
  '(y, r) ← parse_year s;
  '(m, r1) ← parse_part r;
  '(d, r2) ← (if String.eqb r r1 then Some (1, r1) else parse_part r1);
  if (1 <=? m) && (m <=? 12) && (1 <=? d) && (d <=? days_in_month y m) then
    t ← match r2 with
        | EmptyString => Some 0
        | String "T" r3 => parse_time r3
        | _ => None
        end;
    Date.TimeClip (days_from_civil y m d * 86400000 + t)
  else None.

Definition pick (names : list string) (i : Z) : string :=
  nth (Z.to_nat i) names EmptyString.

Definition DateToString (t : option Z) : string :=
  match t with
  | None => "Invalid Date"
  | Some t =>
      let days := t / 86400000 in
      let ms := t mod 86400000 in
      let '(y, m, d) := Date.civil days in
      pick ["Sun"; "Mon"; "Tue"; "Wed"; "Thu"; "Fri"; "Sat"] ((days + 4) mod 7)
        +:+ " "
        +:+ pick ["Jan"; "Feb"; "Mar"; "Apr"; "May"; "Jun";
                  "Jul"; "Aug"; "Sep"; "Oct"; "Nov"; "Dec"] (m - 1)
        +:+ " " +:+ Date.pad 2 d +:+ " "
        +:+ (if y <? 0 then "-" else "") +:+ Date.pad 4 (Z.abs y) +:+ " "
        +:+ Date.pad 2 (ms / 3600000) +:+ ":" +:+ Date.pad 2 (ms / 60000 mod 60)
        +:+ ":" +:+ Date.pad 2 (ms / 1000 mod 60)
        +:+ " GMT+0000 (Coordinated Universal Time)"
  end.

(** *** JSON *)

Definition char (n : Z) : ascii := ascii_of_N (Z.to_N n).

Definition str (codes : list Z) : string :=
  fold_right (fun n r => String (char n) r) EmptyString codes.

(** The UTF-8 encoding of a code point. *)
Definition utf8 (cp : Z) : string :=
  if cp <? 128 then str [cp]
  else if cp <? 2048 then str [192 + cp / 64; 128 + cp mod 64]
  else if cp <? 65536 then
    str [224 + cp / 4096; 128 + cp / 64 mod 64; 128 + cp mod 64]
  else
    str [240 + cp / 262144; 128 + cp / 4096 mod 64; 128 + cp / 64 mod 64; 128 + cp mod 64].

Definition hex_digit (c : ascii) : option Z :=
  let n := Str.code c in
  if (48 <=? n) && (n <=? 57) then Some (n - 48)
  else if (65 <=? n) && (n <=? 70) then Some (n - 55)
  else if (97 <=? n) && (n <=? 102) then Some (n - 87)
  else None.

(** Four hexadecimal digits. *)
Definition hex4 (s : string) : option (Z * string) :=
  match s with
  | String a (String b (String c (String d r))) =>
      x ← hex_digit a; y ← hex_digit b; z ← hex_digit c; t ← hex_digit d;
      Some (((x * 16 + y) * 16 + z) * 16 + t, r)
  | _ => None
  end.

Fixpoint skip_ws (s : string) : string :=
  match s with
  | String c r =>
      let n := Str.code c in
      if (n =? 32) || (n =? 9) || (n =? 10) || (n =? 13) then skip_ws r else s
  | EmptyString => s
  end.

(** The characters of a string literal after its opening quote, up to the
    closing one. *)
Fixpoint string_body (fuel : nat) (s : string) : option (string * string) :=
  match fuel with
  | O => None
  | S fuel =>
      match s with
      | EmptyString => None
      | String c r =>
          let n := Str.code c in
          if n =? 34 then Some (EmptyString, r)
          else if n <? 32 then None
          else if n =? 92 then
            match r with
            | String e r1 =>
                let k := Str.code e in
                if k =? 117 then
                  '(u, r2) ← hex4 r1;
                  '(cp, r3) ←
                    (if (55296 <=? u) && (u <=? 56319) then
                       match r2 with
                       | String b (String v r') =>
                           if (Str.code b =? 92) && (Str.code v =? 117) then
                             match hex4 r' with
                             | Some (l, r'') =>
                                 if (56320 <=? l) && (l <=? 57343)
                                 then Some (65536 + (u - 55296) * 1024 + (l - 56320), r'')
                                 else Some (u, r2)
                             | None => None
                             end
                           else Some (u, r2)
                       | _ => Some (u, r2)
                       end
                     else Some (u, r2));
                  '(t, rest) ← string_body fuel r3;
                  Some (utf8 cp +:+ t, rest)
                else
                  code ←
                    (if k =? 34 then Some 34 else if k =? 92 then Some 92
                     else if k =? 47 then Some 47 else if k =? 98 then Some 8
                     else if k =? 102 then Some 12 else if k =? 110 then Some 10
                     else if k =? 114 then Some 13 else if k =? 116 then Some 9
                     else None);
                  '(t, rest) ← string_body fuel r1;
                  Some (String (char code) t, rest)
            | EmptyString => None
            end
          else
            '(t, rest) ← string_body fuel r;
            Some (String c t, rest)
      end
  end.

(** A JSON number: [-? int frac? exp?], no leading zero in [int]. *)
Definition json_number (s : string) : option (float * string) :=
  let '(neg, u) := match s with String "-" u => (true, u) | _ => (false, s) end in
  let '(int, r) := Num.span_digits u in
  match int with
  | [] => None
  | 0 :: _ :: _ => None
  | _ =>
      '(frac, r1) ←
        match r with
        | String "." r' =>
            match Num.span_digits r' with
            | ([], _) => None
            | p => Some p
            end
        | _ => Some ([], r)
        end;
      '(e, r2) ←
        match r1 with
        | String c r' =>
            if (Str.code c =? 101) || (Str.code c =? 69) then
              let '(eneg, r'') :=
                match r' with
                | String "+" x => (false, x)
                | String "-" x => (true, x)
                | _ => (false, r')
                end in
              match Num.span_digits r'' with
              | ([], _) => None
              | (ds, rest) =>
                  Some (if eneg then - Num.digits_value ds else Num.digits_value ds, rest)
              end
            else Some (0, r1)
        | EmptyString => Some (0, r1)
        end;
      Some (Num.of_decimal neg (Num.digits_value (int ++ frac)) (e - Z.of_nat (length frac)), r2)
  end.

(** A later member of the same name replaces the value of the earlier
    one, in its place. *)
Fixpoint set_field (k : string) (v : value) (fields : list (string * value)) :=
  match fields with
  | [] => [(k, v)]
  | (k', v') :: r =>
      if String.eqb k k' then (k, v) :: r else (k', v') :: set_field k v r
  end.

Fixpoint json_value (fuel : nat) (s : string) : option (value * string) :=
  match fuel with
  | O => None
  | S fuel =>
      match skip_ws s with
      | EmptyString => None
      | String c r as t =>
          let n := Str.code c in
          if n =? 123 then
            match skip_ws r with
            | String "}" r' => Some (VObj [], r')
            | _ => json_members fuel [] r
            end
          else if n =? 91 then
            match skip_ws r with
            | String "]" r' => Some (VArr [], r')
            | _ => json_elements fuel [] r
            end
          else if n =? 34 then
            '(x, r') ← string_body (String.length r) r; Some (VStr x, r')
          else if String.prefix "null" t then Some (VNull, String.substring 4 (String.length t) t)
          else if String.prefix "true" t then Some (VBool true, String.substring 4 (String.length t) t)
          else if String.prefix "false" t then Some (VBool false, String.substring 5 (String.length t) t)
          else '(f, r') ← json_number t; Some (VNum f, r')
      end
  end
with json_elements (fuel : nat) (acc : list value) (s : string) : option (value * string) :=
  match fuel with
  | O => None
  | S fuel =>
      '(v, r) ← json_value fuel s;
      match skip_ws r with
      | String "," r' => json_elements fuel (acc ++ [v]) r'
      | String "]" r' => Some (VArr (acc ++ [v]), r')
      | _ => None
      end
  end
with json_members (fuel : nat) (acc : list (string * value)) (s : string) : option (value * string) :=
  match fuel with
  | O => None
  | S fuel =>
      match skip_ws s with
      | String c r =>
          if Str.code c =? 34 then
            '(k, r1) ← string_body (String.length r) r;
            match skip_ws r1 with
            | String ":" r2 =>
                '(v, r3) ← json_value fuel r2;
                match skip_ws r3 with
                | String "," r' => json_members fuel (set_field k v acc) r'
                | String "}" r' => Some (VObj (set_field k v acc), r')
                | _ => None
                end
            | _ => None
            end
          else None
      | EmptyString => None
      end
  end.

Definition JSON_parse (text : string) : result value :=
  match json_value (2 * String.length text + 2) text with
  | Some (v, r) =>
      match skip_ws r with
      | EmptyString => Ok v
      | _ => Throw (Error "SyntaxError" "Unexpected non-whitespace character after JSON")
      end
  | None => Throw (Error "SyntaxError" "Unexpected token in JSON")
  end.

Definition hex (n : Z) : ascii :=
  char (if n <? 10 then 48 + n else 87 + n).

(** QuoteJSONString. *)
Fixpoint escape (s : string) : string :=
  match s with
  | EmptyString => EmptyString
  | String c r =>
      let n := Str.code c in
      (if n =? 34 then str [92; 34]
       else if n =? 92 then str [92; 92]
       else if n =? 8 then str [92; 98]
       else if n =? 12 then str [92; 102]
       else if n =? 10 then str [92; 110]
       else if n =? 13 then str [92; 114]
       else if n =? 9 then str [92; 116]
       else if n <? 32 then str [92; 117; 48; 48] +:+ String (hex (n / 16)) (String (hex (n mod 16)) EmptyString)
       else String c EmptyString) +:+ escape r
  end.

Definition quote (s : string) : string := dq +:+ escape s +:+ dq.

(** SerializeJSONProperty: [None] for [undefined], which an array writes
    as [null] and an object leaves out.  A Date writes its [toISOString],
    or [null] when it is invalid; a number that is not finite is [null]. *)
Fixpoint serialize (v : value) : option string :=
  match v with
  | VUndefined => None
  | VNull => Some "null"
  | VBool b => Some (if b then "true" else "false")
  | VNum f => Some (if Num.is_finite f then NumberToString f else "null")
  | VStr s => Some (quote s)
  | VDate (Some t) => Some (quote (Date.iso t))
  | VDate None => Some "null"
  | VArr l =>
      Some ("[" +:+ Str.join "," (map (fun x => default "null" (serialize x)) l) +:+ "]")
  | VObj fields =>
      Some ("{" +:+
            Str.join ","
              (omap (fun p => match serialize (snd p) with
                              | Some t => Some (quote (fst p) +:+ ":" +:+ t)
                              | None => None
                              end) fields)
            +:+ "}")
  end.

Definition JSON_stringify (v : value) : string := default "undefined" (serialize v).

(** The text of a built-in function, as V8 writes it. *)
Definition FunctionToString (name : string) : string :=
  "function " +:+ name +:+ "() { [native code] }".

#[export] Instance engine : Engine :=
  Build_Engine NumberToString DateToString DateParse JSON_parse JSON_stringify
               FunctionToString.

End Reference.


(** ** The vocabulary of the properties *)

Section Vocabulary.
Context `{Engine}.

(** The sheet named "graph". *)
Definition graph (w : world) : option sheet := sheets w !! "graph".

(** A response of the shape [{error: message}]. *)
Definition is_error (out : TextOutput) : Prop :=
  exists msg, out = createErrorResponse msg.

(** [data.k], [undefined] where reading it throws. *)
Definition field (data : value) (k : string) : value :=
  match JS.prop data k with
  | Ok v => v
  | Throw _ => VUndefined
  end.

(** A field of a request body that is absent or the empty string, and one
    that is absent or the number zero. *)
Definition absent_or_empty (data : value) (k : string) : Prop :=
  JS.prop data k = Ok VUndefined \/ JS.prop data k = Ok (VStr "").

Definition absent_or_zero (data : value) (k : string) : Prop :=
  JS.prop data k = Ok VUndefined \/
  exists f, JS.prop data k = Ok (VNum f) /\ PrimFloat.eqb f 0 = true.

(** A blank cell: the empty string that the host gives for a cell without
    content, or a cell that the row does not have. *)
Definition blank (cell : value) : Prop := cell = VStr "" \/ cell = VUndefined.

(** A cell that does not parse as a number. *)
Definition unparseable (cell : value) : Prop :=
  PrimFloat.is_nan (parseFloat cell) = true.

(** The names of the fields of a record. *)
Definition record_fields : list string :=
  ["orderId"; "projectId"; "projectName"; "projectType"; "region"; "price"; "date"].

(** A record whose price is a finite number. *)
Definition finite_price (record : value) : Prop :=
  exists f, JS.prop record "price" = Ok (VNum f) /\ Num.is_finite f = true.

(** The data rows of a sheet: all its rows but the first. *)
Definition data_rows (s : sheet) : list row := drop 1 s.

(** The name under which a cell is counted: its string, or the default when
    the cell is falsy (blank or missing; also the number 0 and [false]). *)
Definition name_of (d : string) (cell : value) : string :=
  if JS.truthy cell then ToString cell else d.

Definition projectType_of (r : row) : string := name_of "Other" (JS.index r 3).

Definition region_of (r : row) : string := name_of "Unknown" (JS.index r 4).

(** A falsy cell: blank or missing, [null], [false], or a number that is
    0 or NaN. *)
Definition falsy (cell : value) : Prop :=
  blank cell \/ cell = VNull \/ cell = VBool false \/
  exists f, cell = VNum f /\ (PrimFloat.is_nan f || PrimFloat.eqb f 0 = true).

(** The names that every object inherits from [Object.prototype]: a
    counter that is an object literal has them before anything is
    counted. *)
Definition inherited : list string :=
  ["constructor"; "hasOwnProperty"; "isPrototypeOf"; "propertyIsEnumerable";
   "toLocaleString"; "toString"; "valueOf"; "__proto__"; "__defineGetter__";
   "__defineSetter__"; "__lookupGetter__"; "__lookupSetter__"].

(** The name of a cell in the words of the specification, where a blank
    cell has the default and any other cell its string, and the names of
    the two columns read that way. *)
Definition name_unless_blank (d : string) (cell : value) : string :=
  match cell with
  | VUndefined => d
  | VStr EmptyString => d
  | _ => ToString cell
  end.

Definition projectType_unless_blank (r : row) : string :=
  name_unless_blank "Other" (JS.index r 3).

Definition region_unless_blank (r : row) : string :=
  name_unless_blank "Unknown" (JS.index r 4).

(** The number of rows of the name [k]. *)
Definition occurrences (name : row -> string) (k : string) (rows : list row) : nat :=
  length (filter (fun r => name r = k) rows).

(** The parsed price of a row, or 0 when the cell does not parse (a parsed
    zero of either sign counts as 0). *)
Definition price_or_zero (r : row) : float :=
  let p := parseFloat (JS.index r 5) in
  if PrimFloat.is_nan p then 0%float
  else if PrimFloat.eqb p 0 then 0%float
  else p.

(** The sum of a list of numbers, added from left to right. *)
Definition total (l : list float) : float := foldl PrimFloat.add 0%float l.

(** The two rows of the example. *)
Definition example_rows : list row :=
  [ [VStr "ORD-001"; VStr "PRJ-001"; VStr "Site"; VStr "Development"; VStr "NA";
     VNum 15000; VStr "2024-01-15"];
    [VStr "ORD-002"; VStr "PRJ-002"; VStr "Logo"; VStr "Design"; VStr "EU";
     VStr "abc"; VStr "2024-01-20"] ].

(** A criterion that is given: a field of the criteria that is truthy (a
    non-empty string, a Date object, a number other than 0). *)
Definition given (criteria : value) (k : string) : Prop :=
  JS.truthy (field criteria k) = true.

(** The date [d] is not before [s], and not after [e]; an invalid date is
    neither before nor after any date. *)
Definition not_before (d s : option Z) : Prop :=
  match d, s with
  | Some d, Some s => s <= d
  | _, _ => True
  end.

Definition not_after (d e : option Z) : Prop :=
  match d, e with
  | Some d, Some e => d <= e
  | _, _ => True
  end.

(** The rows that [getDataByFilter] keeps. *)
Definition matches (criteria : value) (r : row) : Prop :=
  (given criteria "projectType" ->
   JS.strict_eq (JS.index r 3) (field criteria "projectType") = true) /\
  (given criteria "region" ->
   JS.strict_eq (JS.index r 4) (field criteria "region") = true) /\
  (given criteria "startDate" -> given criteria "endDate" ->
   not_before (Date.construct (JS.index r 6)) (Date.construct (field criteria "startDate")) /\
   not_after (Date.construct (JS.index r 6)) (Date.construct (field criteria "endDate"))).

(** The date of the row is a date of the inclusive range from [startDate]
    to [endDate]. *)
Definition dated_within (criteria : value) (r : row) : Prop :=
  match Date.construct (JS.index r 6),
        Date.construct (field criteria "startDate"),
        Date.construct (field criteria "endDate") with
  | Some d, Some s, Some e => s <= d <= e
  | _, _, _ => False
  end.

(** The rows that meet the criteria that are given. *)
Definition meets (criteria : value) (r : row) : Prop :=
  (given criteria "projectType" ->
   JS.strict_eq (JS.index r 3) (field criteria "projectType") = true) /\
  (given criteria "region" ->
   JS.strict_eq (JS.index r 4) (field criteria "region") = true) /\
  (given criteria "startDate" -> given criteria "endDate" -> dated_within criteria r).

(** A range is given with dates that are dates, on rows whose date cell is
    a date. *)
Definition well_dated (criteria : value) (rows : list row) : Prop :=
  given criteria "startDate" -> given criteria "endDate" ->
  is_Some (Date.construct (field criteria "startDate")) /\
  is_Some (Date.construct (field criteria "endDate")) /\
  Forall (fun r : row => is_Some (Date.construct (JS.index r 6))) rows.

#[export] Instance dated_within_dec criteria r : Decision (dated_within criteria r).
Proof.
  unfold dated_within.
  destruct (Date.construct (JS.index r 6)), (Date.construct (field criteria "startDate")),
    (Date.construct (field criteria "endDate")); apply _.
Defined.

#[export] Instance meets_dec criteria r : Decision (meets criteria r).
Proof. unfold meets, given. apply _. Defined.

#[export] Instance not_before_dec d s : Decision (not_before d s).
Proof. destruct d, s; simpl; apply _. Defined.

#[export] Instance not_after_dec d e : Decision (not_after d e).
Proof. destruct d, e; simpl; apply _. Defined.

#[export] Instance matches_dec criteria r : Decision (matches criteria r).
Proof. unfold matches, given. apply _. Defined.

(** The text [s] with each apostrophe read as a double quote, to write the
    JSON texts of the examples. *)
Fixpoint json_text (s : string) : string :=
  match s with
  | EmptyString => EmptyString
  | String c r => String (if Ascii.eqb c "'" then ascii_of_nat 34 else c) (json_text r)
  end.

(** A POST request with the body [text]. *)
Definition post (text : string) : Event :=
  {| postData := Some {| contents := json_text text |} |}.

(** A data row with a price cell that reads [Infinity]. *)
Definition infinite_row : row :=
  [VStr "ORD-001"; VStr "PRJ-001"; VStr "Site"; VStr "Development"; VStr "NA";
   VStr "Infinity"; VStr "2024-01-15"].

(** A data row with blank project type, region, name and date cells and a
    price cell that is not a number. *)
Definition blank_row : row :=
  [VStr "ORD-001"; VStr "PRJ-001"; VStr ""; VStr ""; VStr ""; VStr "abc"; VStr ""].

(** Criteria that give a range of dates only: the year 2024. *)
Definition year_2024 : value :=
  VObj [("startDate", VStr "2024-01-01"); ("endDate", VStr "2024-12-31")].

(** Criteria that give a project type and a range of dates. *)
Definition design_in_january : list (string * value) :=
  [("projectType", VStr "Design"); ("startDate", VStr "2024-01-01");
   ("endDate", VStr "2024-01-31")].

(** The row that [doPost] appends for a body [data], on a sheet of
    [lastRow] rows, when the clock reads [clock]. *)
Definition rowData (data : value) (lastRow : nat) (clock : Z) : row :=
  [VStr ("ORD-" +:+ Str.padStart 3 "0" (Str.of_nat lastRow));
   VStr ("PRJ-" +:+ Str.padStart 3 "0" (Str.of_nat lastRow));
   field data "projectName"; field data "projectType"; field data "region";
   field data "price"; VStr (today clock)].

(** The count of a tally, 0 for a text, and the count stored under a name,
    0 when there is none. *)
Definition count_of (t : tally) : nat :=
  match t with
  | Count n => n
  | Text _ => 0%nat
  end.

Definition stored (counts : gmap string tally) (k : string) : nat :=
  default 0%nat (count_of <$> counts !! k).

(** A counter that holds a count under the name [k], or nothing. *)
Definition counts_at (counts : gmap string tally) (k : string) : Prop :=
  forall s, counts !! k <> Some (Text s).

(** Rows with cells that are not blank and names that an object inherits:
    a project type that is the number 0, a project type [constructor] and
    a region [__proto__]. *)
Definition odd_rows : list row :=
  [ [VStr "ORD-001"; VStr "PRJ-001"; VStr "Site"; VNum 0; VStr "NA";
     VNum 15000; VStr "2024-01-15"];
    [VStr "ORD-002"; VStr "PRJ-002"; VStr "Logo"; VStr "constructor"; VStr "__proto__";
     VNum 2500; VStr "2024-01-20"] ].

(** The calls of [doGet] and of [doPost] into the host. *)
Definition doGet_calls : list call :=
  [GetActiveSpreadsheet; GetSheetByName; GetDataRange; GetValues].

Definition doPost_calls : list call :=
  [GetActiveSpreadsheet; GetSheetByName; GetLastRow; AppendRow].

(** [c] run [n] times in a row. *)
Fixpoint times (n : nat) (c : M unit) : M unit :=
  match n with
  | O => ret tt
  | S n => c >> times n c
  end.

(** A host on which no call throws, holding the sheet [s] at the time [t]. *)
Definition world_of (s : option sheet) (t : Z) : world :=
  {| sheets := match s with Some rows => {["graph" := rows]} | None => ∅ end;
     now := t; fault := fun _ => None |}.

End Vocabulary.

(** ** More vocabulary

    What the properties of the handlers, of the mapper and of the helper
    functions beyond the specification are stated with. *)

Section Coverage.
Context `{Engine}.

(** A body that passes the validation of [doPost]: its four required
    fields are truthy, whatever their types. *)
Definition valid (data : value) : Prop :=
  given data "projectName" /\ given data "projectType" /\
  given data "region" /\ given data "price".

(** The answer of [doPost] to a request stored under the number [n]. *)
Definition created (n : nat) : TextOutput :=
  createJsonResponse
    (VObj [("success", VBool true);
           ("message", VStr "Data added successfully");
           ("orderId", VStr ("ORD-" +:+ Str.padStart 3 "0" (Str.of_nat n)));
           ("projectId", VStr ("PRJ-" +:+ Str.padStart 3 "0" (Str.of_nat n)))]).

(** The world in which the sheet named "graph" holds the rows [s]. *)
Definition with_graph (w : world) (s : sheet) : world :=
  with_sheets w (<["graph" := s]> (sheets w)).

(** The two messages for a spreadsheet without the sheet. *)
Definition not_found (advice : string) : string :=
  "Sheet " +:+ dq +:+ "graph" +:+ dq +:+ " not found. Please create a sheet named "
    +:+ dq +:+ "graph" +:+ dq +:+ advice.

(** The number that a text of digits denotes, and the text that follows
    the digits. *)
Definition numeral_value (s : string) : Z := Num.digits_value (Num.span_digits s).1.

Definition after_digits (s : string) : string := (Num.span_digits s).2.

(** The sum of the counts of a counter. *)
Definition count_total (counts : gmap string tally) : nat :=
  map_fold (fun _ t acc => (count_of t + acc)%nat) 0%nat counts.

(** A counter that holds counts only. *)
Definition all_counts (counts : gmap string tally) : Prop :=
  forall k t, counts !! k = Some t -> exists n, t = Count n.

(** The price of a record, 0 when it has none. *)
Definition price_of (record : value) : float :=
  match JS.prop record "price" with
  | Ok (VNum f) => f
  | _ => 0%float
  end.

(** The records that [doGet] lists for the rows of the sheet when the clock
    reads [clock]. *)
Definition records_of (clock : Z) (s : sheet) : list value :=
  imap (fun index row => rowToRecord clock row index) (data_rows s).

(** The calls that [getDataByFilter] and [getStatistics] always make, and
    the calls that they make on a sheet that exists. *)
Definition lookup_calls : list call := [GetActiveSpreadsheet; GetSheetByName].

Definition read_calls : list call := [GetDataRange; GetValues].

(** A request body with a price that is a text, and what it parses to. *)
Definition text_price_body : string :=
  "{'projectName':'Site','projectType':'Development','region':'NA','price':'12abc'}".

Definition text_price_data : value :=
  VObj [("projectName", VStr "Site"); ("projectType", VStr "Development");
        ("region", VStr "NA"); ("price", VStr "12abc")].

(** The calls with which [setupSheet] writes the header row, and those
    with which it writes the sample rows. *)
Definition header_getRange : call := GetRange 1 1 1 (length headers).

Definition header_setValues : call := SetValues 1 1 1 (length headers).

Definition samples_getRange : call :=
  GetRange 2 1 (length sampleData) (length (nth 0 sampleData [])).

Definition samples_setValues : call :=
  SetValues 2 1 (length sampleData) (length (nth 0 sampleData [])).

(** The two writes of [setupSheet] on a sheet without rows: the first call
    that throws ends the run; once the header row is written it stays. *)
Definition seeded (w : world) : result unit * world :=
  match fault w header_getRange, fault w header_setValues with
  | Some x, _ => (Throw x, w)
  | None, Some x => (Throw x, w)
  | None, None =>
      match fault w samples_getRange, fault w samples_setValues with
      | Some x, _ => (Throw x, with_graph w [headers])
      | None, Some x => (Throw x, with_graph w [headers])
      | None, None => (Ok tt, with_graph w (headers :: sampleData))
      end
  end.

(** A host on which every [setValues] throws, one on which [setValues]
    throws from the second row on, and one on which every call throws. *)
Definition service_error : exn := Error "Exception" "Service unavailable".

Definition failing_setValues (s : gmap string sheet) : world :=
  {| sheets := s; now := 0;
     fault := fun c => match c with
                       | SetValues _ _ _ _ => Some service_error
                       | _ => None
                       end |}.

Definition failing_samples (s : gmap string sheet) : world :=
  {| sheets := s; now := 0;
     fault := fun c => match c with
                       | SetValues (S (S _)) _ _ _ => Some service_error
                       | _ => None
                       end |}.

Definition failing (s : gmap string sheet) : world :=
  {| sheets := s; now := 0; fault := fun _ => Some service_error |}.

End Coverage.

(** ** Tactics *)

(** The handlers unfolded down to the calls of the host. *)
Ltac run_handler :=
  unfold doGet, doPost, try_catch, orM, missing, lift, throw,
    Host.getActiveSpreadsheet, Host.getSheetByName, Host.getLastRow,
    Host.appendRow, Host.getValues, Host.called, Host.read, Host.write,
    Host.clock, bind, ret.

(** A call that is not among the calls at fault. *)
Ltac faulty Hc :=
  simpl in Hc; intuition (subst; congruence).

(** ** The monad and the host *)

Section MonadFacts.
Context {A B : Type}.

Lemma bind_ok (c : M A) (f : A -> M B) w a w' :
  c w = (Ok a, w') -> bind c f w = f a w'.
Proof. intros Hc. unfold bind. now rewrite Hc. Qed.

Lemma bind_throw (c : M A) (f : A -> M B) w e w' :
  c w = (Throw e, w') -> bind c f w = (Throw e, w').
Proof. intros Hc. unfold bind. now rewrite Hc. Qed.

Lemma try_catch_ok (c : M A) (h : exn -> M A) w a w' :
  c w = (Ok a, w') -> try_catch c h w = (Ok a, w').
Proof. intros Hc. unfold try_catch. now rewrite Hc. Qed.

Lemma try_catch_throw (c : M A) (h : exn -> M A) w e w' :
  c w = (Throw e, w') -> try_catch c h w = h e w'.
Proof. intros Hc. unfold try_catch. now rewrite Hc. Qed.

End MonadFacts.

Section HostFacts.
Variable w : world.
Hypothesis Hquiet : quiet w.

Lemma called_quiet c : Host.called c w = (Ok tt, w).
Proof. unfold Host.called. now rewrite Hquiet. Qed.

Lemma getActiveSpreadsheet_quiet :
  Host.getActiveSpreadsheet w = (Ok Host.ActiveSpreadsheet, w).
Proof.
  unfold Host.getActiveSpreadsheet.
  now rewrite (bind_ok _ _ _ _ _ (called_quiet _)).
Qed.

Lemma getSheetByName_quiet sp name :
  Host.getSheetByName sp name w =
  (Ok (match sheets w !! name with
       | Some _ => Some (Host.Sheet name)
       | None => None
       end), w).
Proof.
  unfold Host.getSheetByName.
  rewrite (bind_ok _ _ _ _ _ (called_quiet _)).
  now destruct (sheets w !! name).
Qed.

Lemma read_some name s :
  sheets w !! name = Some s -> Host.read (Host.Sheet name) w = (Ok s, w).
Proof. intros Hs. unfold Host.read. now rewrite Hs. Qed.

Lemma getValues_quiet name s :
  sheets w !! name = Some s ->
  Host.getValues (Host.Sheet name) w =
  (Ok (match s with [] => [[VStr ""]] | _ => s end), w).
Proof.
  intros Hs. unfold Host.getValues.
  rewrite (bind_ok _ _ _ _ _ (called_quiet _)).
  rewrite (bind_ok _ _ _ _ _ (called_quiet _)).
  now rewrite (bind_ok _ _ _ _ _ (read_some _ _ Hs)).
Qed.

Lemma getLastRow_quiet name s :
  sheets w !! name = Some s ->
  Host.getLastRow (Host.Sheet name) w = (Ok (length s), w).
Proof.
  intros Hs. unfold Host.getLastRow.
  rewrite (bind_ok _ _ _ _ _ (called_quiet _)).
  now rewrite (bind_ok _ _ _ _ _ (read_some _ _ Hs)).
Qed.

Lemma appendRow_quiet name s rowData :
  sheets w !! name = Some s ->
  Host.appendRow (Host.Sheet name) rowData w =
  (Ok tt, with_sheets w (<[name := s ++ [rowData]]> (sheets w))).
Proof.
  intros Hs. unfold Host.appendRow.
  rewrite (bind_ok _ _ _ _ _ (called_quiet _)).
  now rewrite (bind_ok _ _ _ _ _ (read_some _ _ Hs)).
Qed.

End HostFacts.

Lemma quiet_with_sheets w s : quiet w -> quiet (with_sheets w s).
Proof. intros Hq c. apply Hq. Qed.

(** ** The request handlers *)

Section Handlers.
Context `{Engine}.

(** What [doGet] answers when no call throws. *)
Lemma doGet_quiet w :
  quiet w ->
  doGet w =
  (Ok (match graph w with
       | None =>
           createErrorResponse
             ("Sheet " +:+ dq +:+ "graph" +:+ dq +:+ " not found. Please create a sheet named "
              +:+ dq +:+ "graph" +:+ dq +:+ " with the required columns.")
       | Some s =>
           if (length s <=? 1)%nat then createJsonResponse (VArr [])
           else createJsonResponse
                  (VArr (imap (fun index row => rowToRecord (now w) row index) (drop 1 s)))
       end), w).
Proof.
  intros Hq. unfold doGet, graph.
  apply try_catch_ok.
  rewrite (bind_ok _ _ _ _ _ (getActiveSpreadsheet_quiet w Hq)).
  rewrite (bind_ok _ _ _ _ _ (getSheetByName_quiet w Hq _ _)).
  destruct (sheets w !! "graph") as [s|] eqn:Hs; [|reflexivity].
  rewrite (bind_ok _ _ _ _ _ (getValues_quiet w Hq _ _ Hs)).
  destruct s as [|r0 [|r1 s]]; reflexivity.
Qed.

(** C9: on a sheet that exists and holds the header row only, or no row at
    all, [doGet] answers the JSON text of the empty array. *)
Theorem doGet_header_only w rows :
  quiet w ->
  graph w = Some rows ->
  (length rows <= 1)%nat ->
  doGet w = (Ok (createJsonResponse (VArr [])), w).
Proof.
  intros Hq Hg Hlen. rewrite (doGet_quiet w Hq), Hg.
  destruct (Nat.leb_spec (length rows) 1) as [_|Hgt]; [reflexivity | lia].
Qed.

(** The validation of [doPost] reads the four required fields in turn and
    stops at the first that is falsy. *)
Lemma missing_ok data k v w :
  JS.prop data k = Ok v -> missing data k w = (Ok (JS.not v), w).
Proof. intros Hp. unfold missing, lift, bind. now rewrite Hp. Qed.

Lemma orM_true (a b : M bool) w w' :
  a w = (Ok true, w') -> orM a b w = (Ok true, w').
Proof. intros Ha. unfold orM. now rewrite (bind_ok _ _ _ _ _ Ha). Qed.

Lemma orM_false (a b : M bool) w w' :
  a w = (Ok false, w') -> orM a b w = b w'.
Proof. intros Ha. unfold orM. now rewrite (bind_ok _ _ _ _ _ Ha). Qed.

Lemma prop_total data k :
  data <> VNull -> data <> VUndefined -> exists v, JS.prop data k = Ok v.
Proof. intros Hn Hu. destruct data; simpl; eauto; congruence. Qed.

Lemma validation_ok data w :
  data <> VNull -> data <> VUndefined ->
  orM (missing data "projectName")
      (orM (missing data "projectType")
           (orM (missing data "region") (missing data "price"))) w =
  (Ok (JS.not (field data "projectName") || JS.not (field data "projectType")
       || JS.not (field data "region") || JS.not (field data "price")), w).
Proof.
  intros Hn Hu. unfold field.
  destruct (prop_total data "projectName" Hn Hu) as [pn Hpn].
  destruct (prop_total data "projectType" Hn Hu) as [pt Hpt].
  destruct (prop_total data "region" Hn Hu) as [rg Hrg].
  destruct (prop_total data "price" Hn Hu) as [pr Hpr].
  rewrite Hpn, Hpt, Hrg, Hpr.
  destruct (JS.not pn) eqn:E1.
  { now rewrite (orM_true _ _ _ _ (eq_trans (missing_ok _ _ _ w Hpn) (f_equal (fun b => (Ok b, w)) E1))). }
  rewrite (orM_false _ _ _ _ (eq_trans (missing_ok _ _ _ w Hpn) (f_equal (fun b => (Ok b, w)) E1))).
  destruct (JS.not pt) eqn:E2.
  { now rewrite (orM_true _ _ _ _ (eq_trans (missing_ok _ _ _ w Hpt) (f_equal (fun b => (Ok b, w)) E2))). }
  rewrite (orM_false _ _ _ _ (eq_trans (missing_ok _ _ _ w Hpt) (f_equal (fun b => (Ok b, w)) E2))).
  destruct (JS.not rg) eqn:E3.
  { now rewrite (orM_true _ _ _ _ (eq_trans (missing_ok _ _ _ w Hrg) (f_equal (fun b => (Ok b, w)) E3))). }
  rewrite (orM_false _ _ _ _ (eq_trans (missing_ok _ _ _ w Hrg) (f_equal (fun b => (Ok b, w)) E3))).
  now rewrite (missing_ok _ _ _ w Hpr).
Qed.

(** A body with a falsy required field is refused before any call to the
    host, whatever the host would do. *)
Lemma doPost_invalid e w text data :
  postData e = Some {| contents := text |} ->
  JSON_parse text = Ok data ->
  data <> VNull -> data <> VUndefined ->
  JS.not (field data "projectName") || JS.not (field data "projectType")
    || JS.not (field data "region") || JS.not (field data "price") = true ->
  doPost e w = (Ok (createErrorResponse "Missing required fields"), w).
Proof.
  intros He Hparse Hn Hu Hinv. unfold doPost.
  apply try_catch_ok.
  rewrite He. cbn [contents].
  erewrite bind_ok by reflexivity.
  erewrite bind_ok by (unfold lift; rewrite Hparse; reflexivity).
  erewrite bind_ok by (apply validation_ok; assumption).
  now rewrite Hinv.
Qed.

Lemma absent_or_empty_falsy data k :
  absent_or_empty data k -> JS.not (field data k) = true.
Proof. unfold field. now intros [-> | ->]. Qed.

Lemma absent_or_zero_falsy data k :
  absent_or_zero data k -> JS.not (field data k) = true.
Proof.
  unfold field. intros [-> | (f & -> & Hz)]; [reflexivity|].
  unfold JS.not. simpl. rewrite Hz. now rewrite orb_true_r.
Qed.

(** C3: a request body in which [price] is absent or 0, or in which
    [projectName], [projectType] or [region] is absent or empty, is answered
    with [{error: "Missing required fields"}], and the spreadsheet is left as
    it was. *)
Theorem doPost_missing_required_fields e w text fields :
  postData e = Some {| contents := text |} ->
  JSON_parse text = Ok (VObj fields) ->
  absent_or_zero (VObj fields) "price"
  \/ absent_or_empty (VObj fields) "projectName"
  \/ absent_or_empty (VObj fields) "projectType"
  \/ absent_or_empty (VObj fields) "region" ->
  doPost e w = (Ok (createErrorResponse "Missing required fields"), w).
Proof.
  intros He Hparse Hbad.
  apply (doPost_invalid e w text (VObj fields)); try assumption; try discriminate.
  destruct Hbad as [Hp | [Hp | [Hp | Hp]]].
  - rewrite (absent_or_zero_falsy _ _ Hp). now rewrite !orb_true_r.
  - now rewrite (absent_or_empty_falsy _ _ Hp).
  - rewrite (absent_or_empty_falsy _ _ Hp). now rewrite !orb_true_r.
  - rewrite (absent_or_empty_falsy _ _ Hp). now rewrite !orb_true_r.
Qed.

(** What [getDataByFilter] returns without the sheet. *)
Lemma getDataByFilter_absent criteria w :
  quiet w -> graph w = None -> getDataByFilter criteria w = (Ok [], w).
Proof.
  intros Hq Hg. unfold getDataByFilter.
  rewrite (bind_ok _ _ _ _ _ (getActiveSpreadsheet_quiet w Hq)).
  rewrite (bind_ok _ _ _ _ _ (getSheetByName_quiet w Hq _ _)).
  unfold graph in Hg. now rewrite Hg.
Qed.

(** C10: without the sheet named "graph", [getDataByFilter] returns the
    empty list for every criteria, where [doGet] answers an error object. *)
Theorem getDataByFilter_without_sheet criteria w :
  quiet w ->
  graph w = None ->
  getDataByFilter criteria w = (Ok [], w) /\
  exists out, doGet w = (Ok out, w) /\ is_error out.
Proof.
  intros Hq Hg. split; [now apply getDataByFilter_absent|].
  rewrite (doGet_quiet w Hq), Hg. eexists. split; [reflexivity|].
  eexists. reflexivity.
Qed.

Lemma doGet_total w :
  exists out,
    doGet w = (Ok out, w) /\ getMimeType out = JSON /\
    (is_error out \/ exists records, out = createJsonResponse (VArr records)) /\
    ((exists c x, In c doGet_calls /\ fault w c = Some x) -> is_error out).
Proof.
  run_handler.
  destruct (fault w GetActiveSpreadsheet) eqn:F1;
    [eexists; repeat split; [left | intros _]; eexists; reflexivity|].
  destruct (fault w GetSheetByName) eqn:F2;
    [eexists; repeat split; [left | intros _]; eexists; reflexivity|].
  destruct (sheets w !! "graph") as [s|] eqn:Hs;
    [|eexists; repeat split; [left | intros _]; eexists; reflexivity].
  destruct (fault w GetDataRange) eqn:F3;
    [eexists; repeat split; [left | intros _]; eexists; reflexivity|].
  destruct (fault w GetValues) eqn:F4;
    [eexists; repeat split; [left | intros _]; eexists; reflexivity|].
  rewrite Hs.
  destruct (length _ <=? 1)%nat;
    (eexists; repeat split; [right; eexists; reflexivity |]);
    intros (c & x & Hc & Hf); exfalso; faulty Hc.
Qed.

Lemma doPost_total e w :
  exists out w',
    doPost e w = (Ok out, w') /\ getMimeType out = JSON /\
    (is_error out /\ w' = w \/
     exists orderId projectId,
       out = createJsonResponse
               (VObj [("success", VBool true);
                      ("message", VStr "Data added successfully");
                      ("orderId", VStr orderId);
                      ("projectId", VStr projectId)])) /\
    ((postData e = None \/
      exists p x, postData e = Some p /\ JSON_parse (contents p) = Throw x) ->
     is_error out /\ w' = w) /\
    ((exists c x, In c doPost_calls /\ fault w c = Some x) -> is_error out /\ w' = w).
Proof.
  assert (Herr : forall msg, is_error (createErrorResponse msg)) by (intros; eexists; reflexivity).
  run_handler.
  destruct (postData e) as [p|] eqn:He;
    [|do 2 eexists; repeat split; try left; try split; auto].
  destruct (JSON_parse (contents p)) as [data|x] eqn:Hparse;
    [|do 2 eexists; repeat split; try left; try split; auto].
  assert (Hnot : forall P : Prop,
             (Some p = None \/ exists p0 x, Some p = Some p0 /\ JSON_parse (contents p0) = Throw x) -> P).
  { intros P [Hp | (p0 & x & Hp & Hx)]; [discriminate|]. injection Hp as <-. congruence. }
  destruct (JS.prop data "projectName") as [pn|x] eqn:Hpn;
    [|do 2 eexists; repeat split; try left; try split; auto].
  assert (Hall : forall k, exists v, JS.prop data k = Ok v).
  { intros k. apply prop_total; intros ->; discriminate. }
  destruct (Hall "projectType") as [pt Hpt]. destruct (Hall "region") as [rg Hrg].
  destruct (Hall "price") as [pr Hpr].
  rewrite Hpt, Hrg, Hpr.
  destruct (JS.not pn); [do 2 eexists; repeat split; try left; try split; auto|].
  destruct (JS.not pt); [do 2 eexists; repeat split; try left; try split; auto|].
  destruct (JS.not rg); [do 2 eexists; repeat split; try left; try split; auto|].
  destruct (JS.not pr); [do 2 eexists; repeat split; try left; try split; auto|].
  destruct (fault w GetActiveSpreadsheet) eqn:F1;
    [do 2 eexists; repeat split; try left; try split; auto|].
  destruct (fault w GetSheetByName) eqn:F2;
    [do 2 eexists; repeat split; try left; try split; auto|].
  destruct (sheets w !! "graph") as [s|] eqn:Hs;
    [|do 2 eexists; repeat split; try left; try split; auto].
  destruct (fault w GetLastRow) eqn:F3;
    [do 2 eexists; repeat split; try left; try split; auto|].
  rewrite Hs.
  destruct (fault w AppendRow) eqn:F4;
    [do 2 eexists; repeat split; try left; try split; auto|].
  rewrite Hs.
  do 2 eexists. split; [reflexivity|]. split; [reflexivity|].
  split; [right; do 2 eexists; reflexivity|].
  split; [apply Hnot|].
  intros (c & x & Hc & Hf); exfalso; faulty Hc.
Qed.

(** C8: [doGet] and [doPost] return a JSON response for every input and
    every host: they never throw, the answer of a failure (a call that
    throws, a body that is not JSON, a missing sheet, a refused body) has
    the shape [{error: message}], and a failed [doPost] leaves the
    spreadsheet as it was. *)
Theorem handlers_never_throw :
  (forall w, exists out,
      doGet w = (Ok out, w) /\ getMimeType out = JSON /\
      (is_error out \/ exists records, out = createJsonResponse (VArr records)) /\
      ((exists c x, In c doGet_calls /\ fault w c = Some x) -> is_error out)) /\
  (forall e w, exists out w',
      doPost e w = (Ok out, w') /\ getMimeType out = JSON /\
      (is_error out /\ w' = w \/
       exists orderId projectId,
         out = createJsonResponse
                 (VObj [("success", VBool true);
                        ("message", VStr "Data added successfully");
                        ("orderId", VStr orderId);
                        ("projectId", VStr projectId)])) /\
      ((postData e = None \/
        exists p x, postData e = Some p /\ JSON_parse (contents p) = Throw x) ->
       is_error out /\ w' = w) /\
      ((exists c x, In c doPost_calls /\ fault w c = Some x) -> is_error out /\ w' = w)).
Proof. split; [apply doGet_total | apply doPost_total]. Qed.

End Handlers.

(** ** The record mapper *)

Section Floats.

Lemma is_nan_spec f : PrimFloat.is_nan f = true <-> Prim2SF f = S754_nan.
Proof.
  unfold PrimFloat.is_nan. rewrite FloatAxioms.eqb_spec.
  destruct (Prim2SF f) as [s|s| |s m e]; simpl; try (split; [discriminate|discriminate]).
  - destruct s; split; discriminate.
  - split; reflexivity.
  - unfold SFeqb, SFcompare. rewrite Z.compare_refl, Pos.compare_cont_refl.
    destruct s; split; discriminate.
Qed.

Lemma eqb_zero_spec f :
  PrimFloat.eqb f 0 = true <-> exists s, Prim2SF f = S754_zero s.
Proof.
  rewrite FloatAxioms.eqb_spec. change (Prim2SF 0) with (S754_zero false).
  destruct (Prim2SF f) as [s|s| |s m e]; simpl.
  - split; eauto.
  - destruct s; split; try discriminate; intros [? ?]; discriminate.
  - split; try discriminate; intros [? ?]; discriminate.
  - unfold SFeqb, SFcompare. destruct s; split; try discriminate; intros [? ?]; discriminate.
Qed.

Lemma is_infinity_spec f :
  PrimFloat.is_infinity f = true <-> exists s, Prim2SF f = S754_infinity s.
Proof.
  unfold PrimFloat.is_infinity. rewrite FloatAxioms.eqb_spec, FloatAxioms.abs_spec.
  change (Prim2SF infinity) with (S754_infinity false).
  destruct (Prim2SF f) as [s|s| |s m e]; simpl.
  - split; try discriminate; intros [? ?]; discriminate.
  - split; eauto.
  - split; try discriminate; intros [? ?]; discriminate.
  - split; try discriminate; intros [? ?]; discriminate.
Qed.

(** A truthy number is not NaN. *)
Lemma truthy_not_nan f : JS.truthy (VNum f) = true -> PrimFloat.is_nan f = false.
Proof.
  simpl. destruct (PrimFloat.is_nan f); [discriminate | reflexivity].
Qed.

(** A falsy number is not an infinity. *)
Lemma falsy_not_infinity f :
  JS.truthy (VNum f) = false -> PrimFloat.is_infinity f = false.
Proof.
  simpl. intros Hf. apply negb_false_iff, orb_true_iff in Hf.
  destruct (PrimFloat.is_infinity f) eqn:Hi; [|reflexivity].
  apply is_infinity_spec in Hi as [s Hs].
  destruct Hf as [Hn | Hz].
  - apply is_nan_spec in Hn. congruence.
  - apply eqb_zero_spec in Hz as [s' Hz]. congruence.
Qed.

(** [n || 0] is never NaN, and is infinite only when [n] is. *)
Lemma number_or_zero_not_nan n : PrimFloat.is_nan (number_or n 0) = false.
Proof.
  unfold number_or. destruct (JS.truthy (VNum n)) eqn:Ht.
  - now apply truthy_not_nan.
  - reflexivity.
Qed.

Lemma number_or_zero_finite n :
  Num.is_finite (number_or n 0) = negb (PrimFloat.is_infinity n).
Proof.
  unfold number_or, Num.is_finite. destruct (JS.truthy (VNum n)) eqn:Ht.
  - now rewrite (truthy_not_nan _ Ht).
  - now rewrite (falsy_not_infinity _ Ht).
Qed.

Lemma number_or_zero_nan n : PrimFloat.is_nan n = true -> number_or n 0 = 0%float.
Proof. intros Hn. unfold number_or. simpl. now rewrite Hn. Qed.

End Floats.

(** * The text of a number reads back

    A binary64 number is a decimal: its exact text denotes it, and the
    parser of [parseFloat] rounds that decimal to the number itself. *)

Section ReadBack.
Import Reference.

Lemma digits2_size p : digits2_pos p = Pos.size p.
Proof. induction p; simpl; congruence. Qed.

Lemma digits2_log2 p : Z.pos (digits2_pos p) = Z.log2 (Z.pos p) + 1.
Proof.
  rewrite digits2_size. destruct p; simpl; lia.
Qed.

(** The number of binary digits of [m * 2^n]. *)
Lemma digits2_shift m M n :
  0 <= n -> Z.pos M = Z.pos m * 2 ^ n ->
  Z.pos (digits2_pos M) = Z.pos (digits2_pos m) + n.
Proof.
  intros Hn HM. rewrite !digits2_log2, HM, Z.log2_mul_pow2 by lia. lia.
Qed.

Lemma iter_pos_nat {A} (f : A -> A) p x :
  SpecFloat.iter_pos f p x = Nat.iter (Pos.to_nat p) f x.
Proof.
  revert x. induction p as [p IH|p IH|]; intros x; simpl SpecFloat.iter_pos.
  - rewrite !IH, Pos2Nat.inj_xI. simpl Nat.iter.
    rewrite Nat.add_0_r, Nat.iter_add, <- Nat.iter_succ_r. simpl. rewrite <- Nat.iter_succ_r. reflexivity.
  - rewrite !IH, Pos2Nat.inj_xO. simpl Nat.mul.
    rewrite Nat.add_0_r, Nat.iter_add. reflexivity.
  - reflexivity.
Qed.

Lemma shr_exact_nat n : forall m M,
  Z.pos M = Z.pos m * 2 ^ Z.of_nat n ->
  Nat.iter n shr_1 {| shr_m := Z.pos M; shr_r := false; shr_s := false |} =
  {| shr_m := Z.pos m; shr_r := false; shr_s := false |}.
Proof.
  induction n as [|n IH]; intros m M HM.
  - simpl in *. f_equal. lia.
  - rewrite Nat.iter_succ_r.
    assert (HM' : Z.pos M = 2 * (Z.pos m * 2 ^ Z.of_nat n)).
    { rewrite HM, Nat2Z.inj_succ, Z.pow_succ_r by lia. lia. }
    destruct M as [M|M|]; try lia.
    simpl shr_1. apply IH. lia.
Qed.

(** Shifting [m * 2^p] right by [p] bits loses nothing. *)
Lemma shr_exact p m M :
  Z.pos M = Z.pos m * 2 ^ Z.pos p ->
  SpecFloat.iter_pos shr_1 p {| shr_m := Z.pos M; shr_r := false; shr_s := false |} =
  {| shr_m := Z.pos m; shr_r := false; shr_s := false |}.
Proof.
  intros HM. rewrite iter_pos_nat. apply shr_exact_nat.
  now rewrite positive_nat_Z.
Qed.

Lemma bounded_canonical m e :
  bounded prec emax m e = true ->
  fexp prec emax (Z.pos (digits2_pos m) + e) = e /\ e <= emax - prec.
Proof.
  unfold bounded, canonical_mantissa. intros Hb.
  apply andb_true_iff in Hb as [Hc He].
  apply Z.eqb_eq in Hc. apply Z.leb_le in He. auto.
Qed.

(** Rounding a mantissa that is the canonical one shifted to the left. *)
(** Rounding is the identity on a multiple [m * 2^(e - e0)] of a number
    [m * 2^e] of the format, given at the exponent [e0]. *)
Lemma round_exact sx m e M e0 :
  bounded prec emax m e = true -> e0 <= e -> Z.pos M = Z.pos m * 2 ^ (e - e0) ->
  binary_round_aux prec emax sx (Z.pos M) e0 loc_Exact = S754_finite sx m e.
Proof.
  intros Hb He HM. destruct (bounded_canonical m e Hb) as [Hc Hmax].
  assert (Hd : Z.pos (digits2_pos M) + e0 = Z.pos (digits2_pos m) + e).
  { rewrite (digits2_shift m M (e - e0)) by (lia || assumption). lia. }
  unfold binary_round_aux, shr_fexp. cbn [Zdigits2 shr_record_of_loc].
  rewrite Hd, Hc.
  assert (Hshr : shr {| shr_m := Z.pos M; shr_r := false; shr_s := false |} e0 (e - e0) =
                 ({| shr_m := Z.pos m; shr_r := false; shr_s := false |}, e)).
  { unfold shr. destruct (e - e0) as [|p|p] eqn:Hs; try lia.
    - f_equal; [f_equal|]; lia.
    - rewrite (shr_exact p m M HM). f_equal. lia. }
  rewrite Hshr. cbn [shr_m loc_of_shr_record round_nearest_even Zdigits2 shr_record_of_loc].
  rewrite Hc, Z.sub_diag. cbn [shr shr_m].
  apply Z.leb_le in Hmax. now rewrite Hmax.
Qed.

(** An integer of the format rounds to itself. *)
Lemma round_integer sx m e M :
  bounded prec emax m e = true -> 0 <= e -> Z.pos M = Z.pos m * 2 ^ e ->
  binary_round prec emax sx M 0 = S754_finite sx m e.
Proof.
  intros Hb He HM. destruct (bounded_canonical m e Hb) as [Hc Hmax].
  unfold binary_round.
  rewrite (digits2_shift m M e He HM), Z.add_0_r, Hc.
  unfold shl_align. destruct (e - 0) eqn:Hs; try lia.
  - apply round_exact; try assumption. now rewrite Z.sub_0_r.
  - apply round_exact; try assumption. now rewrite Z.sub_0_r.
Qed.

Lemma fexp_monotone a b : a <= b -> fexp prec emax a <= fexp prec emax b.
Proof. unfold fexp. lia. Qed.

Lemma new_location_zero n : new_location n 0 = loc_Exact.
Proof.
  unfold new_location, new_location_even, new_location_odd.
  now destruct (Z.even n).
Qed.

(** The quotient of [m * 5^k] by [10^k] is [m * 2^-k], which is rounded to
    itself. *)
(** The quotient of [m * 5^k] by [10^k] is [m * 2^-k]: the division on
    unbounded mantissas gives it without rounding. *)
Lemma round_quotient sx m k D T :
  bounded prec emax m (Z.neg k) = true ->
  Z.pos D = Z.pos m * 5 ^ Z.pos k -> Z.pos T = 10 ^ Z.pos k ->
  SFdiv prec emax (S754_finite sx D 0) (S754_finite false T 0) =
  S754_finite sx m (Z.neg k).
Proof.
  intros Hb HD HT. destruct (bounded_canonical m _ Hb) as [Hc Hmax].
  set (e := Z.neg k) in *.
  assert (Hten : 10 ^ Z.pos k = 5 ^ Z.pos k * 2 ^ Z.pos k).
  { rewrite <- Z.pow_mul_l. reflexivity. }
  assert (Hdig : Z.pos (digits2_pos D) - Z.pos (digits2_pos T) <= Z.pos (digits2_pos m) + e).
  { rewrite !digits2_log2.
    assert (H1 : Z.log2 (Z.pos D * 2 ^ Z.pos k) = Z.pos k + Z.log2 (Z.pos D))
      by (apply Z.log2_mul_pow2; lia).
    assert (H2 : Z.pos D * 2 ^ Z.pos k = Z.pos m * Z.pos T) by (rewrite HD, HT, Hten; ring).
    pose proof (Z.log2_mul_above (Z.pos m) (Z.pos T) ltac:(lia) ltac:(lia)) as H3.
    rewrite <- H2, H1 in H3. unfold e. lia. }
  unfold SFdiv, SFdiv_core_binary. cbn [Zdigits2].
  rewrite !Z.add_0_r, Z.sub_diag, Z.sub_0_l.
  set (e' := Z.min (fexp prec emax (Z.pos (digits2_pos D) - Z.pos (digits2_pos T))) 0).
  assert (He' : e' <= e).
  { unfold e'. pose proof (fexp_monotone _ _ Hdig) as Hm. rewrite Hc in Hm. lia. }
  assert (Hs : 0 < - e') by (unfold e in He'; lia).
  destruct (- e') as [|p|p] eqn:Hp; try lia.
  assert (Hm' : Z.shiftl (Z.pos D) (Z.pos p) = Z.pos m * 2 ^ (e - e') * Z.pos T).
  { rewrite Z.shiftl_mul_pow2 by lia. rewrite HD, HT, Hten.
    replace (Z.pos p) with ((e - e') + Z.pos k) by (unfold e; lia).
    rewrite Z.pow_add_r by (unfold e in *; lia). ring. }
  destruct (Z.div_eucl (Z.shiftl (Z.pos D) (Z.pos p)) (Z.pos T)) as [q r] eqn:Hdiv.
  assert (Hq : q = Z.shiftl (Z.pos D) (Z.pos p) / Z.pos T) by (unfold Z.div; now rewrite Hdiv).
  assert (Hr : r = Z.shiftl (Z.pos D) (Z.pos p) mod Z.pos T) by (unfold Z.modulo; now rewrite Hdiv).
  rewrite Hm', Z.div_mul in Hq by lia. rewrite Hm', Z.mod_mul in Hr by lia.
  subst r. rewrite new_location_zero.
  assert (Hpos : 0 < q) by (rewrite Hq; apply Z.mul_pos_pos; [lia | apply Z.pow_pos_nonneg; lia]).
  destruct q as [|Q|Q]; try lia.
  rewrite (round_exact _ m e Q e' Hb He' Hq). now destruct sx.
Qed.

Lemma finite_bounded f s m e :
  Prim2SF f = S754_finite s m e -> bounded prec emax m e = true.
Proof. intros Hf. pose proof (Prim2SF_valid f) as Hv. now rewrite Hf in Hv. Qed.

(** The decimal that is the exact value of a number reads as the number. *)
Lemma of_decimal_integer f s m e :
  Prim2SF f = S754_finite s m e -> 0 <= e ->
  Num.of_decimal s (Z.pos m * 2 ^ e) 0 = f.
Proof.
  intros Hf He. pose proof (finite_bounded f s m e Hf) as Hb.
  assert (Hpos : 0 < Z.pos m * 2 ^ e) by (apply Z.mul_pos_pos; [lia | apply Z.pow_pos_nonneg; lia]).
  destruct (Z.pos m * 2 ^ e) as [|M|M] eqn:HM; try lia.
  unfold Num.of_decimal. change (10 ^ 0) with 1. rewrite Z.mul_1_r.
  rewrite <- (SF2Prim_Prim2SF f), Hf. f_equal.
  destruct s; cbn [binary_normalize Z.opp]; now apply round_integer.
Qed.

Lemma of_decimal_quotient f s m k :
  Prim2SF f = S754_finite s m (Z.neg k) ->
  Num.of_decimal s (Z.pos m * 5 ^ Z.pos k) (Z.neg k) = f.
Proof.
  intros Hf. pose proof (finite_bounded f s m _ Hf) as Hb.
  assert (Hpos : 0 < Z.pos m * 5 ^ Z.pos k) by (apply Z.mul_pos_pos; [lia | apply Z.pow_pos_nonneg; lia]).
  destruct (Z.pos m * 5 ^ Z.pos k) as [|D|D] eqn:HD; try lia.
  unfold Num.of_decimal.
  rewrite <- (SF2Prim_Prim2SF f), Hf. f_equal.
  apply round_quotient; [assumption | now symmetry |].
  now rewrite Pos2Z.inj_pow.
Qed.

Lemma span_digits_cons c d r :
  Num.digit c = Some d ->
  Num.span_digits (String c r) = (d :: (Num.span_digits r).1, (Num.span_digits r).2).
Proof. intros Hd. cbn [Num.span_digits]. rewrite Hd. now destruct (Num.span_digits r). Qed.

(** The parser reads the digits of a numeral that was written. *)
Lemma span_digits_uint d r :
  Num.span_digits (NilEmpty.string_of_uint d +:+ r) =
  (uint_digits d ++ (Num.span_digits r).1, (Num.span_digits r).2).
Proof.
  induction d;
    [ change (NilEmpty.string_of_uint Decimal.Nil +:+ r) with r;
      now destruct (Num.span_digits r)
    | match goal with
      | |- Num.span_digits (NilEmpty.string_of_uint ?x +:+ r) = _ =>
          let s := eval cbn [NilEmpty.string_of_uint] in (NilEmpty.string_of_uint x) in
          match s with
          | String ?c ?t => change (NilEmpty.string_of_uint x +:+ r) with (String c (t +:+ r))
          end
      end;
      erewrite span_digits_cons by reflexivity; rewrite IHd; reflexivity .. ].
Qed.

Lemma value_acc d : forall acc,
  fold_left (fun acc d => 10 * acc + d) (uint_digits d) (Z.pos acc) =
  Z.pos (Pos.of_uint_acc d acc).
Proof.
  induction d; intros acc; cbn [uint_digits fold_left Pos.of_uint_acc];
    try reflexivity;
    match goal with
    | |- fold_left _ _ ?z = _ =>
        match goal with
        | |- _ = Z.pos (Pos.of_uint_acc _ ?p) =>
            replace z with (Z.pos p) by lia
        end
    end; apply IHd.
Qed.

(** The value of the digits of a numeral is the number it denotes. *)
Lemma value_uint d : Num.digits_value (uint_digits d) = Z.of_N (Pos.of_uint d).
Proof.
  unfold Num.digits_value.
  induction d; cbn [uint_digits fold_left Pos.of_uint]; try reflexivity; try assumption;
    match goal with
    | |- fold_left _ _ ?z = _ =>
        match goal with
        | |- _ = Z.of_N (N.pos (Pos.of_uint_acc _ ?p)) =>
            change z with (Z.pos p)
        end
    end; cbn [Z.of_N]; apply value_acc.
Qed.

Lemma digits_of_pos p : digits_of (Z.pos p) = NilEmpty.string_of_uint (Pos.to_uint p).
Proof.
  unfold digits_of. cbn [Z.to_N N.to_uint].
  pose proof (DecimalPos.Unsigned.to_uint_nonnil p) as Hn.
  destruct (Pos.to_uint p); [contradiction | reflexivity ..].
Qed.

Lemma value_pos p : Num.digits_value (uint_digits (Pos.to_uint p)) = Z.pos p.
Proof. now rewrite value_uint, DecimalPos.Unsigned.of_to. Qed.

Lemma digits_nonempty p : uint_digits (Pos.to_uint p) <> [].
Proof.
  pose proof (DecimalPos.Unsigned.to_uint_nonnil p) as Hn.
  destruct (Pos.to_uint p); try discriminate. contradiction.
Qed.


Lemma append_empty s : s +:+ "" = s.
Proof. induction s as [|c s IH]; [reflexivity|]. change (String c (s +:+ "") = String c s). now rewrite IH. Qed.

Lemma digit_range c d : Num.digit c = Some d -> 48 <= Str.code c <= 57.
Proof.
  unfold Num.digit. destruct (48 <=? Str.code c) eqn:Hlo; [|discriminate].
  destruct (Str.code c <=? 57) eqn:Hhi; [|discriminate].
  intros _. apply Z.leb_le in Hlo, Hhi. lia.
Qed.

Lemma digits_head p :
  exists c d t, digits_of (Z.pos p) = String c t /\ Num.digit c = Some d.
Proof.
  rewrite digits_of_pos. pose proof (DecimalPos.Unsigned.to_uint_nonnil p) as Hn.
  destruct (Pos.to_uint p) as [|u|u|u|u|u|u|u|u|u|u]; [contradiction|..];
    eexists _, _, _; (split; [reflexivity | reflexivity]).
Qed.

(** A character below 128 that is no white space is not trimmed. *)
Lemma trim_start_plain c r :
  13 < Str.code c < 128 -> Str.code c <> 32 ->
  Num.trim_start (String c r) = String c r.
Proof.
  intros Hn H32. cbn [Num.trim_start].
  assert (H13 : (Str.code c <=? 13) = false) by (apply Z.leb_gt; lia).
  assert (Hs : (Str.code c =? 32) = false) by (apply Z.eqb_neq; lia).
  assert (H194 : (Str.code c =? 194) = false) by (apply Z.eqb_neq; lia).
  assert (H225 : (Str.code c =? 225) = false) by (apply Z.eqb_neq; lia).
  assert (H226 : (Str.code c =? 226) = false) by (apply Z.eqb_neq; lia).
  assert (H227 : (Str.code c =? 227) = false) by (apply Z.eqb_neq; lia).
  assert (H239 : (Str.code c =? 239) = false) by (apply Z.eqb_neq; lia).
  rewrite H13, Hs, H194, H225, H226, H227, H239, andb_false_r.
  destruct r as [|c1 [|c2 r2]]; reflexivity.
Qed.

Lemma prefix_Infinity c d t : Num.digit c = Some d -> String.prefix "Infinity" (String c t) = false.
Proof.
  intros Hd. cbn [String.prefix]. destruct (ascii_dec "I" c) as [<-|]; [|reflexivity].
  vm_compute in Hd. discriminate.
Qed.

Lemma literal_unsigned c d t :
  Num.digit c = Some d ->
  Num.literal (String c t) =
  match Num.unsigned_literal (String c t) with Some n => Some (false, n) | None => None end.
Proof.
  intros Hd. unfold Num.literal.
  rewrite trim_start_plain by (apply digit_range in Hd; lia).
  destruct c as [[] [] [] [] [] [] [] []]; vm_compute in Hd; try discriminate; reflexivity.
Qed.

Lemma literal_negative u :
  Num.literal (String "-" u) =
  match Num.unsigned_literal u with Some n => Some (true, n) | None => None end.
Proof. unfold Num.literal. rewrite trim_start_plain by (change (Str.code "-") with 45; lia). reflexivity. Qed.

(** The sign and the unsigned part of a text that starts with a digit after
    its sign. *)
Lemma literal_signed (s : bool) c d t :
  Num.digit c = Some d ->
  Num.literal ((if s then "-" else "") +:+ String c t) =
  match Num.unsigned_literal (String c t) with Some n => Some (s, n) | None => None end.
Proof.
  intros Hd. destruct s.
  - apply literal_negative.
  - now apply (literal_unsigned c d).
Qed.

Lemma exponent_negative k : Num.exponent ("e-" +:+ digits_of (Z.pos k)) = Z.neg k.
Proof.
  change (Num.exponent (String "e" (String "-" (digits_of (Z.pos k)))) = Z.neg k).
  cbn [Num.exponent]. change ((Str.code "e" =? 101) || (Str.code "e" =? 69)) with true.
  cbv iota beta. rewrite digits_of_pos.
  rewrite <- (append_empty (NilEmpty.string_of_uint (Pos.to_uint k))), span_digits_uint.
  cbn [Num.span_digits fst snd]. rewrite app_nil_r.
  pose proof (digits_nonempty k) as Hne. pose proof (value_pos k) as Hv.
  destruct (uint_digits (Pos.to_uint k)); [contradiction|]. rewrite Hv. reflexivity.
Qed.

(** The literal of a written integer, followed by a text that starts with
    neither a digit nor a point. *)
Lemma unsigned_literal_digits p rest :
  Num.span_digits rest = ([], rest) ->
  (forall r, rest <> String "." r) ->
  Num.unsigned_literal (digits_of (Z.pos p) +:+ rest) = Some (Num.Decimal (Z.pos p) (Num.exponent rest)).
Proof.
  intros Hrest Hdot. destruct (digits_head p) as (c & d & t & Hp & Hd).
  unfold Num.unsigned_literal.
  rewrite Hp. change (String c t +:+ rest) with (String c (t +:+ rest)).
  rewrite (prefix_Infinity c d) by assumption.
  change (String c (t +:+ rest)) with (String c t +:+ rest). rewrite <- Hp.
  rewrite digits_of_pos, span_digits_uint, Hrest. cbn [fst snd]. rewrite app_nil_r.
  pose proof (digits_nonempty p) as Hne. pose proof (value_pos p) as Hv.
  destruct (uint_digits (Pos.to_uint p)) as [|x l]; [contradiction|]. rewrite Hv.
  destruct rest as [|c0 r0]; [reflexivity|].
  destruct (ascii_dec c0 ".") as [->|Hc]; [now destruct (Hdot r0)|].
  destruct c0 as [[] [] [] [] [] [] [] []]; try reflexivity. now destruct Hc.
Qed.

(** [parseFloat] on a signed integer, and on a signed integer with a negative
    exponent. *)
Lemma parse_integer (s : bool) p :
  Num.parseFloat_string ((if s then "-" else "") +:+ digits_of (Z.pos p)) = Num.of_decimal s (Z.pos p) 0.
Proof.
  unfold Num.parseFloat_string.
  destruct (digits_head p) as (c & d & t & Hp & Hd).
  rewrite Hp, (literal_signed s c d) by assumption. rewrite <- Hp.
  rewrite <- (append_empty (digits_of (Z.pos p))), unsigned_literal_digits by (reflexivity || discriminate).
  reflexivity.
Qed.

Lemma parse_scientific (s : bool) p k :
  Num.parseFloat_string ((if s then "-" else "") +:+ digits_of (Z.pos p) +:+ "e-" +:+ digits_of (Z.pos k)) =
  Num.of_decimal s (Z.pos p) (Z.neg k).
Proof.
  unfold Num.parseFloat_string.
  destruct (digits_head p) as (c & d & t & Hp & Hd).
  rewrite Hp. change (String c t +:+ ?r) with (String c (t +:+ r)).
  rewrite (literal_signed s c d) by assumption.
  change (String c (t +:+ ?r)) with (String c t +:+ r). rewrite <- Hp.
  rewrite unsigned_literal_digits by (reflexivity || discriminate).
  now rewrite exponent_negative.
Qed.


(** The exact text of a number reads back. *)
Lemma exact_text_reads_back f : Num.parseFloat_string (exact_text f) = Num.read_back f.
Proof.
  unfold exact_text, Num.read_back.
  destruct (Prim2SF f) as [s|s| |s m e] eqn:Hf.
  - rewrite <- (SF2Prim_Prim2SF f), Hf. destruct s; vm_compute; reflexivity.
  - rewrite <- (SF2Prim_Prim2SF f), Hf. destruct s; vm_compute; reflexivity.
  - rewrite <- (SF2Prim_Prim2SF f), Hf. vm_compute; reflexivity.
  - assert (Hz : PrimFloat.eqb f 0 = false).
    { destruct (PrimFloat.eqb f 0) eqn:Hz; [|reflexivity].
      apply eqb_zero_spec in Hz as [z Hz]. congruence. }
    rewrite Hz. destruct e as [|p|k].
    + change (2 ^ 0) with 1. rewrite Z.mul_1_r, parse_integer.
      rewrite <- (Z.mul_1_r (Z.pos m)). change 1 with (2 ^ 0) at 1.
      now apply of_decimal_integer.
    + assert (Hpos : 0 < Z.pos m * 2 ^ Z.pos p)
        by (apply Z.mul_pos_pos; [lia | apply Z.pow_pos_nonneg; lia]).
      destruct (Z.pos m * 2 ^ Z.pos p) as [|M|M] eqn:HM; try lia.
      rewrite parse_integer, <- HM. apply of_decimal_integer; [assumption | lia].
    + rewrite parse_scientific, Pos2Z.inj_mul, Pos2Z.inj_pow.
      now apply of_decimal_quotient.
Qed.

End ReadBack.

(** The reference engine follows the language. *)
#[export] Instance lawful : @Lawful Reference.engine.
Proof.
  constructor. intros f.
  change (Num.parseFloat_string (Reference.NumberToString f) = Num.read_back f).
  unfold Reference.NumberToString. cbv zeta.
  destruct (PrimFloat.Leibniz.eqb _ _) eqn:Hr.
  - now apply FloatAxioms.Leibniz.eqb_spec in Hr.
  - apply exact_text_reads_back.
Qed.

Section Mapper.
Context `{Engine}.

Lemma or_defined a b : b <> VUndefined -> JS.or a b <> VUndefined.
Proof.
  intros Hb. unfold JS.or. destruct (JS.truthy a) eqn:Ht; [|exact Hb].
  intros ->. discriminate.
Qed.

Lemma or_truthy a b : JS.truthy a = true -> JS.or a b = a.
Proof. intros Ht. unfold JS.or. now rewrite Ht. Qed.

(** The fields of a record, one by one. *)
Lemma record_orderId clock (row : row) index :
  JS.prop (rowToRecord clock row index) "orderId" =
  Ok (JS.or (JS.index row 0)
        (VStr ("ORD-" +:+ Str.padStart 3 "0" (Str.of_nat (index + 1))))).
Proof. reflexivity. Qed.

Lemma record_projectId clock (row : row) index :
  JS.prop (rowToRecord clock row index) "projectId" =
  Ok (JS.or (JS.index row 1)
        (VStr ("PRJ-" +:+ Str.padStart 3 "0" (Str.of_nat (index + 1))))).
Proof. reflexivity. Qed.

Lemma record_projectName clock (row : row) index :
  JS.prop (rowToRecord clock row index) "projectName" =
  Ok (JS.or (JS.index row 2) (VStr "Unnamed Project")).
Proof. reflexivity. Qed.

Lemma record_projectType clock (row : row) index :
  JS.prop (rowToRecord clock row index) "projectType" =
  Ok (JS.or (JS.index row 3) (VStr "Other")).
Proof. reflexivity. Qed.

Lemma record_region clock (row : row) index :
  JS.prop (rowToRecord clock row index) "region" =
  Ok (JS.or (JS.index row 4) (VStr "Unknown")).
Proof. reflexivity. Qed.

Lemma record_price clock (row : row) index :
  JS.prop (rowToRecord clock row index) "price" =
  Ok (VNum (number_or (parseFloat (JS.index row 5)) 0)).
Proof. reflexivity. Qed.

Lemma record_date clock (row : row) index :
  JS.prop (rowToRecord clock row index) "date" =
  Ok (JS.or (formatDate (JS.index row 6)) (VStr (today clock))).
Proof. reflexivity. Qed.

Lemma or_blank cell d : blank cell -> JS.or cell d = d.
Proof. now intros [-> | ->]. Qed.

(** [formatDate] returns the date part of the ISO text of a valid date and
    [null] otherwise: the RangeError of [toISOString] is caught. *)
Lemma formatDate_invalid cell :
  Date.construct cell = None -> formatDate cell = VNull.
Proof.
  intros Hd. unfold formatDate. destruct (JS.not cell); [reflexivity|].
  now rewrite Hd.
Qed.

Lemma formatDate_valid cell t :
  JS.truthy cell = true -> Date.construct cell = Some t ->
  formatDate cell = VStr (today t).
Proof.
  intros Ht Hd. unfold formatDate, JS.not. rewrite Ht, Hd. reflexivity.
Qed.

(** C2: the record made from any row has its seven fields, none of them
    [undefined], and its price is a number that is never NaN; the price is
    finite unless the price cell parses to an infinity. *)
Theorem rowToRecord_invariant clock (row : row) index :
  let record := rowToRecord clock row index in
  (forall k, In k record_fields ->
             exists v, JS.prop record k = Ok v /\ v <> VUndefined) /\
  exists f,
    JS.prop record "price" = Ok (VNum f) /\
    PrimFloat.is_nan f = false /\
    Num.is_finite f = negb (PrimFloat.is_infinity (parseFloat (JS.index row 5))).
Proof.
  split.
  - intros k Hk. simpl in Hk.
    destruct Hk as [<- | [<- | [<- | [<- | [<- | [<- | [<- | []]]]]]]];
      (eexists; split; [reflexivity|]);
      try (apply or_defined; discriminate); discriminate.
  - eexists. split; [reflexivity|]. split.
    + apply number_or_zero_not_nan.
    + apply number_or_zero_finite.
Qed.

(** C6: a blank [projectType], [region] or [projectName] cell is replaced
    by its default, a price cell that does not parse gives the price 0 (so
    does the text [abc], which has no numeric prefix), a date cell that is
    not a date gives the current date, and [doGet] maps every data row of
    every sheet without failing. *)
Theorem rowToRecord_defaults clock (row : row) index :
  let record := rowToRecord clock row index in
  (blank (JS.index row 3) -> JS.prop record "projectType" = Ok (VStr "Other")) /\
  (blank (JS.index row 4) -> JS.prop record "region" = Ok (VStr "Unknown")) /\
  (blank (JS.index row 2) -> JS.prop record "projectName" = Ok (VStr "Unnamed Project")) /\
  (unparseable (JS.index row 5) -> JS.prop record "price" = Ok (VNum 0)) /\
  (forall s, JS.index row 5 = VStr s -> Num.literal s = None ->
             JS.prop record "price" = Ok (VNum 0)) /\
  Num.literal "abc" = None /\
  (Date.construct (JS.index row 6) = None ->
   JS.prop record "date" = Ok (VStr (today clock))) /\
  (forall w rows,
      quiet w -> graph w = Some rows -> (1 < length rows)%nat ->
      doGet w =
      (Ok (createJsonResponse
             (VArr (imap (fun index row => rowToRecord (now w) row index) (drop 1 rows)))),
       w)).
Proof.
  repeat apply conj.
  - intros Hb. simpl. now rewrite (or_blank _ _ Hb).
  - intros Hb. simpl. now rewrite (or_blank _ _ Hb).
  - intros Hb. simpl. now rewrite (or_blank _ _ Hb).
  - intros Hn. simpl. now rewrite (number_or_zero_nan _ Hn).
  - intros s Hs Hl. rewrite record_price, Hs.
    unfold parseFloat, Num.parseFloat_string. cbn [ToString]. rewrite Hl. reflexivity.
  - reflexivity.
  - intros Hd. simpl. now rewrite (formatDate_invalid _ Hd).
  - intros w rows Hq Hg Hlen. rewrite (doGet_quiet w Hq), Hg.
    destruct (Nat.leb_spec (length rows) 1) as [Hle|_]; [lia | reflexivity].
Qed.

End Mapper.

(** ** Creating a record and reading it back *)

Section RoundTrip.
Context `{Engine} `{!Lawful}.

Lemma field_ok data k v : JS.prop data k = Ok v -> field data k = v.
Proof. intros Hp. unfold field. now rewrite Hp. Qed.

Lemma lift_prop data k w :
  data <> VNull -> data <> VUndefined ->
  lift (JS.prop data k) w = (Ok (field data k), w).
Proof.
  intros Hn Hu. destruct (prop_total data k Hn Hu) as [v Hv].
  unfold lift. now rewrite (field_ok _ _ _ Hv), Hv.
Qed.

(** A body whose four required fields are truthy is appended to the sheet,
    numbered by the count of the rows of the sheet. *)
Lemma doPost_valid e w text data s :
  quiet w -> graph w = Some s ->
  postData e = Some {| contents := text |} ->
  JSON_parse text = Ok data ->
  data <> VNull -> data <> VUndefined ->
  JS.not (field data "projectName") || JS.not (field data "projectType")
    || JS.not (field data "region") || JS.not (field data "price") = false ->
  doPost e w =
  (Ok (createJsonResponse
         (VObj [("success", VBool true);
                ("message", VStr "Data added successfully");
                ("orderId", VStr ("ORD-" +:+ Str.padStart 3 "0" (Str.of_nat (length s))));
                ("projectId", VStr ("PRJ-" +:+ Str.padStart 3 "0" (Str.of_nat (length s))))])),
   with_sheets w (<["graph" := s ++ [rowData data (length s) (now w)]]> (sheets w))).
Proof.
  intros Hq Hg He Hparse Hn Hu Hvalid. unfold doPost.
  apply try_catch_ok.
  rewrite He. cbn [contents].
  erewrite bind_ok by reflexivity.
  erewrite bind_ok by (unfold lift; rewrite Hparse; reflexivity).
  erewrite bind_ok by (apply validation_ok; assumption).
  rewrite Hvalid.
  rewrite (bind_ok _ _ _ _ _ (getActiveSpreadsheet_quiet w Hq)).
  rewrite (bind_ok _ _ _ _ _ (getSheetByName_quiet w Hq _ _)).
  unfold graph in Hg. rewrite Hg.
  rewrite (bind_ok _ _ _ _ _ (getLastRow_quiet w Hq _ _ Hg)).
  do 4 (erewrite bind_ok by (apply lift_prop; assumption)).
  erewrite bind_ok by reflexivity.
  erewrite bind_ok by (apply appendRow_quiet; eassumption).
  reflexivity.
Qed.

Lemma truthy_string s : s <> EmptyString -> JS.truthy (VStr s) = true.
Proof. destruct s; [congruence | reflexivity]. Qed.

Lemma truthy_number f :
  PrimFloat.is_nan f = false -> PrimFloat.eqb f 0 = false -> JS.truthy (VNum f) = true.
Proof. intros Hn Hz. simpl. now rewrite Hn, Hz. Qed.

Lemma graph_with_sheets w s : graph (with_sheets w (<["graph" := s]> (sheets w))) = Some s.
Proof. unfold graph. simpl. apply lookup_insert_eq. Qed.

(** C1: on a sheet made of the header row and N data rows, a request whose
    [projectName], [projectType] and [region] are non-empty strings and
    whose [price] is a non-zero number is appended by [doPost]; [doGet] then
    maps the new row to a record with the same [projectName], [projectType],
    [region] and [price], and with the [orderId] ORD-NNN and the [projectId]
    PRJ-NNN, NNN being N+1 padded with zeros to three digits.  The price
    is read by [parseFloat] from the text of the number: the engine is one
    in which that text denotes the number, as the language asks. *)
Theorem create_then_read e w text data header (rows : list row)
    projectName projectType region price :
  quiet w ->
  graph w = Some (header :: rows) ->
  postData e = Some {| contents := text |} ->
  JSON_parse text = Ok data ->
  JS.prop data "projectName" = Ok (VStr projectName) -> projectName <> EmptyString ->
  JS.prop data "projectType" = Ok (VStr projectType) -> projectType <> EmptyString ->
  JS.prop data "region" = Ok (VStr region) -> region <> EmptyString ->
  JS.prop data "price" = Ok (VNum price) ->
  PrimFloat.is_nan price = false -> PrimFloat.eqb price 0 = false ->
  let n := length rows in
  let nnn := Str.padStart 3 "0" (Str.of_nat (n + 1)) in
  exists newRow w',
    doPost e w =
    (Ok (createJsonResponse
           (VObj [("success", VBool true);
                  ("message", VStr "Data added successfully");
                  ("orderId", VStr ("ORD-" +:+ nnn));
                  ("projectId", VStr ("PRJ-" +:+ nnn))])), w') /\
    graph w' = Some (header :: rows ++ [newRow]) /\
    let record := rowToRecord (now w') newRow n in
    (exists records,
        doGet w' = (Ok (createJsonResponse (VArr records)), w') /\
        records !! n = Some record) /\
    JS.prop record "projectName" = Ok (VStr projectName) /\
    JS.prop record "projectType" = Ok (VStr projectType) /\
    JS.prop record "region" = Ok (VStr region) /\
    JS.prop record "price" = Ok (VNum price) /\
    JS.prop record "orderId" = Ok (VStr ("ORD-" +:+ nnn)) /\
    JS.prop record "projectId" = Ok (VStr ("PRJ-" +:+ nnn)).
Proof.
  intros Hq Hg He Hparse Hname Hname' Htype Htype' Hregion Hregion' Hprice Hnan Hzero n nnn.
  assert (Hn : data <> VNull) by (intros ->; discriminate).
  assert (Hu : data <> VUndefined) by (intros ->; discriminate).
  pose proof (truthy_string _ Hname') as Tname.
  pose proof (truthy_string _ Htype') as Ttype.
  pose proof (truthy_string _ Hregion') as Tregion.
  pose proof (truthy_number _ Hnan Hzero) as Tprice.
  assert (Hlast : length (header :: rows) = (n + 1)%nat) by (simpl; lia).
  set (newRow := rowData data (n + 1) (now w)).
  exists newRow, (with_sheets w (<["graph" := (header :: rows) ++ [newRow]]> (sheets w))).
  split.
  { rewrite (doPost_valid e w text data (header :: rows) Hq Hg He Hparse Hn Hu).
    - rewrite Hlast. reflexivity.
    - rewrite (field_ok _ _ _ Hname), (field_ok _ _ _ Htype),
        (field_ok _ _ _ Hregion), (field_ok _ _ _ Hprice).
      unfold JS.not. now rewrite Tname, Ttype, Tregion, Tprice. }
  split; [apply graph_with_sheets|].
  split.
  { eexists. split.
    - rewrite doGet_quiet by (apply quiet_with_sheets, Hq).
      rewrite graph_with_sheets.
      replace (length ((header :: rows) ++ [newRow]) <=? 1)%nat with false
        by (symmetry; apply Nat.leb_gt; rewrite length_app; simpl; lia).
      reflexivity.
    - change (drop 1 ((header :: rows) ++ [newRow])) with (rows ++ [newRow]).
      rewrite list_lookup_imap.
      unfold n. rewrite list_lookup_middle by reflexivity. reflexivity. }
  unfold newRow, rowData.
  rewrite (field_ok _ _ _ Hname), (field_ok _ _ _ Htype),
    (field_ok _ _ _ Hregion), (field_ok _ _ _ Hprice).
  rewrite record_projectName, record_projectType, record_region, record_price,
    record_orderId, record_projectId.
  cbn [JS.index nth].
  rewrite (or_truthy _ _ Tname), (or_truthy _ _ Ttype), (or_truthy _ _ Tregion).
  rewrite !or_truthy by reflexivity.
  unfold number_or, parseFloat. cbn [ToString].
  rewrite NumberToString_reads_back. unfold Num.read_back. rewrite Hzero, Tprice.
  repeat split; reflexivity.
Qed.

End RoundTrip.

(** ** The bootstrap *)

Section Bootstrap.
Context `{Engine}.

Lemma getRange_quiet w h r c nr nc :
  quiet w ->
  Host.getRange h r c nr nc w =
  (Ok {| Host.range_sheet := h; Host.range_row := r; Host.range_column := c;
         Host.range_numRows := nr; Host.range_numColumns := nc |}, w).
Proof.
  intros Hq. unfold Host.getRange.
  now rewrite (bind_ok _ _ _ _ _ (called_quiet w Hq _)).
Qed.

(** On a sheet with at least one row, [setupSheet] does nothing. *)
Lemma setupSheet_nonempty w (rows : sheet) :
  quiet w -> graph w = Some rows -> rows <> [] -> setupSheet w = (Ok tt, w).
Proof.
  intros Hq Hg Hne. unfold setupSheet.
  rewrite (bind_ok _ _ _ _ _ (getActiveSpreadsheet_quiet w Hq)).
  rewrite (bind_ok _ _ _ _ _ (getSheetByName_quiet w Hq _ _)).
  unfold graph in Hg. rewrite Hg.
  erewrite bind_ok by reflexivity.
  rewrite (bind_ok _ _ _ _ _ (getLastRow_quiet w Hq _ _ Hg)).
  destruct rows; [congruence | reflexivity].
Qed.

Lemma setValues_quiet w name (s : sheet) r c nr nc (values : list row) :
  quiet w -> sheets w !! name = Some s ->
  (length values =? nr)%nat && forallb (fun v : row => (length v =? nc)%nat) values = true ->
  Host.setValues {| Host.range_sheet := Host.Sheet name; Host.range_row := r;
                    Host.range_column := c; Host.range_numRows := nr;
                    Host.range_numColumns := nc |} values w =
  (Ok tt, with_sheets w (<[name := Host.write_rows (r - 1) (c - 1) values s]> (sheets w))).
Proof.
  intros Hq Hs Hdim. unfold Host.setValues.
  rewrite (bind_ok _ _ _ _ _ (called_quiet w Hq _)).
  cbn [Host.range_numRows Host.range_numColumns Host.range_sheet Host.range_row
       Host.range_column].
  rewrite Hdim.
  now rewrite (bind_ok _ _ _ _ _ (read_some w _ _ Hs)).
Qed.

(** The header and the samples written on an empty sheet. *)
Lemma seed_empty w :
  quiet w -> graph w = Some [] ->
  (let* lastRow := Host.getLastRow (Host.Sheet "graph") in
   if (lastRow =? 0)%nat then
     let* top := Host.getRange (Host.Sheet "graph") 1 1 1 (length headers) in
     Host.setValues top [headers] >>
     let* below :=
       Host.getRange (Host.Sheet "graph") 2 1 (length sampleData)
         (length (nth 0 sampleData [])) in
     Host.setValues below sampleData
   else ret tt) w =
  (Ok tt, with_sheets w (<["graph" := headers :: sampleData]> (sheets w))).
Proof.
  intros Hq Hg. unfold graph in Hg.
  rewrite (bind_ok _ _ _ _ _ (getLastRow_quiet w Hq _ _ Hg)).
  cbn [length Nat.eqb].
  rewrite (bind_ok _ _ _ _ _ (getRange_quiet w _ _ _ _ _ Hq)).
  erewrite bind_ok by (apply (setValues_quiet w _ _ _ _ _ _ _ Hq Hg); reflexivity).
  set (w1 := with_sheets w _).
  assert (Hq1 : quiet w1) by (apply quiet_with_sheets, Hq).
  assert (Hg1 : sheets w1 !! "graph" = Some [headers]).
  { unfold w1. simpl. rewrite lookup_insert_eq. reflexivity. }
  rewrite (bind_ok _ _ _ _ _ (getRange_quiet w1 _ _ _ _ _ Hq1)).
  rewrite (setValues_quiet w1 _ _ _ _ _ _ _ Hq1 Hg1) by reflexivity.
  unfold w1, with_sheets. simpl sheets. simpl now. simpl fault.
  rewrite insert_insert_eq. reflexivity.
Qed.

(** On an empty sheet, or without the sheet, [setupSheet] writes the header
    row and the five sample rows. *)
Lemma setupSheet_empty w :
  quiet w -> graph w = None \/ graph w = Some [] ->
  setupSheet w =
  (Ok tt, with_sheets w (<["graph" := headers :: sampleData]> (sheets w))).
Proof.
  intros Hq Hg. unfold setupSheet.
  rewrite (bind_ok _ _ _ _ _ (getActiveSpreadsheet_quiet w Hq)).
  rewrite (bind_ok _ _ _ _ _ (getSheetByName_quiet w Hq _ _)).
  destruct Hg as [Hg | Hg]; unfold graph in Hg; rewrite Hg.
  - unfold Host.insertSheet.
    erewrite bind_ok by
      (rewrite (bind_ok _ _ _ _ _ (called_quiet w Hq _)); rewrite Hg; reflexivity).
    set (w0 := with_sheets w _).
    assert (Hq0 : quiet w0) by (apply quiet_with_sheets, Hq).
    assert (Hg0 : graph w0 = Some []) by apply graph_with_sheets.
    rewrite (seed_empty w0 Hq0 Hg0).
    unfold w0, with_sheets. simpl. now rewrite insert_insert_eq.
  - erewrite bind_ok by reflexivity.
    now apply seed_empty.
Qed.

Lemma times_nothing (c : M unit) w n :
  c w = (Ok tt, w) -> times n c w = (Ok tt, w).
Proof.
  intros Hc. induction n as [|n IH]; [reflexivity|].
  simpl. now rewrite (bind_ok _ _ _ _ _ Hc).
Qed.

(** C7: on a sheet without rows (or without the sheet), [setupSheet] leaves
    exactly six rows, the header row followed by the five sample rows, and
    running it again any number of times changes nothing; on a sheet that
    has at least one row it changes nothing either. *)
Theorem setupSheet_idempotent w :
  quiet w ->
  (graph w = None \/ graph w = Some [] ->
   exists w1,
     setupSheet w = (Ok tt, w1) /\
     graph w1 = Some (headers :: sampleData) /\
     length (headers :: sampleData) = 6%nat /\
     forall n, times n setupSheet w1 = (Ok tt, w1)) /\
  (forall (rows : sheet),
      graph w = Some rows -> rows <> [] ->
      forall n, times n setupSheet w = (Ok tt, w)).
Proof.
  intros Hq. split.
  - intros Hg. eexists. split; [now apply setupSheet_empty|].
    split; [apply graph_with_sheets|]. split; [reflexivity|].
    intros n. apply times_nothing.
    apply (setupSheet_nonempty _ (headers :: sampleData)).
    + apply quiet_with_sheets, Hq.
    + apply graph_with_sheets.
    + discriminate.
  - intros rows Hg Hne n. apply times_nothing.
    now apply (setupSheet_nonempty w rows).
Qed.

End Bootstrap.

(** ** The statistics *)

Section Stats.
Context `{Engine} `{!Lawful}.

Lemma Object_prototype_inherited k : Object_prototype k = None <-> k ∉ inherited.
Proof.
  unfold Object_prototype, inherited.
  repeat case_decide; subst; rewrite ?elem_of_cons, ?elem_of_nil in *;
    rewrite ?elem_of_cons, ?elem_of_nil; split; intros; try discriminate; try tauto.
Qed.

Lemma truthy_falsy cell : JS.truthy cell = false <-> falsy cell.
Proof.
  unfold falsy, blank. destruct cell as [| |b|f|s| | |]; cbn [JS.truthy].
  - tauto.
  - tauto.
  - destruct b; split; try tauto; try discriminate.
    intros [[?|?]|[?|[?|(f & ? & _)]]]; discriminate.
  - rewrite negb_false_iff. split.
    + intros Hf. right. right. right. now exists f.
    + intros [[?|?]|[?|[?|(g & [= ->] & Hg)]]]; try discriminate. exact Hg.
  - destruct s; cbn; split; try tauto; try discriminate.
    intros [[?|?]|[?|[?|(f & ? & _)]]]; discriminate.
  - split; [discriminate|]. intros [[?|?]|[?|[?|(f & ? & _)]]]; discriminate.
  - split; [discriminate|]. intros [[?|?]|[?|[?|(f & ? & _)]]]; discriminate.
  - split; [discriminate|]. intros [[?|?]|[?|[?|(f & ? & _)]]]; discriminate.
Qed.

Lemma increment_other counts key k :
  ToString key <> k -> increment counts key !! k = counts !! k.
Proof.
  intros Hne. unfold increment, assign_counter.
  destruct (lookup_counter counts (ToString key)) as [t|[name|]|]; try reflexivity;
    now rewrite lookup_insert_ne.
Qed.

Lemma increment_same counts key :
  ToString key ∉ inherited -> counts_at counts (ToString key) ->
  increment counts key !! ToString key = Some (Count (S (stored counts (ToString key)))).
Proof.
  intros Hk Hc. apply Object_prototype_inherited in Hk.
  unfold increment, assign_counter, lookup_counter, stored. rewrite Hk.
  destruct (counts !! ToString key) as [[n|s]|] eqn:E.
  - cbn. rewrite lookup_insert_eq. do 2 f_equal. lia.
  - now destruct (Hc s).
  - cbn. now rewrite lookup_insert_eq.
Qed.

Lemma occurrences_cons name k (r : row) rows :
  occurrences name k (r :: rows) =
  ((if decide (name r = k) then 1 else 0) + occurrences name k rows)%nat.
Proof.
  unfold occurrences. rewrite filter_cons.
  destruct (decide (name r = k)); reflexivity.
Qed.

Lemma name_of_or d cell : ToString (JS.or cell (VStr d)) = name_of d cell.
Proof. unfold JS.or, name_of. now destruct (JS.truthy cell). Qed.

(** Counting from left to right, under a name that is not inherited: a
    name that occurs is stored with the count that was there plus the
    number of its occurrences; a name that does not occur is as before. *)
Lemma counting d (cell : row -> value) k rows :
  k ∉ inherited -> forall counts, counts_at counts k ->
  foldl (fun counts row => increment counts (JS.or (cell row) (VStr d))) counts rows !! k =
  match occurrences (fun r => name_of d (cell r)) k rows with
  | O => counts !! k
  | S n => Some (Count (stored counts k + S n))
  end.
Proof.
  intros Hk. induction rows as [|r rows IH]; intros counts Hc; [reflexivity|].
  cbn [foldl]. rewrite occurrences_cons.
  destruct (decide (name_of d (cell r) = k)) as [E|E].
  - assert (Hs : increment counts (JS.or (cell r) (VStr d)) !! k =
                 Some (Count (S (stored counts k)))).
    { rewrite <- E, <- name_of_or. apply increment_same; rewrite name_of_or, E; assumption. }
    rewrite IH by (intros s; rewrite Hs; discriminate).
    unfold stored at 1. rewrite Hs. cbn [fmap option_fmap option_map default count_of].
    destruct (occurrences _ k rows); cbn; do 2 f_equal; lia.
  - assert (Hs : increment counts (JS.or (cell r) (VStr d)) !! k = counts !! k)
      by (apply increment_other; now rewrite name_of_or).
    rewrite IH by (intros s; rewrite Hs; apply Hc).
    unfold stored. now rewrite Hs.
Qed.

Lemma counting_from_empty d (cell : row -> value) rows k :
  k ∉ inherited ->
  foldl (fun counts row => increment counts (JS.or (cell row) (VStr d))) ∅ rows !! k =
  let n := occurrences (fun r => name_of d (cell r)) k rows in
  if (n =? 0)%nat then None else Some (Count n).
Proof.
  intros Hk. rewrite counting; [|assumption|intros s; now rewrite lookup_empty].
  destruct (occurrences _ k rows); [apply lookup_empty|].
  unfold stored. now rewrite lookup_empty.
Qed.

Lemma revenue_sum rows : forall acc,
  foldl (fun sum row => (sum + number_or (parseFloat (JS.index row 5)) 0)%float) acc rows =
  foldl PrimFloat.add acc (map price_or_zero rows).
Proof.
  induction rows as [|r rows IH]; intros acc; [reflexivity|].
  cbn [foldl map]. rewrite IH. do 2 f_equal.
  unfold number_or, price_or_zero. simpl.
  destruct (PrimFloat.is_nan _), (PrimFloat.eqb _ 0); reflexivity.
Qed.

(** What [getStatistics] returns when no call throws. *)
Lemma getStatistics_quiet w (s : sheet) :
  quiet w -> graph w = Some s ->
  getStatistics w =
  (Ok (let rows := data_rows s in
       let revenue :=
         foldl (fun sum row => (sum + number_or (parseFloat (JS.index row 5)) 0)%float)
               0%float rows in
       {| totalOrders := length rows;
          totalRevenue := revenue;
          avgPrice := if (0 <? length rows)%nat
                      then (revenue / Num.of_nat (length rows))%float else 0%float;
          projectTypeCounts :=
            foldl (fun counts row => increment counts (JS.or (JS.index row 3) (VStr "Other")))
                  ∅ rows;
          regionCounts :=
            foldl (fun counts row => increment counts (JS.or (JS.index row 4) (VStr "Unknown")))
                  ∅ rows |}), w).
Proof.
  intros Hq Hg. unfold getStatistics.
  rewrite (bind_ok _ _ _ _ _ (getActiveSpreadsheet_quiet w Hq)).
  rewrite (bind_ok _ _ _ _ _ (getSheetByName_quiet w Hq _ _)).
  unfold graph in Hg. rewrite Hg.
  rewrite (bind_ok _ _ _ _ _ (getValues_quiet w Hq _ _ Hg)).
  destruct s; reflexivity.
Qed.

(** C4: [getStatistics] counts the data rows, adds their parsed prices
    (0 for a price that does not parse), divides the sum by the count (0
    without rows), and maps each project type and each region to the number
    of its rows, for every name that an object does not inherit from
    [Object.prototype]; a cell that is falsy (blank or missing, but also
    [null], [false], 0 and NaN) is counted under the default, "Other" or
    "Unknown", and any other cell under its string; without the sheet it
    returns zeros and empty maps; the two example rows give 2, 15000, 7500,
    one Development, one Design, one NA and one EU.  The example has a price
    cell that holds the number 15000, read from its text by an engine in
    which that text denotes the number. *)
Theorem getStatistics_correct w :
  quiet w ->
  (forall rows : sheet,
      graph w = Some rows ->
      let R := data_rows rows in
      exists st,
        getStatistics w = (Ok st, w) /\
        totalOrders st = length R /\
        totalRevenue st = total (map price_or_zero R) /\
        avgPrice st =
          (if (0 <? totalOrders st)%nat
           then (totalRevenue st / Num.of_nat (totalOrders st))%float else 0%float) /\
        (forall k, k ∉ inherited ->
                   projectTypeCounts st !! k =
                   let n := occurrences projectType_of k R in
                   if (n =? 0)%nat then None else Some (Count n)) /\
        (forall k, k ∉ inherited ->
                   regionCounts st !! k =
                   let n := occurrences region_of k R in
                   if (n =? 0)%nat then None else Some (Count n))) /\
  (forall r : row,
      (falsy (JS.index r 3) -> projectType_of r = "Other") /\
      (~ falsy (JS.index r 3) -> projectType_of r = ToString (JS.index r 3)) /\
      (falsy (JS.index r 4) -> region_of r = "Unknown") /\
      (~ falsy (JS.index r 4) -> region_of r = ToString (JS.index r 4)) /\
      (unparseable (JS.index r 5) -> price_or_zero r = 0%float)) /\
  (forall cell, blank cell -> falsy cell) /\
  (graph w = None ->
   getStatistics w =
   (Ok {| totalOrders := 0; totalRevenue := 0; avgPrice := 0;
          projectTypeCounts := ∅; regionCounts := ∅ |}, w)) /\
  (forall header,
      graph w = Some (header :: example_rows) ->
      getStatistics w =
      (Ok {| totalOrders := 2; totalRevenue := 15000; avgPrice := 7500;
             projectTypeCounts := {["Development" := Count 1; "Design" := Count 1]};
             regionCounts := {["NA" := Count 1; "EU" := Count 1]} |}, w)).
Proof.
  intros Hq. repeat apply conj.
  - intros rows Hg R. eexists. split; [apply (getStatistics_quiet w rows Hq Hg)|].
    cbn [totalOrders totalRevenue avgPrice projectTypeCounts regionCounts]. fold R.
    repeat apply conj; try reflexivity.
    + apply revenue_sum.
    + intros k Hk. now apply (counting_from_empty "Other" (fun r => JS.index r 3)).
    + intros k Hk. now apply (counting_from_empty "Unknown" (fun r => JS.index r 4)).
  - intros r. unfold projectType_of, region_of, name_of, price_or_zero, unparseable.
    repeat apply conj.
    + intros Hf. apply truthy_falsy in Hf. now rewrite Hf.
    + intros Hf. destruct (JS.truthy (JS.index r 3)) eqn:E; [reflexivity|].
      now apply truthy_falsy in E.
    + intros Hf. apply truthy_falsy in Hf. now rewrite Hf.
    + intros Hf. destruct (JS.truthy (JS.index r 4)) eqn:E; [reflexivity|].
      now apply truthy_falsy in E.
    + now intros ->.
  - intros cell Hb. now left.
  - intros Hg. unfold getStatistics.
    rewrite (bind_ok _ _ _ _ _ (getActiveSpreadsheet_quiet w Hq)).
    rewrite (bind_ok _ _ _ _ _ (getSheetByName_quiet w Hq _ _)).
    unfold graph in Hg. now rewrite Hg.
  - intros header Hg. rewrite (getStatistics_quiet w _ Hq Hg).
    assert (Hp : parseFloat (VNum 15000) = 15000%float).
    { unfold parseFloat. cbn [ToString]. now rewrite NumberToString_reads_back. }
    change (data_rows (header :: example_rows)) with example_rows.
    unfold example_rows. cbn [foldl JS.index nth]. rewrite Hp. reflexivity.
Qed.

End Stats.

(** ** The filter *)

Section Filter.
Context `{Engine}.

Lemma differs_ok criteria k (r : row) i w :
  criteria <> VNull -> criteria <> VUndefined ->
  differs criteria k r i w =
  (Ok (JS.truthy (field criteria k)
       && negb (JS.strict_eq (JS.index r i) (field criteria k))), w).
Proof.
  intros Hn Hu. unfold differs.
  rewrite (bind_ok _ _ _ _ _ (lift_prop criteria k w Hn Hu)).
  destruct (JS.truthy (field criteria k)); [|reflexivity].
  now rewrite (bind_ok _ _ _ _ _ (lift_prop criteria k w Hn Hu)).
Qed.

Lemma has_range_ok criteria w :
  criteria <> VNull -> criteria <> VUndefined ->
  has_range criteria w =
  (Ok (JS.truthy (field criteria "startDate") && JS.truthy (field criteria "endDate")), w).
Proof.
  intros Hn Hu. unfold has_range.
  rewrite (bind_ok _ _ _ _ _ (lift_prop criteria _ w Hn Hu)).
  destruct (JS.truthy (field criteria "startDate")); [|reflexivity].
  now rewrite (bind_ok _ _ _ _ _ (lift_prop criteria _ w Hn Hu)).
Qed.

Lemma lt_not_before d s : Date.lt d s = false <-> not_before d s.
Proof.
  unfold Date.lt, not_before. destruct d as [d|], s as [s|]; try tauto.
  rewrite Z.ltb_ge. tauto.
Qed.

Lemma gt_not_after d e : Date.gt d e = false <-> not_after d e.
Proof.
  unfold Date.gt, Date.lt, not_after. destruct d as [d|], e as [e|]; try tauto.
  rewrite Z.ltb_ge. tauto.
Qed.

(** The test of the filter decides [matches]. *)
Lemma keepRow_ok criteria (r : row) w :
  criteria <> VNull -> criteria <> VUndefined ->
  exists b, keepRow criteria r w = (Ok b, w) /\ (b = true <-> matches criteria r).
Proof.
  intros Hn Hu. unfold keepRow, matches, given.
  rewrite (bind_ok _ _ _ _ _ (differs_ok criteria _ r _ w Hn Hu)).
  destruct (JS.truthy (field criteria "projectType")) eqn:T1;
    [destruct (JS.strict_eq (JS.index r 3) (field criteria "projectType")) eqn:E1|];
    cbn [andb negb];
    try (eexists; split; [reflexivity|]; split; [discriminate|];
         intros [Hm _]; specialize (Hm eq_refl); discriminate).
  all: rewrite (bind_ok _ _ _ _ _ (differs_ok criteria _ r _ w Hn Hu)).
  all: destruct (JS.truthy (field criteria "region")) eqn:T2;
    [destruct (JS.strict_eq (JS.index r 4) (field criteria "region")) eqn:E2|];
    cbn [andb negb];
    try (eexists; split; [reflexivity|]; split; [discriminate|];
         intros (_ & Hm & _); specialize (Hm eq_refl); discriminate).
  all: rewrite (bind_ok _ _ _ _ _ (has_range_ok criteria w Hn Hu)).
  all: destruct (JS.truthy (field criteria "startDate")) eqn:T3;
    [destruct (JS.truthy (field criteria "endDate")) eqn:T4|];
    cbn [andb];
    try (eexists; split; [reflexivity|]; split; [|reflexivity];
         intros _; repeat split; auto; discriminate).
  all: rewrite (bind_ok _ _ _ _ _ (lift_prop criteria _ w Hn Hu)).
  all: rewrite (bind_ok _ _ _ _ _ (lift_prop criteria _ w Hn Hu)).
  all: destruct (Date.lt _ _) eqn:L; [|destruct (Date.gt _ _) eqn:G]; cbn [orb];
    (eexists; split; [reflexivity|]).
  all: try (split; [discriminate|]; intros (_ & _ & Hm);
            destruct (Hm eq_refl eq_refl) as [Hb Ha];
            apply lt_not_before in Hb; apply gt_not_after in Ha; congruence).
  all: split; [|reflexivity]; intros _;
    split; [intros ?; first [assumption | discriminate]|];
    split; [intros ?; first [assumption | discriminate]|];
    intros _ _; split; [now apply lt_not_before | now apply gt_not_after].
Qed.

Lemma filterM_ok (P : row -> Prop) `{forall r, Decision (P r)} (keep : row -> M bool) w :
  (forall r, exists b, keep r w = (Ok b, w) /\ (b = true <-> P r)) ->
  forall l, filterM keep l w = (Ok (filter P l), w).
Proof.
  intros Hkeep. induction l as [|r l IH]; [reflexivity|].
  cbn [filterM]. destruct (Hkeep r) as (b & Hb & Hiff).
  rewrite (bind_ok _ _ _ _ _ Hb), (bind_ok _ _ _ _ _ IH).
  rewrite filter_cons. unfold ret.
  destruct (decide (P r)) as [Hp|Hp]; destruct b; try reflexivity.
  - apply Hiff in Hp. discriminate.
  - exfalso. apply Hp, Hiff. reflexivity.
Qed.

(** What [getDataByFilter] returns when no call throws. *)
Lemma getDataByFilter_quiet criteria w (rows : sheet) :
  quiet w -> graph w = Some rows ->
  criteria <> VNull -> criteria <> VUndefined ->
  getDataByFilter criteria w = (Ok (filter (matches criteria) (data_rows rows)), w).
Proof.
  intros Hq Hg Hn Hu. unfold getDataByFilter.
  rewrite (bind_ok _ _ _ _ _ (getActiveSpreadsheet_quiet w Hq)).
  rewrite (bind_ok _ _ _ _ _ (getSheetByName_quiet w Hq _ _)).
  unfold graph in Hg. rewrite Hg.
  rewrite (bind_ok _ _ _ _ _ (getValues_quiet w Hq _ _ Hg)).
  replace (drop 1 match rows with [] => [[VStr ""]] | _ :: _ => rows end)
    with (data_rows rows) by (now destruct rows).
  apply filterM_ok. intros r. now apply keepRow_ok.
Qed.

(** On valid dates, not before the start and not after the end is the
    inclusive range. *)
Lemma matches_meets criteria (rows : list row) (r : row) :
  well_dated criteria rows -> r ∈ rows ->
  matches criteria r <-> meets criteria r.
Proof.
  intros Hwd Hr. unfold matches, meets.
  assert (Hdate : given criteria "startDate" -> given criteria "endDate" ->
                  (not_before (Date.construct (JS.index r 6))
                              (Date.construct (field criteria "startDate")) /\
                   not_after (Date.construct (JS.index r 6))
                             (Date.construct (field criteria "endDate")))
                  <-> dated_within criteria r).
  { intros Hs He. destruct (Hwd Hs He) as ([s Hst] & [e Hen] & Hall).
    rewrite Forall_forall in Hall. destruct (Hall r Hr) as [d Hd].
    unfold dated_within. rewrite Hd, Hst, Hen. simpl. tauto. }
  split; intros (Ht & Hrg & Hd); (split; [exact Ht | split; [exact Hrg |]]);
    intros Hs He; apply (Hdate Hs He), (Hd Hs He).
Qed.

Lemma filter_agree (P Q : row -> Prop) `{forall r, Decision (P r)} `{forall r, Decision (Q r)}
    (l : list row) :
  (forall r, r ∈ l -> P r <-> Q r) -> filter P l = filter Q l.
Proof.
  induction l as [|r l IH]; intros Hpq; [reflexivity|].
  rewrite !filter_cons.
  assert (Hr : P r <-> Q r) by (apply Hpq; left).
  rewrite IH by (intros x Hx; apply Hpq; now right).
  destruct (decide (P r)), (decide (Q r)); tauto.
Qed.

(** C5: [getDataByFilter] returns, in the order of the sheet, exactly the
    data rows that meet every criterion that is given (present and truthy):
    column 3 equals [projectType], column 4 equals [region], and, when
    [startDate] and [endDate] are both given, the date of column 6 lies in
    the inclusive range between them; a criterion that is not given puts no
    constraint, and so does a [startDate] without an [endDate].  The range
    is taken between valid dates, on rows whose date cell is a date. *)
Theorem getDataByFilter_correct fields w (rows : sheet) :
  quiet w ->
  graph w = Some rows ->
  well_dated (VObj fields) (data_rows rows) ->
  getDataByFilter (VObj fields) w =
  (Ok (filter (meets (VObj fields)) (data_rows rows)), w).
Proof.
  intros Hq Hg Hwd.
  rewrite (getDataByFilter_quiet (VObj fields) w rows Hq Hg) by discriminate.
  do 2 f_equal. apply filter_agree.
  intros r Hr. now apply (matches_meets _ (data_rows rows)).
Qed.

End Filter.

(** * Beyond the specification

    ** Creating records *)

Section Create.
Context `{Engine}.

Lemma valid_object data : valid data -> data <> VNull /\ data <> VUndefined.
Proof. intros (Hn & _). split; intros ->; discriminate Hn. Qed.

Lemma valid_passes data :
  valid data ->
  JS.not (field data "projectName") || JS.not (field data "projectType")
    || JS.not (field data "region") || JS.not (field data "price") = false.
Proof.
  intros (Hn & Ht & Hr & Hp). unfold given in *. unfold JS.not.
  now rewrite Hn, Ht, Hr, Hp.
Qed.

(** What [doPost] does with a valid body when no call throws. *)
Lemma doPost_stores e w text data s :
  quiet w -> graph w = Some s ->
  postData e = Some {| contents := text |} -> JSON_parse text = Ok data -> valid data ->
  doPost e w =
  (Ok (created (length s)), with_graph w (s ++ [rowData data (length s) (now w)])).
Proof.
  intros Hq Hg He Hp Hv. destruct (valid_object data Hv) as [Hn Hu].
  exact (doPost_valid e w text data s Hq Hg He Hp Hn Hu (valid_passes data Hv)).
Qed.

Lemma doPost_absent e w text data :
  quiet w -> graph w = None ->
  postData e = Some {| contents := text |} -> JSON_parse text = Ok data -> valid data ->
  doPost e w = (Ok (createErrorResponse (not_found " first.")), w).
Proof.
  intros Hq Hg He Hp Hv. destruct (valid_object data Hv) as [Hn Hu].
  unfold doPost. apply try_catch_ok.
  rewrite He. cbn [contents].
  erewrite bind_ok by reflexivity.
  erewrite bind_ok by (unfold lift; rewrite Hp; reflexivity).
  erewrite bind_ok by (apply validation_ok; assumption).
  rewrite (valid_passes data Hv).
  rewrite (bind_ok _ _ _ _ _ (getActiveSpreadsheet_quiet w Hq)).
  rewrite (bind_ok _ _ _ _ _ (getSheetByName_quiet w Hq _ _)).
  unfold graph in Hg. rewrite Hg. reflexivity.
Qed.

Lemma quiet_with_graph w s : quiet w -> quiet (with_graph w s).
Proof. apply quiet_with_sheets. Qed.

Lemma graph_with_graph w s : graph (with_graph w s) = Some s.
Proof. unfold graph, with_graph. simpl. apply lookup_insert_eq. Qed.

Lemma with_graph_twice w s s' : with_graph (with_graph w s) s' = with_graph w s'.
Proof. unfold with_graph, with_sheets. simpl. now rewrite insert_insert_eq. Qed.

(** X1: without the sheet named "graph", [doGet] answers the error that
    asks for a sheet with the required columns and [doPost], on a body that
    passes its validation, the error that asks to create the sheet first;
    neither creates the sheet nor changes anything. *)
Theorem handlers_without_sheet w :
  quiet w -> graph w = None ->
  doGet w = (Ok (createErrorResponse (not_found " with the required columns.")), w) /\
  forall e text data,
    postData e = Some {| contents := text |} -> JSON_parse text = Ok data -> valid data ->
    doPost e w = (Ok (createErrorResponse (not_found " first.")), w).
Proof.
  intros Hq Hg. split.
  - rewrite (doGet_quiet w Hq), Hg. reflexivity.
  - intros e text data. now apply doPost_absent.
Qed.

(** X3: on any sheet, with or without a header row, a body whose four
    required fields are truthy, whatever their types, is stored as given:
    the new row holds the two identifiers numbered by the count of rows
    before the append, the four fields unchanged and the UTC date of the
    clock; nothing else of the body is read, and no other sheet changes. *)
Theorem doPost_stores_as_given e w text data s :
  quiet w -> graph w = Some s ->
  postData e = Some {| contents := text |} -> JSON_parse text = Ok data -> valid data ->
  let n := Str.padStart 3 "0" (Str.of_nat (length s)) in
  exists w',
    doPost e w = (Ok (created (length s)), w') /\
    graph w' =
    Some (s ++ [[VStr ("ORD-" +:+ n); VStr ("PRJ-" +:+ n);
                 field data "projectName"; field data "projectType";
                 field data "region"; field data "price"; VStr (today (now w))]]) /\
    now w' = now w /\
    forall name, name <> "graph" -> sheets w' !! name = sheets w !! name.
Proof.
  intros Hq Hg He Hp Hv n. eexists. split; [now apply (doPost_stores e w text data s)|].
  split; [apply graph_with_graph|]. split; [reflexivity|].
  intros name Hne. unfold with_graph. simpl. now apply lookup_insert_ne.
Qed.

(** X4: on a sheet that exists and has no row, [doPost] numbers the record
    000 and stores it as the first row, which [doGet] takes for the header:
    the record is not listed. *)
Theorem first_row_is_not_listed e w text data :
  quiet w -> graph w = Some [] ->
  postData e = Some {| contents := text |} -> JSON_parse text = Ok data -> valid data ->
  exists w',
    doPost e w = (Ok (created 0), w') /\
    graph w' = Some [rowData data 0 (now w)] /\
    forall w2,
      quiet w2 -> graph w2 = graph w' ->
      doGet w2 = (Ok (createJsonResponse (VArr [])), w2).
Proof.
  intros Hq Hg He Hp Hv. eexists.
  split; [exact (doPost_stores e w text data [] Hq Hg He Hp Hv)|].
  split; [apply graph_with_graph|].
  intros w2 Hq2 Hg2. rewrite (doGet_quiet w2 Hq2), Hg2, graph_with_graph. reflexivity.
Qed.

(** X5: two requests in a row are numbered one after the other and stored
    in that order, after the rows that were there. *)
Theorem doPost_twice e1 e2 w text1 text2 data1 data2 s :
  quiet w -> graph w = Some s ->
  postData e1 = Some {| contents := text1 |} -> JSON_parse text1 = Ok data1 -> valid data1 ->
  postData e2 = Some {| contents := text2 |} -> JSON_parse text2 = Ok data2 -> valid data2 ->
  let n := length s in
  exists w1,
    doPost e1 w = (Ok (created n), w1) /\
    forall w1',
      quiet w1' -> graph w1' = graph w1 ->
      exists w2,
        doPost e2 w1' = (Ok (created (n + 1)), w2) /\
        graph w2 = Some (s ++ [rowData data1 n (now w); rowData data2 (n + 1) (now w1')]).
Proof.
  intros Hq Hg He1 Hp1 Hv1 He2 Hp2 Hv2 n.
  exists (with_graph w (s ++ [rowData data1 n (now w)])).
  split; [exact (doPost_stores e1 w text1 data1 s Hq Hg He1 Hp1 Hv1)|].
  intros w1' Hq1 Hg1. rewrite graph_with_graph in Hg1.
  assert (Hlen : length (s ++ [rowData data1 n (now w)]) = (n + 1)%nat)
    by (rewrite length_app; simpl; reflexivity).
  rewrite (doPost_stores e2 w1' text2 data2 _ Hq1 Hg1 He2 Hp2 Hv2), Hlen.
  eexists. split; [reflexivity|].
  rewrite graph_with_graph, <- app_assoc. reflexivity.
Qed.

(** X6: the identifier depends on the number of rows only: when a row of
    the sheet already has the identifier of that number (rows were
    removed), [doPost] stores a second row with the same identifier. *)
Theorem doPost_repeats_an_identifier e w text data s i (r : row) :
  quiet w -> graph w = Some s ->
  postData e = Some {| contents := text |} -> JSON_parse text = Ok data -> valid data ->
  s !! i = Some r ->
  JS.index r 0 = VStr ("ORD-" +:+ Str.padStart 3 "0" (Str.of_nat (length s))) ->
  exists w' s' r',
    doPost e w = (Ok (created (length s)), w') /\
    graph w' = Some s' /\
    s' !! i = Some r /\ s' !! length s = Some r' /\ i <> length s /\
    JS.index r' 0 = JS.index r 0.
Proof.
  intros Hq Hg He Hp Hv Hi Hid.
  exists (with_graph w (s ++ [rowData data (length s) (now w)])),
    (s ++ [rowData data (length s) (now w)]), (rowData data (length s) (now w)).
  split; [now apply (doPost_stores e w text data s)|].
  split; [apply graph_with_graph|].
  pose proof (lookup_lt_Some _ _ _ Hi) as Hlt.
  split; [now rewrite lookup_app_l|].
  split; [now apply list_lookup_middle|].
  split; [lia|]. now rewrite Hid.
Qed.

End Create.


Section CreateAnyHost.
Context `{Engine}.

(** Every run of [doPost], whatever the host does: an error and the world
    as it was, or the row of a valid body appended to the sheet. *)
Lemma doPost_cases e w :
  exists out w',
    doPost e w = (Ok out, w') /\
    (is_error out /\ w' = w \/
     exists p data s,
       postData e = Some p /\ JSON_parse (contents p) = Ok data /\ valid data /\
       graph w = Some s /\ out = created (length s) /\
       w' = with_graph w (s ++ [rowData data (length s) (now w)])).
Proof.
  assert (Herr : forall msg, is_error (createErrorResponse msg)) by (intros; eexists; reflexivity).
  unfold graph. run_handler.
  destruct (postData e) as [p|] eqn:He; [|do 2 eexists; split; [reflexivity | left; auto]].
  destruct (JSON_parse (contents p)) as [data|x] eqn:Hparse;
    [|do 2 eexists; split; [reflexivity | left; auto]].
  destruct (JS.prop data "projectName") as [pn|x] eqn:Hpn;
    [|do 2 eexists; split; [reflexivity | left; auto]].
  assert (Hall : forall k, exists v, JS.prop data k = Ok v).
  { intros k. apply prop_total; intros ->; discriminate. }
  destruct (Hall "projectType") as [pt Hpt]. destruct (Hall "region") as [rg Hrg].
  destruct (Hall "price") as [pr Hpr].
  rewrite Hpt, Hrg, Hpr.
  destruct (JS.not pn) eqn:Npn; [do 2 eexists; split; [reflexivity | left; auto]|].
  destruct (JS.not pt) eqn:Npt; [do 2 eexists; split; [reflexivity | left; auto]|].
  destruct (JS.not rg) eqn:Nrg; [do 2 eexists; split; [reflexivity | left; auto]|].
  destruct (JS.not pr) eqn:Npr; [do 2 eexists; split; [reflexivity | left; auto]|].
  destruct (fault w GetActiveSpreadsheet) eqn:F1;
    [do 2 eexists; split; [reflexivity | left; auto]|].
  destruct (fault w GetSheetByName) eqn:F2;
    [do 2 eexists; split; [reflexivity | left; auto]|].
  destruct (sheets w !! "graph") as [s|] eqn:Hs;
    [|do 2 eexists; split; [reflexivity | left; auto]].
  destruct (fault w GetLastRow) eqn:F3;
    [do 2 eexists; split; [reflexivity | left; auto]|].
  rewrite Hs.
  destruct (fault w AppendRow) eqn:F4;
    [do 2 eexists; split; [reflexivity | left; auto]|].
  rewrite Hs.
  do 2 eexists. split; [reflexivity|]. right.
  exists p, data, s. split; [reflexivity|]. split; [assumption|].
  assert (Hv : valid data).
  { unfold valid, given. rewrite (field_ok _ _ _ Hpn), (field_ok _ _ _ Hpt),
      (field_ok _ _ _ Hrg), (field_ok _ _ _ Hpr).
    unfold JS.not in *. repeat split; now apply negb_false_iff. }
  split; [exact Hv|]. split; [reflexivity|]. split; [reflexivity|].
  unfold with_graph, rowData.
  now rewrite (field_ok _ _ _ Hpn), (field_ok _ _ _ Hpt), (field_ok _ _ _ Hrg),
    (field_ok _ _ _ Hpr).
Qed.

(** X2: whatever the request and whatever the host does, [doPost] answers;
    it leaves the clock and every other sheet alone, and either answers an
    error and changes nothing, or appends one row of seven cells after the
    rows of the sheet, which stay as they were, and answers the success with
    the number of rows that there were. *)
Theorem doPost_frame e w :
  exists out w',
    doPost e w = (Ok out, w') /\
    now w' = now w /\
    (forall name, name <> "graph" -> sheets w' !! name = sheets w !! name) /\
    (is_error out /\ w' = w \/
     exists s (r : row),
       graph w = Some s /\ graph w' = Some (s ++ [r]) /\ length r = 7%nat /\
       out = created (length s)).
Proof.
  destruct (doPost_cases e w) as (out & w' & Hrun & [[Herr ->] | Hok]).
  - exists out, w. repeat split; auto.
  - destruct Hok as (p & data & s & _ & _ & _ & Hg & -> & ->).
    do 2 eexists. split; [exact Hrun|]. split; [reflexivity|].
    split.
    + intros name Hne. unfold with_graph. simpl. now apply lookup_insert_ne.
    + right. exists s, (rowData data (length s) (now w)).
      split; [assumption|]. split; [apply graph_with_graph|]. split; reflexivity.
Qed.

(** X7: a body that is JSON but not an object is refused and nothing is
    stored: on [null] the reading of [projectName] throws, and the TypeError
    is answered as an error; a number, a string, a boolean and an array miss
    the required fields. *)
Theorem doPost_refuses_non_objects e w text data :
  postData e = Some {| contents := text |} -> JSON_parse text = Ok data ->
  (forall fields, data <> VObj fields) ->
  exists msg,
    doPost e w = (Ok (createErrorResponse msg), w) /\
    match JS.prop data "projectName" with
    | Throw x => msg = "Failed to add data: " +:+ message x
    | Ok _ => msg = "Missing required fields"
    end.
Proof.
  intros He Hp Hobj. run_handler. rewrite He. cbn [contents]. rewrite Hp.
  destruct data; try (eexists; split; reflexivity).
  now destruct (Hobj fields).
Qed.

End CreateAnyHost.

Section SelfTest.
Context `{Engine}.

(** X23: [testScript] returns [true] on every world, since [doGet] catches
    every exception; the world is as it was. *)
Theorem testScript_always_true w : testScript w = (Ok true, w).
Proof.
  unfold testScript. destruct (doGet_total w) as (out & Hrun & _).
  apply try_catch_ok. now rewrite (bind_ok _ _ _ _ _ Hrun).
Qed.

End SelfTest.

(** ** Generated identifiers and the cells of a row *)

Section Identifiers.
Import Reference.

Lemma value_acc_nat d : forall acc,
  fold_left (fun a x => 10 * a + x) (uint_digits d) (Z.of_nat acc) =
  Z.of_nat (Nat.of_uint_acc d acc).
Proof.
  induction d; intros acc; cbn [uint_digits fold_left Nat.of_uint_acc];
    [reflexivity | rewrite <- IHd; f_equal; rewrite Nat.tail_mul_spec; lia ..].
Qed.

Lemma value_nat d : Num.digits_value (uint_digits d) = Z.of_nat (Nat.of_uint d).
Proof. apply (value_acc_nat d 0). Qed.

Lemma to_uint_nonnil n : Nat.to_uint n <> Decimal.Nil.
Proof.
  rewrite <- (DecimalNat.Unsigned.of_to n) at 1.
  rewrite DecimalNat.Unsigned.to_of. apply unorm_nonnil.
Qed.

Lemma of_nat_digits n : Str.of_nat n = NilEmpty.string_of_uint (Nat.to_uint n).
Proof.
  unfold Str.of_nat. pose proof (to_uint_nonnil n) as Hn.
  destruct (Nat.to_uint n); [contradiction | reflexivity ..].
Qed.

Lemma span_digits_zeros k s :
  Num.span_digits (Str.repeat "0" k +:+ s) =
  (replicate k 0 ++ (Num.span_digits s).1, (Num.span_digits s).2).
Proof.
  induction k as [|k IH].
  - change (Str.repeat "0" 0 +:+ s) with s. now destruct (Num.span_digits s).
  - change (Str.repeat "0" (S k) +:+ s) with (String "0" (Str.repeat "0" k +:+ s)).
    erewrite span_digits_cons by reflexivity. now rewrite IH.
Qed.

Lemma value_zeros k ds : Num.digits_value (replicate k 0 ++ ds) = Num.digits_value ds.
Proof. unfold Num.digits_value. induction k as [|k IH]; [reflexivity | exact IH]. Qed.

Lemma length_append s t : String.length (s +:+ t) = (String.length s + String.length t)%nat.
Proof. induction s as [|c s IH]; [reflexivity|]. simpl. now rewrite IH. Qed.

Lemma length_repeat c k : String.length (Str.repeat c k) = k.
Proof. induction k as [|k IH]; [reflexivity|]. simpl. now rewrite IH. Qed.

(** The digits of a padded number read back as the number. *)
Lemma padStart_reads_back width n :
  numeral_value (Str.padStart width "0" (Str.of_nat n)) = Z.of_nat n /\
  after_digits (Str.padStart width "0" (Str.of_nat n)) = "" /\
  (width <= String.length (Str.padStart width "0" (Str.of_nat n)))%nat.
Proof.
  assert (Hspan : Num.span_digits (Str.padStart width "0" (Str.of_nat n)) =
                  (replicate (width - String.length (Str.of_nat n)) 0
                     ++ uint_digits (Nat.to_uint n), "")).
  { unfold Str.padStart. rewrite span_digits_zeros. rewrite of_nat_digits at 2 3.
    rewrite <- (append_empty (NilEmpty.string_of_uint (Nat.to_uint n))).
    rewrite span_digits_uint. cbn [Num.span_digits fst snd]. now rewrite app_nil_r. }
  unfold numeral_value, after_digits. rewrite Hspan. cbn [fst snd].
  rewrite value_zeros, value_nat, DecimalNat.Unsigned.of_to.
  repeat split. unfold Str.padStart. rewrite length_append, length_repeat. lia.
Qed.

Lemma padStart_inj width n m :
  Str.padStart width "0" (Str.of_nat n) = Str.padStart width "0" (Str.of_nat m) -> n = m.
Proof.
  intros Heq. apply Nat2Z.inj.
  rewrite <- (proj1 (padStart_reads_back width n)), <- (proj1 (padStart_reads_back width m)).
  now rewrite Heq.
Qed.

End Identifiers.

Section Cells.
Context `{Engine}.

(** X9: for a row without identifiers the record gets ORD-NNN and PRJ-NNN,
    where NNN is made of digits that read back as the position of the row,
    counted from 1, and has three characters at least (it is not cut from
    1000 on); so two positions never get the same generated identifier. *)
Theorem generated_identifiers clock (r : row) index :
  JS.truthy (JS.index r 0) = false -> JS.truthy (JS.index r 1) = false ->
  exists nnn,
    JS.prop (rowToRecord clock r index) "orderId" = Ok (VStr ("ORD-" +:+ nnn)) /\
    JS.prop (rowToRecord clock r index) "projectId" = Ok (VStr ("PRJ-" +:+ nnn)) /\
    numeral_value nnn = Z.of_nat index + 1 /\ after_digits nnn = "" /\
    (3 <= String.length nnn)%nat /\
    forall clock' (r' : row) index',
      JS.truthy (JS.index r' 0) = false ->
      JS.prop (rowToRecord clock' r' index') "orderId" =
      JS.prop (rowToRecord clock r index) "orderId" ->
      index' = index.
Proof.
  intros H0 H1. exists (Str.padStart 3 "0" (Str.of_nat (index + 1))).
  rewrite record_orderId, record_projectId. unfold JS.or. rewrite H0, H1.
  destruct (padStart_reads_back 3 (index + 1)) as (Hv & Ha & Hl).
  split; [reflexivity|]. split; [reflexivity|].
  split; [rewrite Hv; lia|]. split; [exact Ha|]. split; [exact Hl|].
  intros clock' r' index' H0' Heq.
  rewrite record_orderId in Heq. unfold JS.or in Heq. rewrite H0' in Heq.
  injection Heq as Heq. apply padStart_inj in Heq. lia.
Qed.

(** X10: the record of a row depends on its first seven cells only, and a
    cell that the row does not have counts as a blank one. *)
Theorem rowToRecord_seven_cells clock (r : row) index :
  rowToRecord clock r index =
  rowToRecord clock (take 7 (r ++ replicate 7 (VStr ""))) index.
Proof.
  destruct r as [|c0 [|c1 [|c2 [|c3 [|c4 [|c5 [|c6 rest]]]]]]]; reflexivity.
Qed.

End Cells.

(** ** The date part *)

Section DatePart.
Import Reference.

(** The month and the day of every day number. *)
Lemma civil_range days :
  let '(_, m, d) := Date.civil days in 1 <= m <= 12 /\ 1 <= d <= 31.
Proof.
  unfold Date.civil.
  set (z := days + 719468). set (era := z / 146097). set (doe := z - era * 146097).
  assert (Hdoe : 0 <= doe < 146097) by (unfold doe, era; Z.div_mod_to_equations; lia).
  clearbody doe. clear z era.
  set (yoe := (doe - doe / 1460 + doe / 36524 - doe / 146096) / 365).
  set (doy := doe - (365 * yoe + yoe / 4 - yoe / 100)).
  assert (Hdoy : 0 <= doy <= 365) by (unfold doy, yoe; Z.div_mod_to_equations; lia).
  clearbody doy.
  set (mp := (5 * doy + 2) / 153).
  assert (Hmp : 0 <= mp <= 11) by (unfold mp; Z.div_mod_to_equations; lia).
  split.
  - destruct (Z.ltb_spec mp 10); lia.
  - unfold mp. Z.div_mod_to_equations. lia.
Qed.

(** A text without the character [c] stands before the first [c]. *)
Lemma before_append c s t :
  Str.before c s = s -> Str.before c (s +:+ t) = s +:+ Str.before c t.
Proof.
  induction s as [|a s IH]; intros Hs; [reflexivity|].
  cbn [Str.before] in *. change (String a s +:+ t) with (String a (s +:+ t)).
  cbn [Str.before]. destruct (Ascii.eqb a c); [discriminate|].
  injection Hs as Hs. change (String a s +:+ Str.before c t) with (String a (s +:+ Str.before c t)).
  now rewrite (IH Hs).
Qed.

Lemma before_uint d : Str.before "T" (NilEmpty.string_of_uint d) = NilEmpty.string_of_uint d.
Proof.
  induction d; cbn [NilEmpty.string_of_uint Str.before]; [reflexivity|..];
    match goal with
    | |- context [Ascii.eqb ?a ?b] => change (Ascii.eqb a b) with false
    end; cbv iota; now rewrite IHd.
Qed.

Lemma before_repeat k : Str.before "T" (Str.repeat "0" k) = Str.repeat "0" k.
Proof.
  induction k as [|k IH]; [reflexivity|].
  change (Str.repeat "0" (S k)) with (String "0" (Str.repeat "0" k)).
  cbn [Str.before]. change (Ascii.eqb "0" "T") with false. cbv iota. now rewrite IH.
Qed.

Lemma before_pad width n : Str.before "T" (Date.pad width n) = Date.pad width n.
Proof.
  unfold Date.pad, Str.padStart.
  rewrite before_append by apply before_repeat.
  now rewrite of_nat_digits, before_uint.
Qed.

Lemma before_iso_year y : Str.before "T" (Date.iso_year y) = Date.iso_year y.
Proof.
  unfold Date.iso_year. destruct ((0 <=? y) && (y <=? 9999)); [apply before_pad|].
  rewrite before_append by (now destruct (y <? 0)). now rewrite before_pad.
Qed.

(** The date part of the ISO text. *)
Lemma today_text t :
  today t =
  let '(y, m, d) := Date.civil (t / 86400000) in
  Date.iso_year y +:+ "-" +:+ Date.pad 2 m +:+ "-" +:+ Date.pad 2 d.
Proof.
  unfold today, Date.iso. destruct (Date.civil (t / 86400000)) as [[y m] d].
  rewrite before_append by apply before_iso_year.
  rewrite (before_append _ "-") by reflexivity.
  rewrite before_append by apply before_pad.
  rewrite (before_append _ "-") by reflexivity.
  rewrite before_append by apply before_pad.
  change (Str.before "T" ("T" +:+ ?r)) with EmptyString.
  now rewrite append_empty.
Qed.

Lemma length_pad width n :
  (width <= String.length (Date.pad width n))%nat.
Proof. apply padStart_reads_back. Qed.

Lemma length_uint d :
  String.length (NilEmpty.string_of_uint d) = length (uint_digits d).
Proof. induction d; cbn [NilEmpty.string_of_uint String.length uint_digits length]; congruence. Qed.

Lemma uint_digits_nonneg d : Forall (fun x => 0 <= x) (uint_digits d).
Proof. induction d; cbn [uint_digits]; constructor; (lia || assumption). Qed.

(** Digits after a number [acc] denote [acc * 10^n] at least. *)
Lemma value_at_least ds : forall acc,
  Forall (fun x => 0 <= x) ds -> 0 <= acc ->
  acc * 10 ^ Z.of_nat (length ds) <= fold_left (fun a x => 10 * a + x) ds acc.
Proof.
  induction ds as [|x ds IH]; intros acc Hds Hacc; [simpl; lia|].
  inversion Hds as [|? ? Hx Hrest]; subst. cbn [fold_left length].
  specialize (IH (10 * acc + x) Hrest ltac:(lia)).
  rewrite Nat2Z.inj_succ, Z.pow_succ_r by lia.
  assert (0 <= 10 ^ Z.of_nat (length ds)) by (apply Z.pow_nonneg; lia). nia.
Qed.

Lemma to_uint_normal n : Decimal.unorm (Nat.to_uint n) = Nat.to_uint n.
Proof.
  rewrite <- (DecimalNat.Unsigned.of_to n) at 2. now rewrite DecimalNat.Unsigned.to_of.
Qed.

(** A number below [10^k] is written with [k] digits at most. *)
Lemma length_of_nat n k :
  Z.of_nat n < 10 ^ Z.of_nat k -> (1 <= k)%nat -> (String.length (Str.of_nat n) <= k)%nat.
Proof.
  intros Hn Hk. rewrite of_nat_digits, length_uint.
  pose proof (value_nat (Nat.to_uint n)) as Hv.
  rewrite DecimalNat.Unsigned.of_to in Hv.
  pose proof (to_uint_normal n) as Hnorm. pose proof (to_uint_nonnil n) as Hnil.
  pose proof (uint_digits_nonneg (Nat.to_uint n)) as Hpos.
  unfold Num.digits_value in Hv.
  destruct (Nat.to_uint n) as [|d|d|d|d|d|d|d|d|d|d]; [contradiction|..].
  1:{ unfold Decimal.unorm in Hnorm. rewrite nzhead_D0 in Hnorm.
      destruct (Decimal.nzhead d) eqn:Hz;
        try (now destruct (nzhead_nonzero d d); rewrite Hz, Hnorm).
      injection Hnorm as Hd. subst d. exact Hk. }
  all: cbn [uint_digits fold_left length] in *; inversion Hpos as [|? ? _ Hrest]; subst;
    match type of Hv with
    | fold_left _ _ ?acc = _ =>
        pose proof (value_at_least (uint_digits d) acc Hrest ltac:(lia)) as Hlow
    end;
    assert (Hlt : 10 ^ Z.of_nat (length (uint_digits d)) < 10 ^ Z.of_nat k)
      by (assert (0 <= 10 ^ Z.of_nat (length (uint_digits d))) by (apply Z.pow_nonneg; lia); nia);
    apply Z.pow_lt_mono_r_iff in Hlt; lia.
Qed.

Lemma length_padStart width s :
  String.length (Str.padStart width "0" s) = (width `max` String.length s)%nat.
Proof. unfold Str.padStart. rewrite length_append, length_repeat. lia. Qed.

(** A year has the days that lie between its first day and the first day
    of the next year. *)
Lemma DayFromYear_next y :
  Date.DayFromYear (y + 1) = Date.DayFromYear y + Date.DaysInYear y.
Proof.
  unfold Date.DayFromYear, Date.DaysInYear.
  destruct (Z.eqb_spec (y mod 4) 0), (Z.eqb_spec (y mod 100) 0), (Z.eqb_spec (y mod 400) 0);
    cbn [negb]; Z.div_mod_to_equations; lia.
Qed.

(** The year of a day of a period of 400 years that begins on a first of
    March, and the day of that year, which has a last day more when the
    February that ends it has 29 days. *)
Lemma year_of_era doe :
  0 <= doe < 146097 ->
  let yoe := (doe - doe / 1460 + doe / 36524 - doe / 146096) / 365 in
  let doy := doe - (365 * yoe + yoe / 4 - yoe / 100) in
  0 <= yoe <= 399 /\ 0 <= doy /\
  doy < 365 + (if ((yoe + 1) mod 4 =? 0) && (negb ((yoe + 1) mod 100 =? 0) || (yoe + 1 =? 400))
               then 1 else 0).
Proof.
  intros Hdoe yoe doy.
  assert (Hy : 0 <= yoe <= 399) by (unfold yoe; Z.div_mod_to_equations; lia).
  split; [exact Hy|].
  split; [unfold doy, yoe; Z.div_mod_to_equations; lia|].
  destruct (Z.eqb_spec ((yoe + 1) mod 4) 0), (Z.eqb_spec ((yoe + 1) mod 100) 0),
    (Z.eqb_spec (yoe + 1) 400); cbn [negb andb orb];
    unfold doy, yoe in *; Z.div_mod_to_equations; lia.
Qed.

(** The year, the month and the day of [Date.civil] are those that the
    language defines: the day lies in the year, the day within the year lies
    in the month, and the day of the month counts from the first day of the
    month. *)
Lemma civil_day days :
  let '(y, m, d) := Date.civil days in
  Date.DayFromYear y <= days < Date.DayFromYear (y + 1) /\
  Date.month_start y m <= days - Date.DayFromYear y < Date.month_start y (m + 1) /\
  d = days - Date.DayFromYear y - Date.month_start y m + 1.
Proof.
  unfold Date.civil.
  set (z := days + 719468). set (era := z / 146097). set (doe := z - era * 146097).
  assert (Hdoe : 0 <= doe < 146097) by (unfold doe, era; Z.div_mod_to_equations; lia).
  assert (Hdays : days = era * 146097 + doe - 719468) by (unfold doe, z; lia).
  destruct (year_of_era doe Hdoe) as (Hyoe & Hdoy0 & Hdoy).
  clearbody doe era. clear z.
  set (yoe := (doe - doe / 1460 + doe / 36524 - doe / 146096) / 365) in *.
  set (doy := doe - (365 * yoe + yoe / 4 - yoe / 100)) in *.
  assert (Hdoe' : doe = doy + (365 * yoe + yoe / 4 - yoe / 100)) by (unfold doy; lia).
  clearbody doy. clearbody yoe. subst doe. clear Hdoe.
  set (leap := (if ((yoe + 1) mod 4 =? 0) && (negb ((yoe + 1) mod 100 =? 0) || (yoe + 1 =? 400))
                then 1 else 0)) in *.
  assert (Hleap : (leap = 1 /\ (yoe + 1) mod 4 = 0 /\
                   ((yoe + 1) mod 100 <> 0 \/ yoe + 1 = 400)) \/
                  (leap = 0 /\ ((yoe + 1) mod 4 <> 0 \/
                                ((yoe + 1) mod 100 = 0 /\ yoe + 1 <> 400)))).
  { unfold leap. destruct (Z.eqb_spec ((yoe + 1) mod 4) 0), (Z.eqb_spec ((yoe + 1) mod 100) 0),
      (Z.eqb_spec (yoe + 1) 400); cbn [negb andb orb]; lia. }
  clearbody leap.
  set (mp := (5 * doy + 2) / 153).
  assert (Hmpdef : 153 * mp <= 5 * doy + 2 < 153 * mp + 153)
    by (unfold mp; Z.div_mod_to_equations; lia).
  set (q := (153 * mp + 2) / 5).
  assert (Hq : 5 * q <= 153 * mp + 2 < 5 * q + 5) by (unfold q; Z.div_mod_to_equations; lia).
  clearbody q. clearbody mp.
  assert (Hmp : 0 <= mp <= 11) by lia.
  set (m := if mp <? 10 then mp + 3 else mp - 9).
  assert (Hm : (mp < 10 /\ m = mp + 3) \/ (10 <= mp /\ m = mp - 9))
    by (unfold m; destruct (Z.ltb_spec mp 10); lia).
  clearbody m.
  set (c := if m <=? 2 then 1 else 0).
  assert (Hc : (m <= 2 /\ c = 1) \/ (2 < m /\ c = 0))
    by (unfold c; destruct (Z.leb_spec m 2); lia).
  clearbody c.
  set (y := yoe + era * 400 + c).
  assert (HL : exists L, Date.InLeapYear y = L /\
             ((L = 1 /\ y mod 4 = 0 /\ (y mod 100 <> 0 \/ y mod 400 = 0)) \/
              (L = 0 /\ (y mod 4 <> 0 \/ (y mod 100 = 0 /\ y mod 400 <> 0))))).
  { eexists. split; [reflexivity|]. unfold Date.InLeapYear, Date.DaysInYear.
    destruct (Z.eqb_spec (y mod 4) 0), (Z.eqb_spec (y mod 100) 0),
      (Z.eqb_spec (y mod 400) 0); cbn [negb]; lia. }
  destruct HL as (L & HL & HLs).
  assert (Hstart : forall k,
            Date.month_start y k =
            match k with
            | 1 => 0 | 2 => 31 | 3 => 59 + L | 4 => 90 + L | 5 => 120 + L
            | 6 => 151 + L | 7 => 181 + L | 8 => 212 + L | 9 => 243 + L
            | 10 => 273 + L | 11 => 304 + L | 12 => 334 + L | _ => 365 + L
            end)
    by (intros k; unfold Date.month_start; now rewrite HL).
  set (m1 := m + 1). assert (Hm1 : m1 = m + 1) by reflexivity. clearbody m1.
  rewrite !Hstart.
  set (D0 := Date.DayFromYear y). set (D1 := Date.DayFromYear (y + 1)).
  assert (HD0 : D0 = 365 * (y - 1970) + (y - 1969) / 4 - (y - 1901) / 100 + (y - 1601) / 400)
    by reflexivity.
  assert (HD1 : D1 = D0 + 365 + L).
  { unfold D1, D0. rewrite DayFromYear_next. unfold Date.InLeapYear in HL. lia. }
  clearbody D0 D1. clear Hstart HL.
  assert (Hcases : m = 1 \/ m = 2 \/ m = 3 \/ m = 4 \/ m = 5 \/ m = 6 \/
                   m = 7 \/ m = 8 \/ m = 9 \/ m = 10 \/ m = 11 \/ m = 12) by lia.
  assert (Hy : y = yoe + era * 400 + c) by reflexivity. clearbody y.
  destruct Hcases as [->|[->|[->|[->|[->|[->|[->|[->|[->|[->|[->| ->]]]]]]]]]]];
    match type of Hm1 with
    | _ = ?a + 1 => let b := eval compute in (a + 1) in
                    assert (Hb : m1 = b) by exact Hm1; clear Hm1; subst m1
    end;
    cbv beta iota; repeat apply conj; try lia.
  all: Z.div_mod_to_equations; lia.
Qed.

(** A number below [10 ^ width], padded to [width] digits, has [width]
    digits, which read back as the number. *)
Lemma pad_reads_back width n :
  0 <= n < 10 ^ Z.of_nat width -> (1 <= width)%nat ->
  String.length (Date.pad width n) = width /\
  numeral_value (Date.pad width n) = n /\ after_digits (Date.pad width n) = "".
Proof.
  intros Hn Hw. unfold Date.pad.
  destruct (padStart_reads_back width (Z.to_nat n)) as (Hv & Ha & _).
  split; [|split; [rewrite Hv; lia | exact Ha]].
  rewrite length_padStart.
  pose proof (length_of_nat (Z.to_nat n) width ltac:(lia) Hw). lia.
Qed.

(** X11: the date part that the script keeps of an ISO text
    ([toISOString().split('T')[0]]) is the year, the month and the day of the
    UTC day of the time value, the month from 01 to 12 and the day from 01
    to 31; it has ten characters for the years 0 to 9999: four digits, two
    digits and two digits that read as the year, the month and the day.
    The year, the month and the day are those of the calendar of the
    language: the day of the time value lies in the year, the day within
    the year lies in the month, and the days of the month count from 1. *)
Theorem today_is_the_calendar_date t :
  let day := t / 86400000 in
  let '(y, m, d) := Date.civil day in
  today t = Date.iso_year y +:+ "-" +:+ Date.pad 2 m +:+ "-" +:+ Date.pad 2 d /\
  1 <= m <= 12 /\ 1 <= d <= 31 /\
  (0 <= y <= 9999 -> String.length (today t) = 10%nat) /\
  Date.DayFromYear y <= day < Date.DayFromYear (y + 1) /\
  Date.month_start y m <= day - Date.DayFromYear y < Date.month_start y (m + 1) /\
  d = day - Date.DayFromYear y - Date.month_start y m + 1 /\
  (0 <= y <= 9999 ->
   exists year month date,
     today t = year +:+ "-" +:+ month +:+ "-" +:+ date /\
     String.length year = 4%nat /\ numeral_value year = y /\ after_digits year = "" /\
     String.length month = 2%nat /\ numeral_value month = m /\ after_digits month = "" /\
     String.length date = 2%nat /\ numeral_value date = d /\ after_digits date = "").
Proof.
  intros day. pose proof (today_text t) as Ht. pose proof (civil_range day) as Hr.
  pose proof (civil_day day) as Hd. fold day in Ht.
  destruct (Date.civil day) as [[y m] d].
  destruct Hd as (Hy & Hm & Hdm).
  assert (Hparts : 0 <= y <= 9999 ->
            exists year month date,
              today t = year +:+ "-" +:+ month +:+ "-" +:+ date /\
              String.length year = 4%nat /\ numeral_value year = y /\ after_digits year = "" /\
              String.length month = 2%nat /\ numeral_value month = m /\
              after_digits month = "" /\
              String.length date = 2%nat /\ numeral_value date = d /\ after_digits date = "").
  { intros H9. exists (Date.pad 4 y), (Date.pad 2 m), (Date.pad 2 d).
    destruct (pad_reads_back 4 y ltac:(change (10 ^ Z.of_nat 4) with 10000; lia) ltac:(lia))
      as (? & ? & ?).
    destruct (pad_reads_back 2 m ltac:(change (10 ^ Z.of_nat 2) with 100; lia) ltac:(lia))
      as (? & ? & ?).
    destruct (pad_reads_back 2 d ltac:(change (10 ^ Z.of_nat 2) with 100; lia) ltac:(lia))
      as (? & ? & ?).
    rewrite Ht. unfold Date.iso_year.
    replace ((0 <=? y) && (y <=? 9999)) with true
      by (symmetry; apply andb_true_iff; split; apply Z.leb_le; lia).
    repeat split; assumption. }
  split; [exact Ht|]. split; [tauto|]. split; [tauto|].
  split.
  { intros H9. destruct (Hparts H9) as (year & month & date & -> & Hl1 & _ & _ & Hl2 & _ & _ & Hl3 & _).
    rewrite !length_append, Hl1, Hl2, Hl3. reflexivity. }
  repeat split; tauto.
Qed.

Lemma today_nonempty t : JS.truthy (VStr (today t)) = true.
Proof.
  assert (Hl : (4 <= String.length (today t))%nat).
  { rewrite today_text. destruct (Date.civil (t / 86400000)) as [[y m] d].
    rewrite length_append. unfold Date.iso_year.
    destruct ((0 <=? y) && (y <=? 9999)).
    - pose proof (length_pad 4 y). lia.
    - rewrite length_append. pose proof (length_pad 6 (Z.abs y)). lia. }
  destruct (today t); [simpl in Hl; lia | reflexivity].
Qed.

End DatePart.

Section RecordDate.
Context `{Engine}.

(** X13: the date of a record is always the date part of an ISO text: that
    of the date of the cell when the cell is truthy and a date, that of the
    clock otherwise. *)
Theorem record_date_is_a_date clock (r : row) index :
  let cell := JS.index r 6 in
  exists t,
    JS.prop (rowToRecord clock r index) "date" = Ok (VStr (today t)) /\
    t = match Date.construct cell with
        | Some t' => if JS.truthy cell then t' else clock
        | None => clock
        end.
Proof.
  intros cell. eexists. split; [|reflexivity].
  rewrite record_date. fold cell.
  destruct (Date.construct cell) as [t'|] eqn:Hd.
  - destruct (JS.truthy cell) eqn:Ht.
    + rewrite (formatDate_valid cell t' Ht Hd). unfold JS.or. now rewrite today_nonempty.
    + unfold formatDate, JS.not. now rewrite Ht.
  - now rewrite (formatDate_invalid cell Hd).
Qed.

(** X12: [formatDate] returns [null] exactly for a falsy value (so for the
    number 0, though it is the time value of a date) and for a value that is
    no date, the RangeError of [toISOString] being caught; otherwise it
    returns the date part of the UTC date, which is not empty. *)
Theorem formatDate_null_or_date v :
  (formatDate v = VNull <-> JS.truthy v = false \/ Date.construct v = None) /\
  (forall t, JS.truthy v = true -> Date.construct v = Some t ->
             formatDate v = VStr (today t) /\ JS.truthy (formatDate v) = true) /\
  formatDate (VNum 0) = VNull /\ formatDate (VStr "") = VNull /\
  formatDate (VDate None) = VNull /\ formatDate VUndefined = VNull.
Proof.
  split; [|split; [|repeat split]].
  - destruct (Date.construct v) as [t|] eqn:Hd.
    + destruct (JS.truthy v) eqn:Ht.
      * rewrite (formatDate_valid v t Ht Hd). split; [discriminate|].
        intros [? | ?]; discriminate.
      * unfold formatDate, JS.not. rewrite Ht. split; auto.
    + rewrite (formatDate_invalid v Hd). split; auto.
  - intros t Ht Hd. rewrite (formatDate_valid v t Ht Hd).
    split; [reflexivity | apply today_nonempty].
Qed.

End RecordDate.

(** ** The helper functions *)

Section Helpers.
Context `{Engine}.

Lemma filter_all (P : row -> Prop) `{forall r, Decision (P r)} (l : list row) :
  (forall r, P r) -> filter P l = l.
Proof.
  intros Hall. induction l as [|r l IH]; [reflexivity|].
  rewrite filter_cons_True by apply Hall. now rewrite IH.
Qed.

(** X14: for every criteria other than [null] and [undefined],
    [getDataByFilter] returns, in the order of the sheet, exactly the data
    rows whose project type and region equal the ones given and, when both
    dates are given, whose date is neither before the start nor after the
    end, an invalid date being neither: a row whose date cell is no date,
    and every row when neither bound is a date, passes the range. *)
Theorem getDataByFilter_complete criteria w (s : sheet) :
  quiet w -> graph w = Some s -> criteria <> VNull -> criteria <> VUndefined ->
  getDataByFilter criteria w = (Ok (filter (matches criteria) (data_rows s)), w) /\
  forall r : row,
    r ∈ data_rows s ->
    (given criteria "projectType" ->
     JS.strict_eq (JS.index r 3) (field criteria "projectType") = true) ->
    (given criteria "region" ->
     JS.strict_eq (JS.index r 4) (field criteria "region") = true) ->
    Date.construct (JS.index r 6) = None \/
    Date.construct (field criteria "startDate") = None /\
    Date.construct (field criteria "endDate") = None ->
    r ∈ filter (matches criteria) (data_rows s).
Proof.
  intros Hq Hg Hn Hu. split; [now apply getDataByFilter_quiet|].
  intros r Hr Ht Hreg Hd. apply list_elem_of_filter. split; [|assumption].
  split; [assumption|]. split; [assumption|]. intros _ _.
  destruct Hd as [-> | [-> ->]]; [split; exact I|].
  unfold not_before, not_after. now destruct (Date.construct (JS.index r 6)).
Qed.

(** X15: criteria that give no project type, no region and not both dates
    (the empty object, a start date alone) return all the data rows, in the
    order of the sheet. *)
Theorem getDataByFilter_without_criteria criteria w (s : sheet) :
  quiet w -> graph w = Some s -> criteria <> VNull -> criteria <> VUndefined ->
  JS.truthy (field criteria "projectType") = false ->
  JS.truthy (field criteria "region") = false ->
  JS.truthy (field criteria "startDate") && JS.truthy (field criteria "endDate") = false ->
  getDataByFilter criteria w = (Ok (data_rows s), w).
Proof.
  intros Hq Hg Hn Hu Ht Hr Hd. rewrite (getDataByFilter_quiet criteria w s Hq Hg Hn Hu).
  rewrite filter_all; [reflexivity|].
  intros r. unfold matches, given. rewrite Ht, Hr.
  split; [discriminate|]. split; [discriminate|]. intros Hs He.
  rewrite Hs, He in Hd. discriminate.
Qed.

(** X16: with [null] or [undefined] for criteria, [getDataByFilter] throws
    the TypeError of reading [projectType] as soon as the sheet has a data
    row, and returns the empty list when it has none. *)
Theorem getDataByFilter_null_criteria criteria w (s : sheet) :
  quiet w -> graph w = Some s -> criteria = VNull \/ criteria = VUndefined ->
  exists x,
    JS.prop criteria "projectType" = Throw x /\
    getDataByFilter criteria w =
    match data_rows s with
    | [] => (Ok [], w)
    | _ :: _ => (Throw x, w)
    end.
Proof.
  intros Hq Hg Hc.
  assert (Hx : exists x, JS.prop criteria "projectType" = Throw x)
    by (destruct Hc as [-> | ->]; eexists; reflexivity).
  destruct Hx as [x Hx]. exists x. split; [exact Hx|].
  unfold getDataByFilter.
  rewrite (bind_ok _ _ _ _ _ (getActiveSpreadsheet_quiet w Hq)).
  rewrite (bind_ok _ _ _ _ _ (getSheetByName_quiet w Hq _ _)).
  unfold graph in Hg. rewrite Hg.
  rewrite (bind_ok _ _ _ _ _ (getValues_quiet w Hq _ _ Hg)).
  replace (drop 1 match s with [] => [[VStr ""]] | _ :: _ => s end)
    with (data_rows s) by (now destruct s).
  destruct (data_rows s) as [|r rows]; [reflexivity|].
  cbn [filterM]. unfold keepRow, differs.
  apply bind_throw. apply bind_throw. apply bind_throw.
  unfold lift. now rewrite Hx.
Qed.

Lemma keepRow_pure criteria (r : row) w : (keepRow criteria r w).2 = w.
Proof.
  unfold keepRow, differs, has_range, lift, bind, ret.
  repeat match goal with
         | |- context [match JS.prop ?c ?k with _ => _ end] => destruct (JS.prop c k)
         | |- context [if ?b then _ else _] => destruct b
         end; reflexivity.
Qed.

Lemma filterM_pure criteria (rows : list row) w : (filterM (keepRow criteria) rows w).2 = w.
Proof.
  induction rows as [|r rows IH]; [reflexivity|].
  cbn [filterM]. unfold bind at 1.
  pose proof (keepRow_pure criteria r w) as Hk.
  destruct (keepRow criteria r w) as [[k|x] w1]; simpl in Hk; subst w1; [|reflexivity].
  unfold bind. destruct (filterM (keepRow criteria) rows w) as [[l|x] w1]; simpl in IH; subst w1;
    reflexivity.
Qed.

(** X17: [getDataByFilter] and [getStatistics] never change the world,
    whether they return or throw. *)
Theorem helpers_are_read_only criteria w :
  (getDataByFilter criteria w).2 = w /\ (getStatistics w).2 = w.
Proof.
  split.
  - unfold getDataByFilter, Host.getActiveSpreadsheet, Host.getSheetByName, Host.getValues,
      Host.called, Host.read.
    unfold bind, ret.
    destruct (fault w GetActiveSpreadsheet); [reflexivity|].
    destruct (fault w GetSheetByName); [reflexivity|].
    destruct (sheets w !! "graph") as [s|] eqn:Hs; [|reflexivity].
    destruct (fault w GetDataRange); [reflexivity|].
    destruct (fault w GetValues); [reflexivity|].
    try rewrite Hs. apply filterM_pure.
  - unfold getStatistics, Host.getActiveSpreadsheet, Host.getSheetByName, Host.getValues,
      Host.called, Host.read, bind, ret.
    destruct (fault w GetActiveSpreadsheet); [reflexivity|].
    destruct (fault w GetSheetByName); [reflexivity|].
    destruct (sheets w !! "graph") as [s|] eqn:Hs; [|reflexivity].
    destruct (fault w GetDataRange); [reflexivity|].
    destruct (fault w GetValues); [reflexivity|].
    try rewrite Hs. reflexivity.
Qed.

(** X18: [getDataByFilter] and [getStatistics] have no handler: when a call
    of the host that they make throws, they throw, and the world is as it
    was. *)
Theorem helpers_propagate_host_errors criteria w :
  (exists c x, In c lookup_calls /\ fault w c = Some x) \/
  (graph w <> None /\ exists c x, In c read_calls /\ fault w c = Some x) ->
  (exists x, getDataByFilter criteria w = (Throw x, w)) /\
  (exists x, getStatistics w = (Throw x, w)).
Proof.
  intros Hf. unfold graph in Hf.
  unfold getDataByFilter, getStatistics, Host.getActiveSpreadsheet, Host.getSheetByName,
    Host.getValues, Host.called, Host.read.
  unfold bind, ret.
  destruct (fault w GetActiveSpreadsheet) eqn:F1; [split; eexists; reflexivity|].
  destruct (fault w GetSheetByName) eqn:F2; [split; eexists; reflexivity|].
  destruct Hf as [(c & x & Hc & Hx) | (Hg & c & x & Hc & Hx)]; [exfalso; faulty Hc|].
  destruct (sheets w !! "graph") as [s|] eqn:Hs; [|congruence].
  destruct (fault w GetDataRange) eqn:F3; [split; eexists; reflexivity|].
  destruct (fault w GetValues) eqn:F4; [split; eexists; reflexivity|].
  exfalso; faulty Hc.
Qed.

End Helpers.

Section Counting.
Context `{Engine}.

Lemma count_total_delete counts k :
  count_total counts = (stored counts k + count_total (delete k counts))%nat.
Proof.
  unfold count_total, stored. destruct (counts !! k) as [t|] eqn:Hk.
  - rewrite (map_fold_delete_L _ _ k t counts); [reflexivity | intros; lia | assumption].
  - now rewrite delete_id.
Qed.

Lemma count_total_insert counts k t :
  count_total (<[k := t]> counts) = (count_of t + count_total (delete k counts))%nat.
Proof.
  rewrite <- insert_delete_eq. unfold count_total.
  rewrite map_fold_insert_L; [reflexivity | intros; lia | apply lookup_delete_eq].
Qed.

Lemma all_counts_at counts k : all_counts counts -> counts_at counts k.
Proof. intros Hc s Hs. now destruct (Hc k _ Hs). Qed.

(** One more row under a name that is not inherited: one more in the
    total, and the counter still holds counts only. *)
Lemma count_total_increment counts key :
  ToString key ∉ inherited -> all_counts counts ->
  count_total (increment counts key) = S (count_total counts) /\
  all_counts (increment counts key).
Proof.
  intros Hk Hc.
  assert (Hs := increment_same counts key Hk (all_counts_at _ _ Hc)).
  split.
  - rewrite (count_total_delete (increment counts key) (ToString key)).
    rewrite (count_total_delete counts (ToString key)).
    unfold stored at 1. rewrite Hs. cbn [fmap option_fmap option_map default count_of].
    assert (Hd : delete (ToString key) (increment counts key) = delete (ToString key) counts);
      [|rewrite Hd; unfold id; lia].
    apply map_eq. intros k.
    destruct (decide (ToString key = k)) as [<-|Hne].
    + now rewrite !lookup_delete_eq.
    + rewrite !lookup_delete_ne by assumption. now apply increment_other.
  - intros k t. destruct (decide (ToString key = k)) as [<-|Hne].
    + rewrite Hs. intros [= <-]. eauto.
    + rewrite increment_other by assumption. apply Hc.
Qed.

Lemma count_total_rows (cell : row -> value) rows : forall counts,
  Forall (fun r => ToString (cell r) ∉ inherited) rows -> all_counts counts ->
  count_total (foldl (fun counts row => increment counts (cell row)) counts rows) =
  (count_total counts + length rows)%nat /\
  all_counts (foldl (fun counts row => increment counts (cell row)) counts rows).
Proof.
  induction rows as [|r rows IH]; intros counts Hk Hc; [split; [simpl; lia | assumption]|].
  apply Forall_cons in Hk as [Hr Hk].
  destruct (count_total_increment counts (cell r) Hr Hc) as [Ht Ha].
  cbn [foldl length]. destruct (IH _ Hk Ha) as [IHt IHa].
  split; [rewrite IHt, Ht; lia | assumption].
Qed.

Lemma all_counts_empty : all_counts ∅.
Proof. intros k t. now rewrite lookup_empty. Qed.

(** X19: the counts of the project types add up to the number of data rows,
    and so do the counts of the regions, for names that are not inherited
    from [Object.prototype]; both counters then hold counts only. *)
Theorem getStatistics_counts_add_up w (s : sheet) :
  quiet w -> graph w = Some s ->
  Forall (fun r => (projectType_of r ∉ inherited) /\ (region_of r ∉ inherited)) (data_rows s) ->
  exists st,
    getStatistics w = (Ok st, w) /\
    count_total (projectTypeCounts st) = totalOrders st /\
    count_total (regionCounts st) = totalOrders st /\
    all_counts (projectTypeCounts st) /\ all_counts (regionCounts st).
Proof.
  intros Hq Hg Hn. eexists. split; [apply (getStatistics_quiet w s Hq Hg)|].
  cbn [projectTypeCounts regionCounts totalOrders].
  destruct (count_total_rows (fun r => JS.or (JS.index r 3) (VStr "Other")) (data_rows s) ∅)
    as [Hp Hpa]; [|apply all_counts_empty|].
  { eapply Forall_impl; [exact Hn|]. intros r [Hr _]. now rewrite name_of_or. }
  destruct (count_total_rows (fun r => JS.or (JS.index r 4) (VStr "Unknown")) (data_rows s) ∅)
    as [Hr Hra]; [|apply all_counts_empty|].
  { eapply Forall_impl; [exact Hn|]. intros r [_ Hr]. now rewrite name_of_or. }
  repeat split; assumption.
Qed.

Lemma prices_of_records (f : nat -> row -> value) (P : row -> float) rows : forall acc,
  (forall i r, price_of (f i r) = P r) ->
  foldl PrimFloat.add acc (map price_of (imap f rows)) =
  foldl (fun sum row => (sum + P row)%float) acc rows.
Proof.
  revert f. induction rows as [|r rows IH]; intros f acc Hf; [reflexivity|].
  cbn [imap map foldl]. rewrite Hf. apply IH. intros i r'. apply Hf.
Qed.

(** X20: the list and the statistics agree: [totalOrders] is the number of
    records that [doGet] lists, and [totalRevenue] is the sum of their
    prices, added from left to right. *)
Theorem list_and_statistics_agree w (s : sheet) :
  quiet w -> graph w = Some s ->
  exists st,
    doGet w = (Ok (createJsonResponse (VArr (records_of (now w) s))), w) /\
    getStatistics w = (Ok st, w) /\
    totalOrders st = length (records_of (now w) s) /\
    totalRevenue st = total (map price_of (records_of (now w) s)).
Proof.
  intros Hq Hg. eexists.
  split.
  { rewrite (doGet_quiet w Hq), Hg. unfold records_of, data_rows.
    destruct s as [|r0 [|r1 s]]; reflexivity. }
  split; [apply (getStatistics_quiet w s Hq Hg)|].
  cbn [totalOrders totalRevenue]. unfold records_of.
  split; [now rewrite length_imap|].
  unfold total. symmetry. apply prices_of_records. reflexivity.
Qed.

End Counting.

Section Listing.
Context `{Engine}.

(** X8: after a create on a sheet with a header row, the list of [doGet] is
    the list before the create followed by the record of the new row, both
    lists being read at the same clock. *)
Theorem doPost_extends_the_list e w text data header (rows : list row) :
  quiet w -> graph w = Some (header :: rows) ->
  postData e = Some {| contents := text |} -> JSON_parse text = Ok data -> valid data ->
  exists w' (newRow : row),
    doPost e w = (Ok (created (S (length rows))), w') /\
    graph w' = Some (header :: rows ++ [newRow]) /\
    forall w0 w2,
      quiet w0 -> graph w0 = graph w -> quiet w2 -> graph w2 = graph w' -> now w0 = now w2 ->
      let before := records_of (now w0) (header :: rows) in
      doGet w0 = (Ok (createJsonResponse (VArr before)), w0) /\
      doGet w2 =
      (Ok (createJsonResponse
             (VArr (before ++ [rowToRecord (now w2) newRow (length rows)]))), w2).
Proof.
  intros Hq Hg He Hp Hv. do 2 eexists.
  split; [exact (doPost_stores e w text data (header :: rows) Hq Hg He Hp Hv)|].
  split; [apply graph_with_graph|].
  intros w0 w2 Hq0 Hg0 Hq2 Hg2 Hnow before. rewrite Hg in Hg0. rewrite graph_with_graph in Hg2.
  unfold before. split.
  { rewrite (doGet_quiet w0 Hq0), Hg0. unfold records_of, data_rows.
    destruct rows; reflexivity. }
  rewrite (doGet_quiet w2 Hq2), Hg2.
  replace ((length ((header :: rows) ++ [rowData data (length (header :: rows)) (now w)]) <=? 1)%nat)
    with false by (symmetry; apply Nat.leb_gt; rewrite length_app; simpl; lia).
  unfold records_of, data_rows.
  change (drop 1 ((header :: rows) ++ ?l)) with (rows ++ l).
  change (drop 1 (header :: rows)) with rows.
  rewrite imap_app. cbn [imap]. rewrite Nat.add_0_r, Hnow. reflexivity.
Qed.

End Listing.

(** ** The bootstrap under any host *)


Section HostRuns.

(** The calls of the host on any world: what each returns or throws. *)
Lemma getActiveSpreadsheet_run w :
  Host.getActiveSpreadsheet w =
  match fault w GetActiveSpreadsheet with
  | Some x => (Throw x, w)
  | None => (Ok Host.ActiveSpreadsheet, w)
  end.
Proof.
  unfold Host.getActiveSpreadsheet, Host.called, bind, ret.
  now destruct (fault w GetActiveSpreadsheet).
Qed.

Lemma getSheetByName_run sp name w :
  Host.getSheetByName sp name w =
  match fault w GetSheetByName with
  | Some x => (Throw x, w)
  | None => (Ok (match sheets w !! name with
                 | Some _ => Some (Host.Sheet name)
                 | None => None
                 end), w)
  end.
Proof.
  unfold Host.getSheetByName, Host.called, bind.
  destruct (fault w GetSheetByName); [reflexivity|]. now destruct (sheets w !! name).
Qed.

Lemma insertSheet_run sp name w :
  Host.insertSheet sp name w =
  match fault w InsertSheet with
  | Some x => (Throw x, w)
  | None =>
      match sheets w !! name with
      | Some _ => (Throw (Error "Exception" "A sheet with that name already exists"), w)
      | None => (Ok (Host.Sheet name), with_sheets w (<[name := []]> (sheets w)))
      end
  end.
Proof.
  unfold Host.insertSheet, Host.called, bind.
  now destruct (fault w InsertSheet).
Qed.

Lemma getLastRow_run name w :
  Host.getLastRow (Host.Sheet name) w =
  match fault w GetLastRow with
  | Some x => (Throw x, w)
  | None =>
      match sheets w !! name with
      | Some s => (Ok (length s), w)
      | None => (Throw (Error "Exception" "The sheet no longer exists"), w)
      end
  end.
Proof.
  unfold Host.getLastRow, Host.called, Host.read, bind, ret.
  destruct (fault w GetLastRow); [reflexivity|]. now destruct (sheets w !! name).
Qed.

Lemma getRange_run h r c nr nc w :
  Host.getRange h r c nr nc w =
  match fault w (GetRange r c nr nc) with
  | Some x => (Throw x, w)
  | None =>
      (Ok {| Host.range_sheet := h; Host.range_row := r; Host.range_column := c;
             Host.range_numRows := nr; Host.range_numColumns := nc |}, w)
  end.
Proof.
  unfold Host.getRange, Host.called, bind, ret. now destruct (fault w (GetRange r c nr nc)).
Qed.

Lemma setValues_run name r c nr nc (values : list row) w :
  Host.setValues {| Host.range_sheet := Host.Sheet name; Host.range_row := r;
                    Host.range_column := c; Host.range_numRows := nr;
                    Host.range_numColumns := nc |} values w =
  match fault w (SetValues r c nr nc) with
  | Some x => (Throw x, w)
  | None =>
      if (length values =? nr)%nat && forallb (fun v : row => (length v =? nc)%nat) values
      then
        match sheets w !! name with
        | Some s =>
            (Ok tt, with_sheets w (<[name := Host.write_rows (r - 1) (c - 1) values s]> (sheets w)))
        | None => (Throw (Error "Exception" "The sheet no longer exists"), w)
        end
      else (Throw (Error "Exception" "The data does not match the dimensions of the range"), w)
  end.
Proof.
  unfold Host.setValues, Host.called, Host.read, Host.write, bind, ret, throw.
  cbn [Host.range_sheet Host.range_row Host.range_column Host.range_numRows
       Host.range_numColumns].
  destruct (fault w (SetValues r c nr nc)); [reflexivity|].
  destruct (_ && _); [|reflexivity]. now destruct (sheets w !! name).
Qed.

End HostRuns.

Section BootstrapAnyHost.
Context `{Engine}.

Lemma seeding_from w :
  sheets w !! "graph" = Some [] ->
  (let* top := Host.getRange (Host.Sheet "graph") 1 1 1 (length headers) in
   Host.setValues top [headers] >>
   let* below :=
     Host.getRange (Host.Sheet "graph") 2 1 (length sampleData)
       (length (nth 0 sampleData [])) in
   Host.setValues below sampleData) w = seeded w.
Proof.
  intros Hs. unfold seeded, header_getRange, header_setValues, samples_getRange,
    samples_setValues, bind.
  rewrite getRange_run.
  destruct (fault w (GetRange 1 1 1 (length headers))) eqn:F1; [reflexivity|].
  rewrite setValues_run.
  destruct (fault w (SetValues 1 1 1 (length headers))) eqn:F2; [reflexivity|].
  change ((length [headers] =? 1)%nat
          && forallb (fun v : row => (length v =? length headers)%nat) [headers]) with true.
  cbv iota. rewrite Hs, getRange_run. cbn [fault with_sheets].
  destruct (fault w (GetRange 2 1 (length sampleData) (length (nth 0 sampleData []))))
    eqn:F3; [reflexivity|].
  rewrite setValues_run. cbn [fault with_sheets sheets].
  destruct (fault w (SetValues 2 1 (length sampleData) (length (nth 0 sampleData []))))
    eqn:F4; [reflexivity|].
  change ((length sampleData =? length sampleData)%nat
          && forallb (fun v : row => (length v =? length (nth 0 sampleData []))%nat) sampleData)
    with true.
  cbv iota. rewrite lookup_insert_eq.
  unfold with_graph, with_sheets. cbn [now fault sheets]. now rewrite insert_insert_eq.
Qed.

(** Every run of [setupSheet], whatever the host does. *)
Lemma setupSheet_run w :
  setupSheet w =
  match fault w GetActiveSpreadsheet, fault w GetSheetByName with
  | Some x, _ => (Throw x, w)
  | None, Some x => (Throw x, w)
  | None, None =>
      match graph w with
      | Some s =>
          match fault w GetLastRow with
          | Some x => (Throw x, w)
          | None =>
              match s with
              | [] => seeded w
              | _ :: _ => (Ok tt, w)
              end
          end
      | None =>
          match fault w InsertSheet with
          | Some x => (Throw x, w)
          | None =>
              match fault w GetLastRow with
              | Some x => (Throw x, with_graph w [])
              | None => seeded (with_graph w [])
              end
          end
      end
  end.
Proof.
  unfold setupSheet, graph. unfold bind at 1. rewrite getActiveSpreadsheet_run.
  destruct (fault w GetActiveSpreadsheet) eqn:F1; [reflexivity|].
  unfold bind at 1. rewrite getSheetByName_run.
  destruct (fault w GetSheetByName) eqn:F2; [reflexivity|].
  destruct (sheets w !! "graph") as [s|] eqn:Hs.
  - unfold bind at 1. unfold ret at 1. unfold bind at 1. rewrite getLastRow_run, Hs.
    destruct (fault w GetLastRow) eqn:F3; [reflexivity|].
    destruct s as [|r s]; [|reflexivity].
    cbn [length Nat.eqb]. apply (seeding_from w Hs).
  - unfold bind at 1. rewrite insertSheet_run, Hs.
    destruct (fault w InsertSheet) eqn:F3; [reflexivity|].
    unfold bind at 1. rewrite getLastRow_run. cbn [fault with_sheets sheets].
    rewrite lookup_insert_eq.
    destruct (fault w GetLastRow) eqn:F4; [reflexivity|].
    cbn [length Nat.eqb].
    apply (seeding_from (with_sheets w (<["graph" := []]> (sheets w)))), lookup_insert_eq.
Qed.

(** What the two writes leave of the world: the sheet only is written. *)
Lemma seeded_frame w :
  exists s, (seeded w).2 = w \/ (seeded w).2 = with_graph w s.
Proof.
  unfold seeded.
  destruct (fault w header_getRange), (fault w header_setValues),
    (fault w samples_getRange), (fault w samples_setValues); cbn [snd]; eauto.
  Unshelve. all: exact [].
Qed.

(** X21: whatever the host does, [setupSheet] changes neither a sheet that
    has a row, nor another sheet, nor the clock. *)
Theorem setupSheet_never_overwrites w :
  (forall rows : sheet, graph w = Some rows -> rows <> [] -> (setupSheet w).2 = w) /\
  (forall name, name <> "graph" -> sheets (setupSheet w).2 !! name = sheets w !! name) /\
  now (setupSheet w).2 = now w.
Proof.
  assert (Hw : forall name s, name <> "graph" ->
                              sheets (with_graph w s) !! name = sheets w !! name)
    by (intros name s Hne; unfold with_graph; simpl; now apply lookup_insert_ne).
  assert (Hframe : forall w1, (w1 = w \/ exists s, w1 = with_graph w s) ->
             (seeded w1).2 = w \/ exists s, (seeded w1).2 = with_graph w s).
  { intros w1 Hw1. destruct (seeded_frame w1) as (s & [-> | ->]); [exact Hw1|].
    right. destruct Hw1 as [-> | (s1 & ->)]; [eauto|]. rewrite with_graph_twice. eauto. }
  assert (Hrun : (setupSheet w).2 = w \/ exists s, (setupSheet w).2 = with_graph w s).
  { rewrite setupSheet_run.
    destruct (fault w GetActiveSpreadsheet), (fault w GetSheetByName), (graph w) as [[|r s]|],
      (fault w GetLastRow), (fault w InsertSheet); cbn [snd]; eauto. }
  split; [|split].
  - intros rows Hg Hne. rewrite setupSheet_run, Hg.
    destruct (fault w GetActiveSpreadsheet), (fault w GetSheetByName), (fault w GetLastRow),
      rows; try reflexivity; congruence.
  - intros name Hne. destruct Hrun as [-> | (s & ->)]; [reflexivity | now apply Hw].
  - destruct Hrun as [-> | (s & ->)]; reflexivity.
Qed.

(** X22: [setupSheet] is not atomic.  When the sheet is absent and a call
    throws after the sheet was inserted, the run throws what the call
    throws, and the sheet stays.  When that call comes before the header
    row is written, the sheet is without rows, and a later run on a host
    that does not throw writes the header row and the sample rows.  When
    the header row is written and a call for the sample rows throws, the
    sheet keeps the header row alone, and no later run changes it: the
    sample rows are not written, whatever the host does. *)
Theorem setupSheet_interrupted w x :
  graph w = None ->
  fault w GetActiveSpreadsheet = None -> fault w GetSheetByName = None ->
  fault w InsertSheet = None ->
  (fault w GetLastRow = Some x \/
   fault w GetLastRow = None /\
   (fault w header_getRange = Some x \/
    fault w header_getRange = None /\ fault w header_setValues = Some x) ->
   setupSheet w = (Throw x, with_graph w []) /\
   forall w2,
     quiet w2 -> sheets w2 = sheets (with_graph w []) ->
     setupSheet w2 = (Ok tt, with_graph w2 (headers :: sampleData))) /\
  (fault w GetLastRow = None ->
   fault w header_getRange = None -> fault w header_setValues = None ->
   fault w samples_getRange = Some x \/
   fault w samples_getRange = None /\ fault w samples_setValues = Some x ->
   setupSheet w = (Throw x, with_graph w [headers]) /\
   forall w2,
     sheets w2 = sheets (with_graph w [headers]) ->
     (setupSheet w2).2 = w2 /\ graph (setupSheet w2).2 = Some [headers] /\
     (quiet w2 -> setupSheet w2 = (Ok tt, w2))).
Proof.
  intros Hg F1 F2 F3.
  assert (Hrun : setupSheet w =
                 match fault w GetLastRow with
                 | Some x => (Throw x, with_graph w [])
                 | None => seeded (with_graph w [])
                 end)
    by now rewrite setupSheet_run, F1, F2, Hg, F3.
  split.
  - intros Hf. split.
    + rewrite Hrun. unfold seeded. cbn [fault with_graph with_sheets].
      destruct Hf as [-> | [-> [-> | [-> ->]]]]; reflexivity.
    + intros w2 Hq Hs. rewrite setupSheet_run, !Hq.
      unfold graph. rewrite Hs. unfold with_graph at 1. cbn [sheets with_sheets].
      rewrite lookup_insert_eq. unfold seeded. now rewrite !Hq.
  - intros F4 F5 F6 Hf. split.
    + rewrite Hrun, F4. unfold seeded. cbn [fault with_graph with_sheets].
      rewrite F5, F6, with_graph_twice.
      destruct Hf as [-> | [-> ->]]; reflexivity.
    + intros w2 Hs.
      assert (Hg2 : graph w2 = Some [headers])
        by (unfold graph; rewrite Hs; apply graph_with_graph).
      assert (Hsame : (setupSheet w2).2 = w2).
      { rewrite setupSheet_run, Hg2.
        destruct (fault w2 GetActiveSpreadsheet), (fault w2 GetSheetByName),
          (fault w2 GetLastRow); reflexivity. }
      split; [exact Hsame|]. split; [now rewrite Hsame|].
      intros Hq. now rewrite setupSheet_run, !Hq, Hg2.
Qed.

End BootstrapAnyHost.

(** Runs on the reference engine. *)

Section Runs.
Import Reference.
#[local] Existing Instance engine.

Lemma world_of_quiet s t : quiet (world_of s t).
Proof. intros c. reflexivity. Qed.

(** The reference engine at work: numbers written with the fewest digits
    that read back; on each of them the search finds such a text, and
    [parseFloat] reads the number back from it. *)
Example NumberToString_run :
  map NumberToString [15000; 1 / 10; 1 / 3; 1e21; 1e22 * 10; 99.5; -2.5; 1 / 1e7;
                      3 / 1e6; 0; infinity; nan]%float =
  ["15000"; "0.1"; "0.3333333333333333"; "1e+21"; "1e+23"; "99.5"; "-2.5"; "1e-7";
   "0.000003"; "0"; "Infinity"; "NaN"].
Proof. vm_compute. reflexivity. Qed.

Example shortest_text_run :
  Forall (fun f => NumberToString f = shortest_text f /\ parseFloat (VNum f) = Num.read_back f)
         [15000; 1 / 10; 1 / 3; 1e21; 1e22 * 10; 99.5; -2.5; 1 / 1e7; 3 / 1e6; 0; -0;
          infinity; neg_infinity; nan]%float.
Proof. repeat (constructor; [split; vm_compute; reflexivity|]). constructor. Qed.

(** Dates read in the ISO format and written back. *)
Example DateParse_run :
  map DateParse ["2024-01-15"; "2024-02-30"; ""; "2024-01-15T10:30:00Z"; "soon"] =
  [Some 1705276800000; None; None; Some 1705314600000; None].
Proof. vm_compute. reflexivity. Qed.

Example formatDate_run :
  map formatDate [VStr "2024-01-15"; VStr ""; VStr "soon"; VDate (Some 1705314600000);
                  VNum 86400000; VDate None] =
  [VStr "2024-01-15"; VNull; VNull; VStr "2024-01-15"; VStr "1970-01-02"; VNull].
Proof. vm_compute. reflexivity. Qed.

(** The calendar at work: the epoch, the day before it, and two 29ths of
    February. *)
Example civil_run :
  map Date.civil [0; -1; 19782; 11016] =
  [(1970, 1, 1); (1969, 12, 31); (2024, 2, 29); (2000, 2, 29)] /\
  map Date.DayFromYear [1970; 1971; 2000; 2024] = [0; 365; 10957; 19723] /\
  map Date.DaysInYear [1900; 2000; 2023; 2024] = [365; 366; 365; 366].
Proof. vm_compute. repeat split. Qed.

(** A counter at work: a name counted twice, a name that an object inherits
    counted twice, and the name of the inherited accessor. *)
Example increment_run :
  let counts :=
    foldl increment ∅ [VStr "NA"; VStr "toString"; VStr "NA"; VStr "__proto__";
                       VStr "toString"] in
  counts !! "NA" = Some (Count 2) /\
  counts !! "toString" = Some (Text "function toString() { [native code] }11") /\
  counts !! "__proto__" = None.
Proof. vm_compute. repeat split. Qed.

(** A JSON text read and written back. *)
Example JSON_run :
  match JSON_parse (json_text " {'a': [1, 2.5e1, true, null], 'b': {'c': 'd'}, 'a': 'x'} ") with
  | Ok v => JSON_stringify v = json_text "{'a':'x','b':{'c':'d'}}"
  | Throw _ => False
  end.
Proof. vm_compute. reflexivity. Qed.

(** [doGet] on the header and one row without an identifier nor a date. *)
Example doGet_run :
  fst (doGet (world_of (Some [headers; [VStr ""; VStr ""; VStr "Site"; VStr "";
                                        VStr "NA"; VStr "12.50 EUR"; VStr ""]])
                       1705276800000)) =
  Ok {| getContent :=
          json_text "[{'orderId':'ORD-001','projectId':'PRJ-001','projectName':'Site','projectType':'Other','region':'NA','price':12.5,'date':'2024-01-15'}]";
        getMimeType := JSON |}.
Proof. vm_compute. reflexivity. Qed.

(** C9, on the reference engine: the text of the answer is [[]]. *)
Lemma doGet_header_only_witness :
  quiet (world_of (Some [headers]) 0) /\
  graph (world_of (Some [headers]) 0) = Some [headers] /\
  (length [headers] <= 1)%nat /\
  fst (doGet (world_of (Some [headers]) 0)) =
  Ok {| getContent := "[]"; getMimeType := JSON |}.
Proof.
  pose (w := world_of (Some [headers]) 0).
  assert (Hq : quiet w) by apply world_of_quiet.
  assert (Hg : graph w = Some [headers]) by reflexivity.
  assert (Hl : (length [headers] <= 1)%nat) by (simpl; lia).
  split; [exact Hq | split; [exact Hg | split; [exact Hl |]]].
  fold w. rewrite (doGet_header_only w [headers] Hq Hg Hl). reflexivity.
Defined.

(** C1, on the reference engine and the seeded sheet: the sixth record is
    numbered 006. *)
Lemma create_then_read_witness :
  let w := world_of (Some (headers :: sampleData)) 1705276800000 in
  let e := post "{'projectName':'Site','projectType':'Development','region':'NA','price':15000}" in
  quiet w /\
  graph w = Some (headers :: sampleData) /\
  exists newRow w',
    doPost e w =
    (Ok {| getContent :=
             json_text "{'success':true,'message':'Data added successfully','orderId':'ORD-006','projectId':'PRJ-006'}";
           getMimeType := JSON |}, w') /\
    graph w' = Some (headers :: sampleData ++ [newRow]) /\
    let record := rowToRecord (now w') newRow 5 in
    JS.prop record "projectName" = Ok (VStr "Site") /\
    JS.prop record "projectType" = Ok (VStr "Development") /\
    JS.prop record "region" = Ok (VStr "NA") /\
    JS.prop record "price" = Ok (VNum 15000) /\
    JS.prop record "orderId" = Ok (VStr "ORD-006") /\
    JS.prop record "projectId" = Ok (VStr "PRJ-006").
Proof.
  intros w e.
  assert (Hq : quiet w) by apply world_of_quiet.
  assert (Hg : graph w = Some (headers :: sampleData)) by reflexivity.
  split; [exact Hq | split; [exact Hg |]].
  destruct (create_then_read (H := Reference.engine) e w
              (json_text "{'projectName':'Site','projectType':'Development','region':'NA','price':15000}")
              (VObj [("projectName", VStr "Site"); ("projectType", VStr "Development");
                     ("region", VStr "NA"); ("price", VNum 15000)])
              headers sampleData "Site" "Development" "NA" 15000%float
              Hq Hg eq_refl ltac:(vm_compute; reflexivity)
              eq_refl ltac:(discriminate) eq_refl ltac:(discriminate)
              eq_refl ltac:(discriminate) eq_refl eq_refl eq_refl)
    as (newRow & w' & Hpost & Hg' & _ & Hname & Htype & Hregion & Hprice & Hoid & Hpid).
  exists newRow, w'. split; [exact Hpost|]. split; [exact Hg'|].
  repeat split; assumption.
Defined.

(** C2, refuted as stated: a price cell that reads [Infinity] gives a price
    that is not finite. *)
Lemma rowToRecord_price_not_finite :
  ~ finite_price (rowToRecord 0 infinite_row 0).
Proof.
  intros (f & Hf & Hfin). injection Hf as <-. discriminate Hfin.
Qed.

(** C3, on a body whose price is 0: the answer and the untouched sheet. *)
Lemma doPost_missing_required_fields_witness :
  let w := world_of (Some (headers :: sampleData)) 0 in
  let e := post "{'projectName':'Site','projectType':'Development','region':'NA','price':0}" in
  postData e = Some {| contents := json_text "{'projectName':'Site','projectType':'Development','region':'NA','price':0}" |} /\
  absent_or_zero
    (VObj [("projectName", VStr "Site"); ("projectType", VStr "Development");
           ("region", VStr "NA"); ("price", VNum 0)]) "price" /\
  doPost e w =
  (Ok {| getContent := json_text "{'error':'Missing required fields'}";
         getMimeType := JSON |}, w).
Proof.
  intros w e.
  assert (Hz : absent_or_zero
                 (VObj [("projectName", VStr "Site"); ("projectType", VStr "Development");
                        ("region", VStr "NA"); ("price", VNum 0)]) "price").
  { right. exists 0%float. split; reflexivity. }
  split; [reflexivity | split; [exact Hz |]].
  exact (doPost_missing_required_fields (H := Reference.engine) e w _ _ eq_refl
           ltac:(vm_compute; reflexivity) (or_introl Hz)).
Defined.

(** C4, on the reference engine and the two example rows under the
    header. *)
Lemma getStatistics_correct_witness :
  let w := world_of (Some (headers :: example_rows)) 0 in
  quiet w /\
  getStatistics w =
  (Ok {| totalOrders := 2; totalRevenue := 15000; avgPrice := 7500;
         projectTypeCounts := {["Development" := Count 1; "Design" := Count 1]};
         regionCounts := {["NA" := Count 1; "EU" := Count 1]} |}, w).
Proof.
  intros w.
  assert (Hq : quiet w) by apply world_of_quiet.
  split; [exact Hq|].
  destruct (getStatistics_correct w Hq) as (_ & _ & _ & _ & Hex).
  exact (Hex headers eq_refl).
Defined.

(** C4, refuted as stated, on two rows under the header: the project
    type of the first is the number 0, which is not blank, and the
    row is counted under "Other", not under "0"; the project type of the
    second is [constructor], under which the counter holds a text, not the
    count 1; its region is [__proto__], under which nothing is stored. *)
Lemma getStatistics_counts_not_as_claimed :
  let s := headers :: odd_rows in
  let w := world_of (Some s) 0 in
  exists st,
    getStatistics w = (Ok st, w) /\
    ~ blank (VNum 0) /\
    projectTypeCounts st !! "0" = None /\
    projectTypeCounts st !! "Other" = Some (Count 1) /\
    projectTypeCounts st !! "constructor" =
      Some (Text "function Object() { [native code] }1") /\
    regionCounts st !! "__proto__" = None /\
    regionCounts st !! "NA" = Some (Count 1) /\
    ~ (forall k, projectTypeCounts st !! k =
                 let n := occurrences projectType_unless_blank k (data_rows s) in
                 if (n =? 0)%nat then None else Some (Count n)) /\
    ~ (forall k, regionCounts st !! k =
                 let n := occurrences region_unless_blank k (data_rows s) in
                 if (n =? 0)%nat then None else Some (Count n)).
Proof.
  intros s w. eexists.
  split; [apply (getStatistics_quiet w s); [apply world_of_quiet | reflexivity]|].
  cbn [projectTypeCounts regionCounts].
  split; [intros [?|?]; discriminate|].
  do 5 (split; [vm_compute; reflexivity|]).
  split; intros Hc.
  - specialize (Hc "0"). vm_compute in Hc. discriminate.
  - specialize (Hc "__proto__"). vm_compute in Hc. discriminate.
Qed.

(** C5, on the seeded sheet: the one Design project of January 2024. *)
Lemma getDataByFilter_correct_witness :
  let w := world_of (Some (headers :: sampleData)) 0 in
  quiet w /\
  graph w = Some (headers :: sampleData) /\
  well_dated (VObj design_in_january) sampleData /\
  getDataByFilter (VObj design_in_january) w = (Ok [nth 1 sampleData []], w).
Proof.
  intros w.
  assert (Hq : quiet w) by apply world_of_quiet.
  assert (Hg : graph w = Some (headers :: sampleData)) by reflexivity.
  assert (Hwd : well_dated (VObj design_in_january) sampleData).
  { intros _ _. split; [eexists; reflexivity | split; [eexists; reflexivity |]].
    repeat constructor; eexists; reflexivity. }
  split; [exact Hq | split; [exact Hg | split; [exact Hwd |]]].
  rewrite (getDataByFilter_correct (H := Reference.engine)
             design_in_january w (headers :: sampleData) Hq Hg Hwd).
  reflexivity.
Defined.

(** C5, refuted as stated: with a range of dates given, a row whose date
    cell is blank is returned, although it has no date in the range. *)
Lemma getDataByFilter_keeps_undated :
  getDataByFilter year_2024 (world_of (Some [headers; blank_row]) 0) =
  (Ok [blank_row], world_of (Some [headers; blank_row]) 0) /\
  given year_2024 "startDate" /\
  given year_2024 "endDate" /\
  ~ dated_within year_2024 blank_row /\
  ~ meets year_2024 blank_row.
Proof.
  split; [reflexivity | split; [reflexivity | split; [reflexivity |]]].
  split; [intros []|].
  intros (_ & _ & Hd). exact (Hd eq_refl eq_refl).
Qed.

(** A criterion that is present and empty is not given: every row passes
    it, whatever its cell. *)
Lemma getDataByFilter_empty_criterion :
  getDataByFilter (VObj [("projectType", VStr "")])
    (world_of (Some (headers :: sampleData)) 0) =
  (Ok sampleData, world_of (Some (headers :: sampleData)) 0).
Proof. reflexivity. Qed.

(** C6, on a row with blank cells and a price that is not a number. *)
Lemma rowToRecord_defaults_witness :
  let record := rowToRecord 1705276800000 blank_row 0 in
  blank (JS.index blank_row 3) /\
  unparseable (JS.index blank_row 5) /\
  JS.prop record "projectType" = Ok (VStr "Other") /\
  JS.prop record "region" = Ok (VStr "Unknown") /\
  JS.prop record "projectName" = Ok (VStr "Unnamed Project") /\
  JS.prop record "price" = Ok (VNum 0) /\
  JS.prop record "date" = Ok (VStr "2024-01-15").
Proof.
  intros record.
  assert (Hb : forall i, In i [2; 3; 4]%nat -> blank (JS.index blank_row i)).
  { intros i [<- | [<- | [<- | []]]]; left; reflexivity. }
  assert (Hu : unparseable (JS.index blank_row 5)) by reflexivity.
  destruct (rowToRecord_defaults 1705276800000 blank_row 0)
    as (Htype & Hregion & Hname & Hprice & _ & _ & Hdate & _).
  split; [apply Hb; simpl; auto | split; [exact Hu |]].
  split; [apply Htype, Hb; simpl; auto |].
  split; [apply Hregion, Hb; simpl; auto |].
  split; [apply Hname, Hb; simpl; auto |].
  split; [exact (Hprice Hu) |].
  exact (Hdate eq_refl).
Defined.

(** C7, without the sheet: six rows after one run, and after four. *)
Lemma setupSheet_idempotent_witness :
  let w := world_of None 0 in
  quiet w /\ graph w = None /\
  exists w1,
    setupSheet w = (Ok tt, w1) /\
    graph w1 = Some (headers :: sampleData) /\
    length (headers :: sampleData) = 6%nat /\
    times 3 setupSheet w1 = (Ok tt, w1).
Proof.
  intros w.
  assert (Hq : quiet w) by apply world_of_quiet.
  split; [exact Hq | split; [reflexivity |]].
  destruct (setupSheet_idempotent w Hq) as (Hseed & _).
  destruct (Hseed (or_introl eq_refl)) as (w1 & Hrun & Hg & Hlen & Hagain).
  exists w1. split; [exact Hrun | split; [exact Hg | split; [exact Hlen | apply Hagain]]].
Defined.

(** C8, on a host whose spreadsheet service throws and on a body that is
    not JSON: both handlers answer an error object. *)
Lemma handlers_never_throw_witness :
  let w := {| sheets := ∅; now := 0;
              fault := fun _ => Some (Error "Exception" "Service unavailable") |} in
  (exists out, doGet w = (Ok out, w) /\ is_error out) /\
  (exists out, doPost (post "{'projectName':") w = (Ok out, w) /\ is_error out).
Proof.
  intros w. destruct handlers_never_throw as (Hget & Hpost). split.
  - destruct (Hget w) as (out & Hrun & _ & _ & Hfault).
    exists out. split; [exact Hrun|].
    apply Hfault. exists GetActiveSpreadsheet. eexists. split; [left|]; reflexivity.
  - destruct (Hpost (post "{'projectName':") w) as (out & w' & Hrun & _ & _ & Hbody & _).
    destruct Hbody as [Herr ->].
    { right. do 2 eexists. split; reflexivity. }
    exists out. split; [exact Hrun | exact Herr].
Defined.

(** C10, without the sheet: the empty list for any criteria. *)
Lemma getDataByFilter_without_sheet_witness :
  let w := world_of None 0 in
  quiet w /\ graph w = None /\
  getDataByFilter year_2024 w = (Ok [], w) /\
  fst (doGet w) =
  Ok {| getContent :=
          json_text "{'error':'Sheet \'graph\' not found. Please create a sheet named \'graph\' with the required columns.'}";
        getMimeType := JSON |}.
Proof.
  intros w.
  assert (Hq : quiet w) by apply world_of_quiet.
  split; [exact Hq | split; [reflexivity |]].
  destruct (getDataByFilter_without_sheet year_2024 w Hq eq_refl) as (Hnone & _).
  split; [exact Hnone | reflexivity].
Defined.

End Runs.

(** * The properties beyond the specification, on the reference engine *)

Section MoreRuns.
Import Reference.
#[local] Existing Instance engine.

Lemma text_price_parses : JSON_parse (json_text text_price_body) = Ok text_price_data.
Proof. vm_compute. reflexivity. Qed.

Lemma text_price_valid : valid text_price_data.
Proof. repeat split. Qed.

(** X1, on a spreadsheet without sheets: the two answers. *)
Lemma handlers_without_sheet_witness :
  let w := world_of None 0 in
  quiet w /\ graph w = None /\
  doGet w =
  (Ok {| getContent :=
           json_text "{'error':'Sheet \'graph\' not found. Please create a sheet named \'graph\' with the required columns.'}";
         getMimeType := JSON |}, w) /\
  doPost (post text_price_body) w =
  (Ok {| getContent :=
           json_text "{'error':'Sheet \'graph\' not found. Please create a sheet named \'graph\' first.'}";
         getMimeType := JSON |}, w).
Proof.
  intros w.
  assert (Hq : quiet w) by apply world_of_quiet.
  assert (Hg : graph w = None) by reflexivity.
  split; [exact Hq | split; [exact Hg |]].
  destruct (handlers_without_sheet (H := Reference.engine) w Hq Hg) as [Hget Hpost].
  split; [exact Hget|].
  exact (Hpost (post text_price_body) _ _ eq_refl text_price_parses text_price_valid).
Defined.

(** X3, on a sheet without rows and a body whose price is a text. *)
Lemma doPost_stores_as_given_witness :
  let w := world_of (Some []) 1705276800000 in
  quiet w /\ graph w = Some [] /\ valid text_price_data /\
  exists w',
    doPost (post text_price_body) w =
    (Ok {| getContent :=
             json_text "{'success':true,'message':'Data added successfully','orderId':'ORD-000','projectId':'PRJ-000'}";
           getMimeType := JSON |}, w') /\
    graph w' =
    Some [[VStr "ORD-000"; VStr "PRJ-000"; VStr "Site"; VStr "Development"; VStr "NA";
           VStr "12abc"; VStr "2024-01-15"]].
Proof.
  intros w.
  assert (Hq : quiet w) by apply world_of_quiet.
  assert (Hg : graph w = Some []) by reflexivity.
  split; [exact Hq | split; [exact Hg | split; [exact text_price_valid |]]].
  destruct (doPost_stores_as_given (H := Reference.engine) (post text_price_body) w _ _ []
              Hq Hg eq_refl text_price_parses text_price_valid)
    as (w' & Hrun & Hg' & _).
  exists w'. split; [exact Hrun | exact Hg'].
Defined.

(** X4, on a sheet without rows: the record 000 is stored, and the list is
    empty. *)
Lemma first_row_is_not_listed_witness :
  let w := world_of (Some []) 1705276800000 in
  quiet w /\ graph w = Some [] /\
  exists w',
    doPost (post text_price_body) w =
    (Ok {| getContent :=
             json_text "{'success':true,'message':'Data added successfully','orderId':'ORD-000','projectId':'PRJ-000'}";
           getMimeType := JSON |}, w') /\
    doGet w' = (Ok {| getContent := "[]"; getMimeType := JSON |}, w').
Proof.
  intros w.
  assert (Hq : quiet w) by apply world_of_quiet.
  assert (Hg : graph w = Some []) by reflexivity.
  split; [exact Hq | split; [exact Hg |]].
  destruct (first_row_is_not_listed (H := Reference.engine) (post text_price_body) w _ _
              Hq Hg eq_refl text_price_parses text_price_valid)
    as (w' & Hrun & Hg' & Hget).
  assert (Ew : w' = with_graph w [rowData text_price_data 0 (now w)]).
  { pose proof (eq_trans (eq_sym Hrun)
                  (doPost_stores (post text_price_body) w _ _ [] Hq Hg eq_refl
                     text_price_parses text_price_valid)) as E.
    now injection E. }
  exists w'. split; [exact Hrun|].
  apply Hget; [|reflexivity]. rewrite Ew. apply quiet_with_graph, Hq.
Defined.

(** X5, on the header row: two requests, the second one a day later. *)
Lemma doPost_twice_witness :
  let w := world_of (Some [headers]) 1705276800000 in
  let w1' := world_of (Some [headers; rowData text_price_data 1 1705276800000]) 1705363200000 in
  let e := post text_price_body in
  quiet w /\ graph w = Some [headers] /\
  exists w1 w2,
    doPost e w = (Ok (created 1), w1) /\ graph w1' = graph w1 /\
    doPost e w1' = (Ok (created 2), w2) /\
    map (fun r : row => [JS.index r 0; JS.index r 6]) <$> graph w2 =
    Some [[VStr "Order ID"; VStr "Date"]; [VStr "ORD-001"; VStr "2024-01-15"];
          [VStr "ORD-002"; VStr "2024-01-16"]].
Proof.
  intros w w1' e.
  assert (Hq : quiet w) by apply world_of_quiet.
  assert (Hg : graph w = Some [headers]) by reflexivity.
  split; [exact Hq | split; [exact Hg |]].
  destruct (doPost_twice (H := Reference.engine) e e w _ _ _ _ [headers]
              Hq Hg eq_refl text_price_parses text_price_valid
              eq_refl text_price_parses text_price_valid)
    as (w1 & H1 & Hnext).
  assert (Ew : w1 = with_graph w [headers; rowData text_price_data 1 (now w)]).
  { pose proof (eq_trans (eq_sym H1)
                  (doPost_stores e w _ _ [headers] Hq Hg eq_refl
                     text_price_parses text_price_valid)) as E.
    now injection E. }
  assert (Hg1 : graph w1' = graph w1) by (rewrite Ew; reflexivity).
  destruct (Hnext w1' (world_of_quiet _ _) Hg1) as (w2 & H2 & Hg2).
  exists w1, w2. split; [exact H1|]. split; [exact Hg1|]. split; [exact H2|].
  now rewrite Hg2.
Defined.

(** X6, on the header and the row 002: the new row is numbered 002 too. *)
Lemma doPost_repeats_an_identifier_witness :
  let kept : row := [VStr "ORD-002"; VStr "PRJ-002"; VStr "Logo"; VStr "Design"; VStr "EU";
                     VNum 8000; VStr "2024-01-20"] in
  let w := world_of (Some [headers; kept]) 1705276800000 in
  quiet w /\ graph w = Some [headers; kept] /\
  exists w' s' r',
    doPost (post text_price_body) w = (Ok (created 2), w') /\
    graph w' = Some s' /\ s' !! 1%nat = Some kept /\ s' !! 2%nat = Some r' /\
    JS.index r' 0 = VStr "ORD-002".
Proof.
  intros kept w.
  assert (Hq : quiet w) by apply world_of_quiet.
  assert (Hg : graph w = Some [headers; kept]) by reflexivity.
  split; [exact Hq | split; [exact Hg |]].
  destruct (doPost_repeats_an_identifier (H := Reference.engine) (post text_price_body) w
              _ _ [headers; kept] 1 kept Hq Hg eq_refl text_price_parses text_price_valid
              eq_refl eq_refl)
    as (w' & s' & r' & Hrun & Hg' & H1 & H2 & _ & Hid).
  exists w', s', r'. repeat split; assumption.
Defined.

(** X7, on an array and on [null]. *)
Lemma doPost_refuses_non_objects_witness :
  let w := world_of (Some (headers :: sampleData)) 0 in
  doPost (post "[1, 2]") w =
  (Ok {| getContent := json_text "{'error':'Missing required fields'}";
         getMimeType := JSON |}, w) /\
  doPost (post "null") w =
  (Ok (createErrorResponse
         "Failed to add data: Cannot read properties of null (reading 'projectName')"), w).
Proof.
  intros w. split.
  - destruct (doPost_refuses_non_objects (H := Reference.engine) (post "[1, 2]") w _
                (VArr [VNum 1; VNum 2]) eq_refl ltac:(vm_compute; reflexivity)
                ltac:(discriminate)) as (msg & Hrun & Hmsg).
    simpl in Hmsg. subst msg. exact Hrun.
  - destruct (doPost_refuses_non_objects (H := Reference.engine) (post "null") w _
                VNull eq_refl ltac:(vm_compute; reflexivity)
                ltac:(discriminate)) as (msg & Hrun & Hmsg).
    simpl in Hmsg. subst msg. exact Hrun.
Defined.

(** X9, on a row without cells at the positions 42 and 1234. *)
Lemma generated_identifiers_witness :
  JS.prop (rowToRecord 0 [] 41) "orderId" = Ok (VStr "ORD-042") /\
  JS.prop (rowToRecord 0 [] 41) "projectId" = Ok (VStr "PRJ-042") /\
  JS.prop (rowToRecord 0 [] 1233) "orderId" = Ok (VStr "ORD-1234").
Proof.
  destruct (generated_identifiers (H := Reference.engine) 0 [] 41 eq_refl eq_refl)
    as (nnn & Ho & Hp & _).
  assert (Hn : nnn = "042").
  { change (JS.prop (rowToRecord 0 [] 41) "orderId") with (Ok (VStr ("ORD-" +:+ "042"))) in Ho.
    now injection Ho. }
  subst nnn. split; [exact Ho | split; [exact Hp | reflexivity]].
Defined.


(** X16, on the seeded sheet and on the header row alone. *)
Lemma getDataByFilter_null_criteria_witness :
  let w := world_of (Some (headers :: sampleData)) 0 in
  quiet w /\ graph w = Some (headers :: sampleData) /\
  getDataByFilter VUndefined w =
  (Throw (Error "TypeError" "Cannot read properties of undefined (reading 'projectType')"), w) /\
  getDataByFilter VUndefined (world_of (Some [headers]) 0) = (Ok [], world_of (Some [headers]) 0).
Proof.
  intros w.
  assert (Hq : quiet w) by apply world_of_quiet.
  assert (Hg : graph w = Some (headers :: sampleData)) by reflexivity.
  split; [exact Hq | split; [exact Hg |]].
  split.
  - destruct (getDataByFilter_null_criteria (H := Reference.engine) VUndefined w
                (headers :: sampleData) Hq Hg (or_intror eq_refl)) as (x & Hx & Hrun).
    injection Hx as <-. exact Hrun.
  - destruct (getDataByFilter_null_criteria (H := Reference.engine) VUndefined
                (world_of (Some [headers]) 0) [headers] (world_of_quiet _ _) eq_refl
                (or_intror eq_refl)) as (x & _ & Hrun).
    exact Hrun.
Defined.

(** X15, on the seeded sheet: the empty object, and a start date alone. *)
Lemma getDataByFilter_without_criteria_witness :
  let w := world_of (Some (headers :: sampleData)) 0 in
  quiet w /\ graph w = Some (headers :: sampleData) /\
  getDataByFilter (VObj []) w = (Ok sampleData, w) /\
  getDataByFilter (VObj [("startDate", VStr "2024-01-01")]) w = (Ok sampleData, w).
Proof.
  intros w.
  assert (Hq : quiet w) by apply world_of_quiet.
  assert (Hg : graph w = Some (headers :: sampleData)) by reflexivity.
  split; [exact Hq | split; [exact Hg |]].
  split.
  - exact (getDataByFilter_without_criteria (H := Reference.engine) (VObj []) w _ Hq Hg
             ltac:(discriminate) ltac:(discriminate) eq_refl eq_refl eq_refl).
  - exact (getDataByFilter_without_criteria (H := Reference.engine)
             (VObj [("startDate", VStr "2024-01-01")]) w _ Hq Hg
             ltac:(discriminate) ltac:(discriminate) eq_refl eq_refl eq_refl).
Defined.

(** X14, on a row with a blank date and the range of the year 2024. *)
Lemma getDataByFilter_complete_witness :
  let w := world_of (Some [headers; blank_row]) 0 in
  quiet w /\ graph w = Some [headers; blank_row] /\
  Date.construct (JS.index blank_row 6) = None /\
  exists rows, getDataByFilter year_2024 w = (Ok rows, w) /\ blank_row ∈ rows.
Proof.
  intros w.
  assert (Hq : quiet w) by apply world_of_quiet.
  assert (Hg : graph w = Some [headers; blank_row]) by reflexivity.
  assert (Hd : Date.construct (JS.index blank_row 6) = None) by reflexivity.
  split; [exact Hq | split; [exact Hg | split; [exact Hd |]]].
  destruct (getDataByFilter_complete (H := Reference.engine) year_2024 w _ Hq Hg
              ltac:(discriminate) ltac:(discriminate)) as [Hrun Hin].
  eexists. split; [exact Hrun|].
  apply Hin; [apply list_elem_of_here | discriminate | discriminate | left; exact Hd].
Defined.

(** X18, on a host where every call throws. *)
Lemma helpers_propagate_host_errors_witness :
  getDataByFilter (VObj []) (failing ∅) = (Throw service_error, failing ∅) /\
  getStatistics (failing ∅) = (Throw service_error, failing ∅).
Proof.
  destruct (helpers_propagate_host_errors (H := Reference.engine) (VObj []) (failing ∅))
    as [[x Hf] [x' Hs]].
  { left. exists GetActiveSpreadsheet, service_error. split; [left|]; reflexivity. }
  assert (Ex : x = service_error).
  { pose proof (eq_trans (eq_sym Hf)
                  (eq_refl : getDataByFilter (VObj []) (failing ∅)
                             = (Throw service_error, failing ∅))) as E.
    now injection E. }
  assert (Ex' : x' = service_error).
  { pose proof (eq_trans (eq_sym Hs)
                  (eq_refl : getStatistics (failing ∅) = (Throw service_error, failing ∅))) as E.
    now injection E. }
  subst x x'. split; assumption.
Defined.

(** X22, on a host where every [setValues] throws: the sheet is left
    without rows, and a run on a host that does not throw then seeds it;
    and on a host where [setValues] throws for the sample rows: the sheet
    is left with the header row, and a run on a host that does not throw
    leaves it so. *)
Lemma setupSheet_interrupted_witness :
  let w := failing_setValues ∅ in
  let w' := failing_samples ∅ in
  let empty := world_of (Some []) 0 in
  let headed := world_of (Some [headers]) 0 in
  (setupSheet w = (Throw service_error, with_graph w []) /\
   setupSheet empty = (Ok tt, with_graph empty (headers :: sampleData))) /\
  (setupSheet w' = (Throw service_error, with_graph w' [headers]) /\
   setupSheet headed = (Ok tt, headed)).
Proof.
  intros w w' empty headed. split.
  - destruct (setupSheet_interrupted w service_error eq_refl eq_refl eq_refl eq_refl)
      as [Hbefore _].
    destruct (Hbefore (or_intror (conj eq_refl (or_intror (conj eq_refl eq_refl)))))
      as [Hrun Hnext].
    split; [exact Hrun|]. apply Hnext; [apply world_of_quiet | reflexivity].
  - destruct (setupSheet_interrupted w' service_error eq_refl eq_refl eq_refl eq_refl)
      as [_ Hafter].
    destruct (Hafter eq_refl eq_refl eq_refl (or_intror (conj eq_refl eq_refl)))
      as [Hrun Hnext].
    split; [exact Hrun|].
    destruct (Hnext headed eq_refl) as (_ & _ & Hquiet).
    apply Hquiet, world_of_quiet.
Defined.

(** X19, on the seeded sheet: five rows, five project types, five regions. *)
Lemma getStatistics_counts_add_up_witness :
  let w := world_of (Some (headers :: sampleData)) 0 in
  quiet w /\ graph w = Some (headers :: sampleData) /\
  exists st,
    getStatistics w = (Ok st, w) /\ totalOrders st = 5%nat /\
    count_total (projectTypeCounts st) = 5%nat /\ count_total (regionCounts st) = 5%nat /\
    all_counts (projectTypeCounts st) /\ all_counts (regionCounts st).
Proof.
  intros w.
  assert (Hq : quiet w) by apply world_of_quiet.
  assert (Hg : graph w = Some (headers :: sampleData)) by reflexivity.
  split; [exact Hq | split; [exact Hg |]].
  assert (Hown : Forall (fun r => (projectType_of r ∉ inherited) /\ (region_of r ∉ inherited))
                        (data_rows (headers :: sampleData)))
    by (apply (bool_decide_unpack _); vm_compute; reflexivity).
  destruct (getStatistics_counts_add_up (H := Reference.engine) w _ Hq Hg Hown)
    as (st & Hrun & Ht & Hr & Hpa & Hra).
  assert (H5 : totalOrders st = 5%nat).
  { rewrite (getStatistics_quiet w _ Hq Hg) in Hrun. now injection Hrun as <-. }
  exists st. rewrite Ht, Hr. repeat split; assumption.
Defined.

(** X20, on the seeded sheet. *)
Lemma list_and_statistics_agree_witness :
  let w := world_of (Some (headers :: sampleData)) 0 in
  quiet w /\ graph w = Some (headers :: sampleData) /\
  exists records st,
    doGet w = (Ok (createJsonResponse (VArr records)), w) /\
    getStatistics w = (Ok st, w) /\
    length records = 5%nat /\ totalOrders st = 5%nat /\
    totalRevenue st = total (map price_of records).
Proof.
  intros w.
  assert (Hq : quiet w) by apply world_of_quiet.
  assert (Hg : graph w = Some (headers :: sampleData)) by reflexivity.
  split; [exact Hq | split; [exact Hg |]].
  destruct (list_and_statistics_agree (H := Reference.engine) w _ Hq Hg)
    as (st & Hget & Hstat & Hn & Hsum).
  exists (records_of (now w) (headers :: sampleData)), st.
  split; [exact Hget|]. split; [exact Hstat|]. split; [reflexivity|].
  split; [rewrite Hn; reflexivity | exact Hsum].
Defined.

(** X8, on the seeded sheet: five records, then six. *)
Lemma doPost_extends_the_list_witness :
  let w := world_of (Some (headers :: sampleData)) 1705276800000 in
  let newRow := rowData text_price_data 6 1705276800000 in
  let w2 := world_of (Some (headers :: sampleData ++ [newRow])) 1705363200000 in
  let w0 := world_of (Some (headers :: sampleData)) 1705363200000 in
  quiet w /\ graph w = Some (headers :: sampleData) /\
  exists w' before,
    doPost (post text_price_body) w = (Ok (created 6), w') /\
    graph w2 = graph w' /\
    doGet w0 = (Ok (createJsonResponse (VArr before)), w0) /\
    doGet w2 =
    (Ok (createJsonResponse (VArr (before ++ [rowToRecord (now w2) newRow 5]))), w2) /\
    length before = 5%nat /\
    JS.prop (rowToRecord (now w2) newRow 5) "orderId" = Ok (VStr "ORD-006") /\
    JS.prop (rowToRecord (now w2) newRow 5) "price" = Ok (VNum 12).
Proof.
  intros w newRow w2 w0.
  assert (Hq : quiet w) by apply world_of_quiet.
  assert (Hg : graph w = Some (headers :: sampleData)) by reflexivity.
  split; [exact Hq | split; [exact Hg |]].
  destruct (doPost_extends_the_list (H := Reference.engine) (post text_price_body) w _ _
              headers sampleData Hq Hg eq_refl text_price_parses text_price_valid)
    as (w' & r & Hpost & Hg' & Hget).
  assert (Er : r = newRow).
  { pose proof (eq_trans (eq_sym Hpost)
                  (doPost_stores (post text_price_body) w _ _ _ Hq Hg eq_refl
                     text_price_parses text_price_valid)) as E.
    injection E as E. rewrite E, graph_with_graph in Hg'. now injection Hg'. }
  subst r.
  assert (Hg2 : graph w2 = graph w') by (rewrite Hg'; reflexivity).
  destruct (Hget w0 w2 (world_of_quiet _ _) eq_refl (world_of_quiet _ _) Hg2 eq_refl)
    as (H0 & H2).
  exists w', (records_of (now w0) (headers :: sampleData)).
  split; [exact Hpost|]. split; [exact Hg2|]. split; [exact H0|].
  split; [exact H2|]. repeat split.
Defined.

End MoreRuns.
